(** * s3-simple-storage-service: a shallow embedding of the storage engine

    The development follows the packages of the repository:
    - [gostd]   : the functions of Go's standard library the handlers call
                  ([strings], [strconv], [encoding/hex], [time]);
    - [base64]  : [encoding/base64]'s RawURLEncoding, for the continuation
                  token of a listing;
    - [db]      : [internal/db], the GORM models and repository functions,
                  over tables kept as lists of rows in rowid order;
    - [storage] : [internal/storage], the blob driver, blob id -> bytes;
    - [server]  : [internal/server], the router, the object, bucket,
                  listing and lifecycle handlers, the lifecycle worker and
                  the blob collector;
    - [auth]    : [internal/auth], SigV4 verification and the middleware.

    Conventions.  Go's [uint], [int] and [int64] are [Z]; where the source
    can overflow ([int64] range arithmetic in [handleGet]) the wrap-around
    is written out.  A Go [string] or [[]byte] is a [string] (a sequence of
    8-bit characters).  A [*T] that may be nil is an [option].  Instants are
    Unix seconds; the time [VerifySigV4] parses keeps its nanoseconds, and
    a [time.Duration] is its count of nanoseconds.  Database and file-system I/O never fails in the model;
    the only database errors are the ones the schema itself raises (a
    duplicate primary key or unique index, GORM's refusal of a delete
    without a condition) and [ErrNotFound].  SQLite runs without
    foreign-key enforcement.  Random identifiers ([genHex]) are drawn from
    an entropy source carried by the server state. *)

From Stdlib Require Import ZArith List String Ascii Bool Lia.
Import ListNotations.
Local Open Scope string_scope.
Local Open Scope Z_scope.

(** [crypto/sha256] and [crypto/hmac] are taken as given: [sha256_Sum] is
    the 32-byte digest of a message, [hmac_SHA256 key data] the 32-byte MAC. *)
Class Crypto := {
  sha256_Sum : string -> string;
  hmac_SHA256 : string -> string -> string }.

(* ================================================================== *)
(** ** Go standard library                                             *)
(* ================================================================== *)

Module gostd.

(** [int64] wrap-around: the value of a two's-complement 64-bit result. *)
Definition wrap64 (z : Z) : Z := (z + 2 ^ 63) mod 2 ^ 64 - 2 ^ 63.

Definition maxInt64 : Z := 2 ^ 63 - 1.
Definition minInt64 : Z := - 2 ^ 63.

Definition len (s : string) : Z := Z.of_nat (String.length s).

(** The double quote, as a byte and as a one-byte string. *)
Definition quote : ascii := ascii_of_N 34.
Definition dquote : string := String quote EmptyString.

(** [strings.HasPrefix s p] *)
Definition HasPrefix (s p : string) : bool := String.prefix p s.

(** [strings.TrimPrefix s p] *)
Definition TrimPrefix (s p : string) : string :=
  if String.prefix p s
  then String.substring (String.length p) (String.length s - String.length p) s
  else s.

(** [strings.IndexByte s c]: index of the first [c], or [None] for -1. *)
Fixpoint IndexByte (s : string) (c : ascii) : option nat :=
  match s with
  | EmptyString => None
  | String d s' =>
      if Ascii.eqb d c then Some O
      else match IndexByte s' c with
           | Some i => Some (S i)
           | None => None
           end
  end.

(** [s[:i]] and [s[i:]] *)
Definition slice_to (s : string) (i : nat) : string := String.substring 0 i s.
Definition slice_from (s : string) (i : nat) : string :=
  String.substring i (String.length s - i) s.

Fixpoint rev_string_acc (s acc : string) : string :=
  match s with
  | EmptyString => acc
  | String c s' => rev_string_acc s' (String c acc)
  end.
Definition rev_string (s : string) : string := rev_string_acc s "".

Fixpoint trim_left (keep : ascii -> bool) (s : string) : string :=
  match s with
  | EmptyString => EmptyString
  | String c s' => if keep c then s else trim_left keep s'
  end.

Definition trim_both (keep : ascii -> bool) (s : string) : string :=
  rev_string (trim_left keep (rev_string (trim_left keep s))).

(** [strings.Trim s cutset] for a one-character cutset. *)
Definition Trim1 (s : string) (c : ascii) : string :=
  trim_both (fun d => negb (Ascii.eqb d c)) s.

Definition is_space (c : ascii) : bool :=
  let n := N_of_ascii c in
  orb (N.eqb n 32) (andb (N.leb 9 n) (N.leb n 13)).

(** [strings.TrimSpace], on the ASCII white space. *)
Definition TrimSpace (s : string) : string :=
  trim_both (fun d => negb (is_space d)) s.

(** [strings.SplitN s sep 2] for a one-character separator. *)
Definition SplitN2 (s : string) (sep : ascii) : list string :=
  match IndexByte s sep with
  | Some i => [slice_to s i; slice_from s (S i)]
  | None => [s]
  end.

(** [strings.Split s sep] for a one-character separator. *)
Fixpoint Split (s : string) (sep : ascii) : list string :=
  match s with
  | EmptyString => [EmptyString]
  | String c s' =>
      if Ascii.eqb c sep then EmptyString :: Split s' sep
      else match Split s' sep with
           | x :: xs => String c x :: xs
           | [] => [String c EmptyString]
           end
  end.

(** [strings.Join] *)
Definition Join (l : list string) (sep : string) : string := String.concat sep l.

Definition lower_ascii (c : ascii) : ascii :=
  let n := N_of_ascii c in
  if andb (N.leb 65 n) (N.leb n 90) then ascii_of_N (n + 32) else c.

(** [strings.ToLower], on ASCII letters. *)
Fixpoint ToLower (s : string) : string :=
  match s with
  | EmptyString => EmptyString
  | String c s' => String (lower_ascii c) (ToLower s')
  end.

(** [strings.EqualFold], on ASCII letters. *)
Definition EqualFold (s t : string) : bool := String.eqb (ToLower s) (ToLower t).

Definition digit_val (c : ascii) : option Z :=
  let n := N_of_ascii c in
  if andb (N.leb 48 n) (N.leb n 57) then Some (Z.of_N n - 48) else None.

(** The errors of [strconv]: [ErrSyntax] and [ErrRange]. *)
Inductive NumError := ErrSyntax | ErrRange.

(** [strconv.ParseUint s 10 64]: [acc] is the value read so far; the flag
    of the result says that the value passed [2^64 - 1], where the function
    returns without reading the rest. *)
Fixpoint parse_digits (s : string) (acc : Z) (over : bool) : option (Z * bool) :=
  match s with
  | EmptyString => Some (acc, over)
  | String c s' =>
      match digit_val c with
      | None => None
      | Some d =>
          let n := acc * 10 + d in
          if 2 ^ 64 <=? n then Some (0, true)   (* returns at once *)
          else parse_digits s' n over
      end
  end.

Definition ParseUint (s : string) : Z * option NumError :=
  match s with
  | EmptyString => (0, Some ErrSyntax)
  | _ =>
      match parse_digits s 0 false with
      | None => (0, Some ErrSyntax)
      | Some (_, true) => (2 ^ 64 - 1, Some ErrRange)
      | Some (n, false) => (n, None)
      end
  end.

(** [strconv.ParseInt s 10 64] *)
Definition ParseInt (s : string) : Z * option NumError :=
  match s with
  | EmptyString => (0, Some ErrSyntax)
  | String c s' =>
      let neg := Ascii.eqb c "-" in
      let body := if orb (Ascii.eqb c "+") neg then s' else s in
      match ParseUint body with
      | (_, Some ErrSyntax) => (0, Some ErrSyntax)
      | (un, _) =>
          let cutoff := 2 ^ 63 in
          if andb (negb neg) (cutoff <=? un) then (cutoff - 1, Some ErrRange)
          else if andb neg (cutoff <? un) then (- cutoff, Some ErrRange)
          else (if neg then - un else un, None)
      end
  end.

(** [fmt.Sprintf "%d"] *)
Fixpoint digits_of_pos (fuel : nat) (n : Z) (acc : string) : string :=
  match fuel with
  | O => acc
  | S fuel' =>
      let acc' := String (ascii_of_N (Z.to_N (48 + n mod 10))) acc in
      if n / 10 =? 0 then acc' else digits_of_pos fuel' (n / 10) acc'
  end.

Definition itoa (z : Z) : string :=
  if z <? 0 then String "-" (digits_of_pos 20 (- z) "")
  else digits_of_pos 20 z "".

Definition hex_digit (n : N) : ascii :=
  if N.ltb n 10 then ascii_of_N (48 + n) else ascii_of_N (87 + n).

(** [hex.EncodeToString] *)
Fixpoint hex_encode (s : string) : string :=
  match s with
  | EmptyString => EmptyString
  | String c s' =>
      let n := N_of_ascii c in
      String (hex_digit (N.div n 16)) (String (hex_digit (N.modulo n 16)) (hex_encode s'))
  end.

(** Stable insertion sort, the model of [ORDER BY] and [sort.Strings]. *)
Section Sorting.
Context {A : Type} (le : A -> A -> bool).

Fixpoint insert_sorted (x : A) (l : list A) : list A :=
    match l with
    | [] => [x]
    | y :: l' => if le x y then x :: l else y :: insert_sorted x l'
    end.

Definition sort_by (l : list A) : list A :=
    fold_right insert_sorted [] l.
End Sorting.

Definition sort_Strings (l : list string) : list string := sort_by String.leb l.

(** [strings.Index s sub]: index of the first occurrence, [None] for -1. *)
Fixpoint Index (s sub : string) : option nat :=
  match s with
  | EmptyString => if String.prefix sub EmptyString then Some O else None
  | String _ s' =>
      if String.prefix sub s then Some O
      else match Index s' sub with
           | Some i => Some (S i)
           | None => None
           end
  end.

End gostd.


(* ================================================================== *)
(** ** crypto/sha256 and crypto/hmac                                   *)
(* ================================================================== *)

(** A reference implementation (FIPS 180-4, RFC 2104), so that the handlers
    can be run on concrete requests.  The theorems below hold for any
    [Crypto]; this one is the instance of the examples. *)
Module sha256.

Definition w32 (x : Z) : Z := x mod 2 ^ 32.
Definition rotr (n x : Z) : Z := Z.lor (Z.shiftr x n) (w32 (Z.shiftl x (32 - n))).
Definition Ch (x y z : Z) : Z := Z.lxor (Z.land x y) (Z.land (Z.lxor x (2 ^ 32 - 1)) z).
Definition Maj (x y z : Z) : Z := Z.lxor (Z.lxor (Z.land x y) (Z.land x z)) (Z.land y z).
Definition Sigma0 (x : Z) : Z := Z.lxor (Z.lxor (rotr 2 x) (rotr 13 x)) (rotr 22 x).
Definition Sigma1 (x : Z) : Z := Z.lxor (Z.lxor (rotr 6 x) (rotr 11 x)) (rotr 25 x).
Definition sigma0 (x : Z) : Z := Z.lxor (Z.lxor (rotr 7 x) (rotr 18 x)) (Z.shiftr x 3).
Definition sigma1 (x : Z) : Z := Z.lxor (Z.lxor (rotr 17 x) (rotr 19 x)) (Z.shiftr x 10).

Definition K : list Z :=
  [
    1116352408; 1899447441; 3049323471; 3921009573; 961987163; 1508970993;
    2453635748; 2870763221; 3624381080; 310598401; 607225278; 1426881987;
    1925078388; 2162078206; 2614888103; 3248222580; 3835390401; 4022224774;
    264347078; 604807628; 770255983; 1249150122; 1555081692; 1996064986;
    2554220882; 2821834349; 2952996808; 3210313671; 3336571891; 3584528711;
    113926993; 338241895; 666307205; 773529912; 1294757372; 1396182291;
    1695183700; 1986661051; 2177026350; 2456956037; 2730485921; 2820302411;
    3259730800; 3345764771; 3516065817; 3600352804; 4094571909; 275423344;
    430227734; 506948616; 659060556; 883997877; 958139571; 1322822218;
    1537002063; 1747873779; 1955562222; 2024104815; 2227730452; 2361852424;
    2428436474; 2756734187; 3204031479; 3329325298
  ].

Definition H0 : list Z :=
  [
    1779033703; 3144134277; 1013904242; 2773480762; 1359893119; 2600822924;
    528734635; 1541459225
  ].

Definition bytes_of (s : string) : list Z :=
  map (fun c => Z.of_N (N_of_ascii c)) (list_ascii_of_string s).

Definition string_of (l : list Z) : string :=
  string_of_list_ascii (map (fun b => ascii_of_N (Z.to_N b)) l).

(** Big-endian bytes of [x], [n] of them. *)
Fixpoint be_bytes (n : nat) (x : Z) : list Z :=
  match n with
  | O => []
  | S n' => be_bytes n' (x / 256) ++ [x mod 256]
  end.

Definition pad (msg : list Z) : list Z :=
  let l := Z.of_nat (List.length msg) in
  let zeros := (55 - l) mod 64 in
  msg ++ [128] ++ repeat 0 (Z.to_nat zeros) ++ be_bytes 8 (8 * l).

Fixpoint words (fuel : nat) (l : list Z) : list Z :=
  match fuel, l with
  | S f, a :: b :: c :: d :: l' => (((a * 256 + b) * 256 + c) * 256 + d) :: words f l'
  | _, _ => []
  end.

(** The message schedule, newest word first: [w] holds W[t-1], W[t-2], ... *)
Fixpoint schedule (n : nat) (w : list Z) : list Z :=
  match n with
  | O => w
  | S n' =>
      let x := w32 (sigma1 (nth 1 w 0) + nth 6 w 0 + sigma0 (nth 14 w 0) + nth 15 w 0) in
      schedule n' (x :: w)
  end.

Definition round (st : list Z) (kw : Z * Z) : list Z :=
  match st with
  | [a; b; c; d; e; f; g; h] =>
      let t1 := h + Sigma1 e + Ch e f g + fst kw + snd kw in
      let t2 := Sigma0 a + Maj a b c in
      [w32 (t1 + t2); a; b; c; w32 (d + t1); e; f; g]
  | _ => st
  end.

Definition block (st : list Z) (blk : list Z) : list Z :=
  let w := rev (schedule 48 (rev (words 16 blk))) in
  let st' := fold_left round (combine K w) st in
  map (fun p => w32 (fst p + snd p)) (combine st st').

Fixpoint blocks (fuel : nat) (st : list Z) (l : list Z) : list Z :=
  match fuel with
  | O => st
  | S f =>
      match l with
      | [] => st
      | _ => blocks f (block st (firstn 64 l)) (skipn 64 l)
      end
  end.

(** [sha256.Sum256], the digest as 32 bytes. *)
Definition Sum256 (s : string) : string :=
  let m := pad (bytes_of s) in
  string_of (flat_map (be_bytes 4) (blocks (List.length m) H0 m)).

Definition xor_pad (key : list Z) (p : Z) : list Z := map (fun b => Z.lxor b p) key.

(** [hmac.New(sha256.New, key)], written to and summed. *)
Definition HMAC (key data : string) : string :=
  let k := if (64 <? String.length key)%nat then bytes_of (Sum256 key) else bytes_of key in
  let k := (k ++ repeat 0 (64 - List.length k)%nat)%list in
  Sum256 (string_of (xor_pad k 92) ++ Sum256 (string_of (xor_pad k 54) ++ data)).

End sha256.

#[export] Instance go_crypto : Crypto := {|
  sha256_Sum := sha256.Sum256;
  hmac_SHA256 := sha256.HMAC |}.

(* ================================================================== *)
(** ** encoding/base64: [RawURLEncoding]                               *)
(* ================================================================== *)

Module base64.

(** The URL alphabet: A-Z, a-z, 0-9, '-', '_'. *)
Definition url_char (n : Z) : ascii :=
  if n <? 26 then ascii_of_N (Z.to_N (65 + n))
  else if n <? 52 then ascii_of_N (Z.to_N (97 + (n - 26)))
  else if n <? 62 then ascii_of_N (Z.to_N (48 + (n - 52)))
  else if n =? 62 then "-"%char else "_"%char.

Definition url_val (c : ascii) : option Z :=
  let n := Z.of_N (N_of_ascii c) in
  if andb (65 <=? n) (n <=? 90) then Some (n - 65)
  else if andb (97 <=? n) (n <=? 122) then Some (n - 97 + 26)
  else if andb (48 <=? n) (n <=? 57) then Some (n - 48 + 52)
  else if n =? 45 then Some 62
  else if n =? 95 then Some 63
  else None.

Definition byte (c : ascii) : Z := Z.of_N (N_of_ascii c).
Definition chr (n : Z) : ascii := ascii_of_N (Z.to_N (n mod 256)).

(** [EncodeToString], without padding: three bytes give four characters,
    a rest of one byte two, a rest of two bytes three. *)
Fixpoint EncodeToString (s : string) : string :=
  match s with
  | EmptyString => EmptyString
  | String a EmptyString =>
      String (url_char (byte a / 4))
        (String (url_char (byte a mod 4 * 16)) EmptyString)
  | String a (String b EmptyString) =>
      String (url_char (byte a / 4))
        (String (url_char (byte a mod 4 * 16 + byte b / 16))
           (String (url_char (byte b mod 16 * 4)) EmptyString))
  | String a (String b (String c rest)) =>
      String (url_char (byte a / 4))
        (String (url_char (byte a mod 4 * 16 + byte b / 16))
           (String (url_char (byte b mod 16 * 4 + byte c / 64))
              (String (url_char (byte c mod 64)) (EncodeToString rest))))
  end.

(** The 6-bit values of the input; carriage returns and line feeds are
    skipped, any other character outside the alphabet is an error. *)
Fixpoint sextets (s : string) : option (list Z) :=
  match s with
  | EmptyString => Some []
  | String c s' =>
      match url_val c with
      | Some v =>
          match sextets s' with
          | Some l => Some (v :: l)
          | None => None
          end
      | None =>
          if orb (Ascii.eqb c (ascii_of_N 10)) (Ascii.eqb c (ascii_of_N 13))
          then sextets s'
          else None
      end
  end.

(** Four values give three bytes; at the end two values give one byte and
    three give two (the bits left over are dropped), one value is an error. *)
Fixpoint quanta (l : list Z) : option string :=
  match l with
  | [] => Some EmptyString
  | [_] => None
  | [a; b] => Some (String (chr (a * 4 + b / 16)) EmptyString)
  | [a; b; c] =>
      Some (String (chr (a * 4 + b / 16)) (String (chr (b * 16 + c / 4)) EmptyString))
  | a :: b :: c :: d :: rest =>
      match quanta rest with
      | Some s =>
          Some (String (chr (a * 4 + b / 16))
                  (String (chr (b * 16 + c / 4)) (String (chr (c * 64 + d)) s)))
      | None => None
      end
  end.

(** [DecodeString]: [None] on a corrupt input. *)
Definition DecodeString (s : string) : option string :=
  match sextets s with
  | Some l => quanta l
  | None => None
  end.

End base64.

(* ================================================================== *)
(** ** internal/db: models                                             *)
(* ================================================================== *)

Module db.

(** The package's error values, and the two errors the engine raises. *)
Inductive error :=
| ErrNotFound
| ErrBucketNotEmpty
| ErrInvalidContToken
| ErrAccessDenied
| ErrConstraint       (* duplicate primary key or unique index *)
| ErrMissingWhere.    (* gorm.ErrMissingWhereClause *)

Definition error_eqb (a b : error) : bool :=
  match a, b with
  | ErrNotFound, ErrNotFound | ErrBucketNotEmpty, ErrBucketNotEmpty
  | ErrInvalidContToken, ErrInvalidContToken | ErrAccessDenied, ErrAccessDenied
  | ErrConstraint, ErrConstraint | ErrMissingWhere, ErrMissingWhere => true
  | _, _ => false
  end.

Module Bucket.
Record t := mk { ID : Z; Name : string; OwnerID : Z; CreatedAt : Z }.
End Bucket.

Module Blob.
Record t := mk {
    ID : string; StorageNode : string; Path : string; Size : Z;
    Checksum : string; State : string; CreatedAt : Z }.
End Blob.

Module Object.
Record t := mk {
    ID : Z; BucketID : Z; Key : string; BlobID : string; Size : Z;
    ETag : string; ContentType : string; HeadVersionID : string;
    CreatedAt : Z }.
End Object.

Module ObjectVersion.
Record t := mk {
    VersionID : string; BucketID : Z; Key : string;
    BlobID : option string; Size : option Z; ETag : option string;
    ContentType : option string; IsDelete : bool; CreatedAt : Z }.
End ObjectVersion.

Module User.
Record t := mk {
    ID : Z; AccessKeyID : string; SecretAccessKey : string;
    Status : string; CreatedAt : Z }.
End User.

Module IdempotencyKey.
Record t := mk {
    BucketID : Z; Key : string; IdemKey : string;
    VersionID : string; ETag : string; CreatedAt : Z }.
End IdempotencyKey.

Module LifecycleRule.
Record t := mk {
    ID : Z; BucketID : Z; Prefix : string; Enabled : bool;
    ExpireCurrentAfterDays : option Z;
    ExpireNoncurrentAfterDays : option Z;
    NoncurrentNewerVersionsToKeep : option Z;
    PurgeDeleteMarkersAfterDays : option Z;
    CreatedAt : Z; UpdatedAt : Z }.
End LifecycleRule.

(** The database: one list of rows per table, in rowid order, and the
    AUTOINCREMENT counters of the tables with an integer key. *)
Record DB := mkDB {
  buckets : list Bucket.t;
  blobs : list Blob.t;
  objects : list Object.t;
  object_versions : list ObjectVersion.t;
  users : list User.t;
  idempotency_keys : list IdempotencyKey.t;
  lifecycle_rules : list LifecycleRule.t;
  seq_buckets : Z;
  seq_objects : Z }.

Definition empty : DB := mkDB [] [] [] [] [] [] [] 0 0.

Definition with_buckets (d : DB) (l : list Bucket.t) (n : Z) : DB :=
  mkDB l (blobs d) (objects d) (object_versions d) (users d)
       (idempotency_keys d) (lifecycle_rules d) n (seq_objects d).
Definition with_blobs (d : DB) (l : list Blob.t) : DB :=
  mkDB (buckets d) l (objects d) (object_versions d) (users d)
       (idempotency_keys d) (lifecycle_rules d) (seq_buckets d) (seq_objects d).
Definition with_objects (d : DB) (l : list Object.t) (n : Z) : DB :=
  mkDB (buckets d) (blobs d) l (object_versions d) (users d)
       (idempotency_keys d) (lifecycle_rules d) (seq_buckets d) n.
Definition with_versions (d : DB) (l : list ObjectVersion.t) : DB :=
  mkDB (buckets d) (blobs d) (objects d) l (users d)
       (idempotency_keys d) (lifecycle_rules d) (seq_buckets d) (seq_objects d).
Definition with_idem (d : DB) (l : list IdempotencyKey.t) : DB :=
  mkDB (buckets d) (blobs d) (objects d) (object_versions d) (users d)
       l (lifecycle_rules d) (seq_buckets d) (seq_objects d).

(** A repository call inside a transaction: the new database and either a
    value or an error.  [WithTxImmediate] below discards the database of a
    closure that returns an error. *)
Definition res (A : Type) : Type := (A + error)%type.

(** SQLite's [LIKE]: [%] matches any run of characters, [_] any one
    character, letters compare without regard to ASCII case. *)
Fixpoint like (p s : string) {struct p} : bool :=
  match p with
  | EmptyString => match s with EmptyString => true | _ => false end
  | String c p' =>
      if Ascii.eqb c "%" then
        (fix any (s : string) : bool :=
           orb (like p' s)
               match s with
               | EmptyString => false
               | String _ s' => any s'
               end) s
      else
        match s with
        | EmptyString => false
        | String d s' =>
            andb (orb (Ascii.eqb c "_")
                      (Ascii.eqb (gostd.lower_ascii c) (gostd.lower_ascii d)))
                 (like p' s')
        end
  end.

(** [Limit(n)]: a negative limit is no limit. *)
Definition Limit {A : Type} (n : Z) (l : list A) : list A :=
  if n <? 0 then l else firstn (Z.to_nat n) l.

Definition Offset {A : Type} (n : Z) (l : list A) : list A :=
  if n <? 0 then l else skipn (Z.to_nat n) l.


(* ------------------------------------------------------------------ *)
(** *** Buckets                                                        *)

Definition set_owner (id ownerID : Z) (b : Bucket.t) : Bucket.t :=
  if Bucket.ID b =? id
  then Bucket.mk (Bucket.ID b) (Bucket.Name b) ownerID (Bucket.CreatedAt b)
  else b.

(** [EnsureBucket]: find the bucket by name or create it, then adopt the
    caller as owner when the bucket has none. *)
Definition EnsureBucket (d : DB) (name : string) (ownerID now : Z) : DB * res Z :=
  let '(d1, b) :=
    match find (fun b => String.eqb (Bucket.Name b) name) (buckets d) with
    | Some b => (d, b)
    | None =>
        let b := Bucket.mk (seq_buckets d + 1) name 0 now in
        (with_buckets d (buckets d ++ [b]) (seq_buckets d + 1), b)
    end in
  if andb (Bucket.OwnerID b =? 0) (negb (ownerID =? 0))
  then (with_buckets d1 (map (set_owner (Bucket.ID b) ownerID) (buckets d1)) (seq_buckets d1),
        inl (Bucket.ID b))
  else (d1, inl (Bucket.ID b)).

Definition BucketIDByName (d : DB) (name : string) (ownerID : Z) : res Z :=
  match find (fun b => andb (String.eqb (Bucket.Name b) name)
                            (Bucket.OwnerID b =? ownerID)) (buckets d) with
  | Some b => inl (Bucket.ID b)
  | None => inr ErrNotFound
  end.

Definition DeleteBucketIfEmpty (d : DB) (bucketID : Z) : res DB :=
  let n := Z.of_nat (List.length (filter (fun o => Object.BucketID o =? bucketID) (objects d))) in
  if 0 <? n then inr ErrBucketNotEmpty else
  let n := Z.of_nat (List.length (filter (fun v => ObjectVersion.BucketID v =? bucketID)
                                         (object_versions d))) in
  if 0 <? n then inr ErrBucketNotEmpty else
  inl (with_buckets d (filter (fun b => negb (Bucket.ID b =? bucketID)) (buckets d))
                    (seq_buckets d)).

(* ------------------------------------------------------------------ *)
(** *** Object heads                                                   *)

Definition obj_is (bucketID : Z) (key : string) (o : Object.t) : bool :=
  andb (Object.BucketID o =? bucketID) (String.eqb (Object.Key o) key).

(** [LockObjectForUpdate]: the no-op UPDATE touches the row when there is
    one; otherwise the row is created, with an empty head. *)
Definition LockObjectForUpdate (d : DB) (bucketID : Z) (key : string) (now : Z) : res DB :=
  if existsb (obj_is bucketID key) (objects d) then inl d
  else
    let o := Object.mk (seq_objects d + 1) bucketID key "" 0 "" "" "" now in
    inl (with_objects d (objects d ++ [o]) (seq_objects d + 1)).

Definition UpsertObjectTx (d : DB) (bucketID : Z) (key blobID : string) (size : Z)
    (etag contentType headVersionID : string) (now : Z) : res DB :=
  if existsb (obj_is bucketID key) (objects d) then
    inl (with_objects d
           (map (fun o => if obj_is bucketID key o
                          then Object.mk (Object.ID o) bucketID key blobID size etag
                                         contentType headVersionID (Object.CreatedAt o)
                          else o) (objects d))
           (seq_objects d))
  else
    let o := Object.mk (seq_objects d + 1) bucketID key blobID size etag contentType
                       headVersionID now in
    inl (with_objects d (objects d ++ [o]) (seq_objects d + 1)).

Definition SetHeadVersionTx (d : DB) (bucketID : Z) (key versionID : string) : res DB :=
  inl (with_objects d
         (map (fun o => if obj_is bucketID key o
                        then Object.mk (Object.ID o) (Object.BucketID o) (Object.Key o)
                                       (Object.BlobID o) (Object.Size o) (Object.ETag o)
                                       (Object.ContentType o) versionID (Object.CreatedAt o)
                        else o) (objects d))
         (seq_objects d)).

(* ------------------------------------------------------------------ *)
(** *** Versions                                                       *)

Definition ver_is (versionID : string) (v : ObjectVersion.t) : bool :=
  String.eqb (ObjectVersion.VersionID v) versionID.

Definition create_version (d : DB) (v : ObjectVersion.t) : res DB :=
  if existsb (ver_is (ObjectVersion.VersionID v)) (object_versions d)
  then inr ErrConstraint
  else inl (with_versions d (object_versions d ++ [v])).

Definition InsertObjectVersionTx (d : DB) (bucketID : Z) (key versionID blobID : string)
    (size : Z) (etag contentType : string) (now : Z) : res DB :=
  create_version d
    (ObjectVersion.mk versionID bucketID key (Some blobID) (Some size) (Some etag)
                      (Some contentType) false now).

Definition CreateDeleteMarkerTx (d : DB) (bucketID : Z) (key versionID : string) (now : Z)
    : res DB :=
  create_version d
    (ObjectVersion.mk versionID bucketID key None None None None true now).

Definition GetVersionTx (d : DB) (versionID : string) : res ObjectVersion.t :=
  match find (ver_is versionID) (object_versions d) with
  | Some v => inl v
  | None => inr ErrNotFound
  end.

Definition GetHeadVersionTx (d : DB) (bucketID : Z) (key : string) : res ObjectVersion.t :=
  match find (obj_is bucketID key) (objects d) with
  | None => inr ErrNotFound
  | Some obj => GetVersionTx d (Object.HeadVersionID obj)
  end.

(** [ORDER BY created_at DESC], then the primary key that [First] adds. *)
Definition newest_first (a b : ObjectVersion.t) : bool :=
  orb (ObjectVersion.CreatedAt b <? ObjectVersion.CreatedAt a)
      (andb (ObjectVersion.CreatedAt a =? ObjectVersion.CreatedAt b)
            (String.leb (ObjectVersion.VersionID a) (ObjectVersion.VersionID b))).

Definition GetPrevVersionTx (d : DB) (bucketID : Z) (key currentVersionID : string)
    : res ObjectVersion.t :=
  match gostd.sort_by newest_first
          (filter (fun v => andb (andb (ObjectVersion.BucketID v =? bucketID)
                                       (String.eqb (ObjectVersion.Key v) key))
                                 (negb (ver_is currentVersionID v)))
                  (object_versions d)) with
  | v :: _ => inl v
  | [] => inr ErrNotFound
  end.

(** [tx.Delete(&ObjectVersion{VersionID: id})]: GORM refuses a delete whose
    model has a zero primary key and no other condition. *)
Definition DeleteVersionTx (d : DB) (versionID : string) : res DB :=
  if String.eqb versionID "" then inr ErrMissingWhere
  else inl (with_versions d (filter (fun v => negb (ver_is versionID v)) (object_versions d))).

(* ------------------------------------------------------------------ *)
(** *** Blobs                                                          *)

Definition blob_is (id : string) (b : Blob.t) : bool := String.eqb (Blob.ID b) id.

(** [First] over the ready blobs with the checksum, in primary-key order. *)
Definition FindBlobByChecksumTx (d : DB) (checksum : string) : res Blob.t :=
  match gostd.sort_by (fun a b => String.leb (Blob.ID a) (Blob.ID b))
          (filter (fun b => andb (String.eqb (Blob.Checksum b) checksum)
                                 (String.eqb (Blob.State b) "ready"))
                  (blobs d)) with
  | b :: _ => inl b
  | [] => inr ErrNotFound
  end.

(** The primary key and the unique index [ux_blobs_checksum]. *)
Definition ReserveBlobPendingTx (d : DB) (id checksum : string) (size : Z)
    (storageNode : string) (now : Z) : res DB :=
  if existsb (fun b => orb (blob_is id b) (String.eqb (Blob.Checksum b) checksum)) (blobs d)
  then inr ErrConstraint
  else inl (with_blobs d (blobs d ++ [Blob.mk id storageNode "" size checksum "pending" now])).

Definition MarkBlobReadyTx (d : DB) (id : string) : res DB :=
  inl (with_blobs d
         (map (fun b => if blob_is id b
                        then Blob.mk (Blob.ID b) (Blob.StorageNode b) (Blob.Path b) (Blob.Size b)
                                     (Blob.Checksum b) "ready" (Blob.CreatedAt b)
                        else b) (blobs d))).

Definition DeleteBlobRecordTx (d : DB) (id : string) : res DB :=
  if String.eqb id "" then inr ErrMissingWhere
  else inl (with_blobs d (filter (fun b => negb (blob_is id b)) (blobs d))).

Definition refers_to (blobID : string) (v : ObjectVersion.t) : bool :=
  match ObjectVersion.BlobID v with
  | Some b => String.eqb b blobID
  | None => false
  end.

Definition BlobRefCountFromVersionsTx (d : DB) (blobID : string) : Z :=
  Z.of_nat (List.length (filter (refers_to blobID) (object_versions d))).

Definition GetBlob (d : DB) (id : string) : res Blob.t :=
  match find (blob_is id) (blobs d) with
  | Some b => inl b
  | None => inr ErrNotFound
  end.

(* ------------------------------------------------------------------ *)
(** *** Idempotency keys                                               *)

Definition idem_is (bucketID : Z) (key idemKey : string) (i : IdempotencyKey.t) : bool :=
  andb (andb (IdempotencyKey.BucketID i =? bucketID)
             (String.eqb (IdempotencyKey.Key i) key))
       (String.eqb (IdempotencyKey.IdemKey i) idemKey).

(** [ON CONFLICT DO NOTHING] *)
Definition SaveIdempotencyTx (d : DB) (bucketID : Z) (key idemKey versionID etag : string)
    (now : Z) : res DB :=
  if existsb (idem_is bucketID key idemKey) (idempotency_keys d) then inl d
  else inl (with_idem d (idempotency_keys d ++
                         [IdempotencyKey.mk bucketID key idemKey versionID etag now])).

Definition GetIdempotencyTx (d : DB) (bucketID : Z) (key idemKey : string)
    : res (string * string) :=
  match find (idem_is bucketID key idemKey) (idempotency_keys d) with
  | Some i => inl (IdempotencyKey.VersionID i, IdempotencyKey.ETag i)
  | None => inr ErrNotFound
  end.

(* ------------------------------------------------------------------ *)
(** *** Users                                                          *)

Definition FindUserByAccessKey (d : DB) (id : string) : res User.t :=
  match find (fun u => andb (String.eqb (User.AccessKeyID u) id)
                            (String.eqb (User.Status u) "active")) (users d) with
  | Some u => inl u
  | None => inr ErrNotFound
  end.

(* ------------------------------------------------------------------ *)
(** *** Lifecycle listing queries                                      *)

Definition ListEnabledLifecycleRules (d : DB) : list LifecycleRule.t :=
  filter LifecycleRule.Enabled (lifecycle_rules d).

Definition oldest_first (a b : ObjectVersion.t) : bool :=
  ObjectVersion.CreatedAt a <=? ObjectVersion.CreatedAt b.

(** [is_delete = FALSE AND created_at < ?], oldest first.  The query has no
    condition on the head of the key. *)
Definition ListNoncurrentByAge (d : DB) (bucketID : Z) (prefix : string)
    (olderThan limit : Z) : list ObjectVersion.t :=
  Limit limit
    (gostd.sort_by oldest_first
       (filter (fun v => andb (andb (andb (ObjectVersion.BucketID v =? bucketID)
                                          (like (prefix ++ "%") (ObjectVersion.Key v)))
                                    (negb (ObjectVersion.IsDelete v)))
                              (ObjectVersion.CreatedAt v <? olderThan))
               (object_versions d))).

Definition ListDeleteMarkersForPurge (d : DB) (bucketID : Z) (prefix : string)
    (olderThan limit : Z) : list ObjectVersion.t :=
  Limit limit
    (gostd.sort_by oldest_first
       (filter (fun v => andb (andb (andb (ObjectVersion.BucketID v =? bucketID)
                                          (like (prefix ++ "%") (ObjectVersion.Key v)))
                                    (ObjectVersion.IsDelete v))
                              (ObjectVersion.CreatedAt v <? olderThan))
               (object_versions d))).

Definition ListHeadsOlderThan (d : DB) (bucketID : Z) (prefix : string)
    (olderThan limit : Z) : list Object.t :=
  Limit limit
    (gostd.sort_by (fun a b => Object.CreatedAt a <=? Object.CreatedAt b)
       (filter (fun o => andb (andb (Object.BucketID o =? bucketID)
                                    (like (prefix ++ "%") (Object.Key o)))
                              (Object.CreatedAt o <? olderThan))
               (objects d))).

(** The join of [ListNoncurrentKeepNewest]: a non-delete version of the
    bucket whose key has an Object row with another head. *)
Definition noncurrent (d : DB) (bucketID : Z) (v : ObjectVersion.t) : bool :=
  andb (andb (ObjectVersion.BucketID v =? bucketID) (negb (ObjectVersion.IsDelete v)))
       (existsb (fun o => andb (obj_is bucketID (ObjectVersion.Key v) o)
                               (negb (String.eqb (ObjectVersion.VersionID v)
                                                 (Object.HeadVersionID o))))
                (objects d)).

Fixpoint dedup (l : list string) : list string :=
  match l with
  | [] => []
  | x :: l' => x :: filter (fun y => negb (String.eqb y x)) (dedup l')
  end.

(** [ORDER BY created_at DESC, version_id DESC] *)
Definition newest_first_desc (a b : ObjectVersion.t) : bool :=
  orb (ObjectVersion.CreatedAt b <? ObjectVersion.CreatedAt a)
      (andb (ObjectVersion.CreatedAt a =? ObjectVersion.CreatedAt b)
            (String.leb (ObjectVersion.VersionID b) (ObjectVersion.VersionID a))).

(** The rows of the second query carry four columns only. *)
Definition keep_columns (v : ObjectVersion.t) : ObjectVersion.t :=
  ObjectVersion.mk (ObjectVersion.VersionID v) (ObjectVersion.BucketID v)
                   (ObjectVersion.Key v) (ObjectVersion.BlobID v) None None None false 0.

Fixpoint keep_newest_loop (d : DB) (bucketID keep : Z) (keys : list string) (left : Z)
    : list ObjectVersion.t :=
  match keys with
  | [] => []
  | k :: keys' =>
      if left <=? 0 then []
      else
        let rows :=
          map keep_columns
            (Limit left
               (Offset keep
                  (gostd.sort_by newest_first_desc
                     (filter (fun v => andb (noncurrent d bucketID v)
                                            (String.eqb (ObjectVersion.Key v) k))
                             (object_versions d))))) in
        rows ++ keep_newest_loop d bucketID keep keys' (left - Z.of_nat (List.length rows))
  end.

Definition ListNoncurrentKeepNewest (d : DB) (bucketID : Z) (prefix : string)
    (keep limit : Z) : list ObjectVersion.t :=
  let cand := filter (fun v => andb (noncurrent d bucketID v)
                                    (like (prefix ++ "%") (ObjectVersion.Key v)))
                     (object_versions d) in
  let keys :=
    filter (fun k => keep <? Z.of_nat (List.length
                       (filter (fun v => String.eqb (ObjectVersion.Key v) k) cand)))
           (gostd.sort_Strings (dedup (map ObjectVersion.Key cand))) in
  match keys with
  | [] => []
  | _ => if limit <=? 0 then [] else keep_newest_loop d bucketID keep keys limit
  end.

(* ------------------------------------------------------------------ *)
(** *** Blob garbage collection                                        *)

Module GCBlob.
Record t := mk { ID : string; Size : Z }.
End GCBlob.

(** A version row that keeps a blob alive for the collector: the row of the
    [LEFT JOIN], [v.blob_id = b.id AND v.is_delete = FALSE]. *)
Definition holds (blobID : string) (v : ObjectVersion.t) : bool :=
  andb (refers_to blobID v) (negb (ObjectVersion.IsDelete v)).

(** [BlobsForGCWithSize]: the ready blobs no such version row joins, in the
    scan order of the blob table, cut at [limit]. *)
Definition BlobsForGCWithSize (d : DB) (limit : Z) : list GCBlob.t :=
  Limit limit
    (map (fun b => GCBlob.mk (Blob.ID b) (Blob.Size b))
       (filter (fun b => andb (negb (existsb (holds (Blob.ID b)) (object_versions d)))
                              (String.eqb (Blob.State b) "ready"))
               (blobs d))).

(* ------------------------------------------------------------------ *)
(** *** Lifecycle rules                                                *)

Definition with_lifecycle_rules (d : DB) (l : list LifecycleRule.t) : DB :=
  mkDB (buckets d) (blobs d) (objects d) (object_versions d) (users d)
       (idempotency_keys d) l (seq_buckets d) (seq_objects d).

(** [tx.Create(&rule)] on the rule table, whose AUTOINCREMENT counter is
    [seq].  GORM replaces the zero value of a field that carries a
    [default] tag by that default: a rule built with [Enabled: false] is
    stored, and handed back, enabled ([Enabled bool `gorm:"default:true"`]).
    The two timestamps are set to the time of the insert. *)
Definition CreateLifecycleRule (d : DB) (seq : Z) (r : LifecycleRule.t) (now : Z)
    : DB * Z :=
  let row := LifecycleRule.mk (seq + 1) (LifecycleRule.BucketID r) (LifecycleRule.Prefix r)
               true
               (LifecycleRule.ExpireCurrentAfterDays r)
               (LifecycleRule.ExpireNoncurrentAfterDays r)
               (LifecycleRule.NoncurrentNewerVersionsToKeep r)
               (LifecycleRule.PurgeDeleteMarkersAfterDays r) now now in
  (with_lifecycle_rules d (lifecycle_rules d ++ [row]), seq + 1).

(** [Where("bucket_id = ?", bucketID).Delete(&LifecycleRule{})] *)
Definition DeleteLifecycleRules (d : DB) (bucketID : Z) : DB :=
  with_lifecycle_rules d
    (filter (fun r => negb (LifecycleRule.BucketID r =? bucketID)) (lifecycle_rules d)).

(** [Where("bucket_id = ?", bucketID).Find(&rules)] *)
Definition LifecycleRulesOf (d : DB) (bucketID : Z) : list LifecycleRule.t :=
  filter (fun r => LifecycleRule.BucketID r =? bucketID) (lifecycle_rules d).

(* ------------------------------------------------------------------ *)
(** *** Users and the buckets of a user                                *)

Definition FindUserByID (d : DB) (id : Z) : res User.t :=
  match find (fun u => User.ID u =? id) (users d) with
  | Some u => inl u
  | None => inr ErrNotFound
  end.

(** [ListBuckets]: the buckets of the owner, all buckets for the owner 0,
    [ORDER BY name asc]. *)
Definition ListBuckets (d : DB) (ownerID : Z) : list Bucket.t :=
  gostd.sort_by (fun a b => String.leb (Bucket.Name a) (Bucket.Name b))
    (if negb (ownerID =? 0)
     then filter (fun b => Bucket.OwnerID b =? ownerID) (buckets d)
     else buckets d).

(* ------------------------------------------------------------------ *)
(** *** ListObjectsV2                                                  *)

Module ListV2Params.
Record t := mk {
    BucketID : Z; Prefix : string; Delimiter : string; MaxKeys : Z;
    StartAfter : string; ContTokenRaw : string; FetchOwner : bool;
    EncodingType : string }.
End ListV2Params.

Module ListV2Item.
Record t := mk {
    Key : string; ETag : option string; Size : Z; LastModified : Z;
    OwnerID : option string; OwnerName : option string }.
End ListV2Item.

Module ListV2Result.
Record t := mk {
    Objects : list ListV2Item.t; CommonPrefixes : list string;
    IsTruncated : bool; NextToken : string; KeyCount : Z }.
End ListV2Result.

(** A row of the listing query. *)
Record row := mkRow {
  row_Key : string; row_ETag : option string; row_Size : option Z; row_LastModified : Z }.

Definition derefInt64 (p : option Z) : Z :=
  match p with
  | Some v => v
  | None => 0
  end.

(** The [WHERE] clauses on the Object row: the bucket, the prefix (a
    [LIKE], when there is one) and the key after which the listing starts
    (a comparison of the bytes, when there is one). *)
Definition listed (bucketID : Z) (prefix afterKey : string) (o : Object.t) : bool :=
  andb (andb (Object.BucketID o =? bucketID)
             (if String.eqb prefix "" then true else like (prefix ++ "%") (Object.Key o)))
       (if String.eqb afterKey "" then true else String.ltb afterKey (Object.Key o)).

(** The join of the Object rows with their head version, when that is no
    delete-marker, [ORDER BY objects.key ASC]. *)
Definition list_rows (d : DB) (bucketID : Z) (prefix afterKey : string) : list row :=
  gostd.sort_by (fun a b => String.leb (row_Key a) (row_Key b))
    (flat_map
       (fun o =>
          map (fun ov => mkRow (Object.Key o) (ObjectVersion.ETag ov) (ObjectVersion.Size ov)
                               (ObjectVersion.CreatedAt ov))
              (filter (fun ov => andb (ver_is (Object.HeadVersionID o) ov)
                                      (negb (ObjectVersion.IsDelete ov)))
                      (object_versions d)))
       (filter (listed bucketID prefix afterKey) (objects d))).

Definition item_of (r : row) : ListV2Item.t :=
  ListV2Item.mk (row_Key r) (row_ETag r) (derefInt64 (row_Size r)) (row_LastModified r)
                None None.

(** The common prefix a key rolls up into: the prefix of the listing and
    the rest of the key up to the first byte of the first delimiter. *)
Definition common_prefix (prefix delimiter : string) (r : row) : option string :=
  let rest := gostd.TrimPrefix (row_Key r) prefix in
  match gostd.Index rest delimiter with
  | Some idx => Some (prefix ++ gostd.slice_to rest (S idx))
  | None => None
  end.

Definition ListObjectsV2 (d : DB) (p : ListV2Params.t) : res ListV2Result.t :=
  let maxKeys := if orb (ListV2Params.MaxKeys p <=? 0) (1000 <? ListV2Params.MaxKeys p)
                 then 1000 else ListV2Params.MaxKeys p in
  let after := if String.eqb (ListV2Params.ContTokenRaw p) ""
               then Some (ListV2Params.StartAfter p)
               else base64.DecodeString (ListV2Params.ContTokenRaw p) in
  match after with
  | None => inr ErrInvalidContToken
  | Some afterKey =>
  let prefix := ListV2Params.Prefix p in
  let delimiter := ListV2Params.Delimiter p in
  let rows := Limit (maxKeys + 1) (list_rows d (ListV2Params.BucketID p) prefix afterKey) in
  let objects :=
    if negb (String.eqb delimiter "")
    then map item_of
           (filter (fun r => match common_prefix prefix delimiter r with
                             | Some _ => false
                             | None => true
                             end) rows)
    else map item_of rows in
  let prefixes :=
    if negb (String.eqb delimiter "")
    then gostd.sort_Strings
           (dedup (flat_map (fun r => match common_prefix prefix delimiter r with
                                      | Some cp => [cp]
                                      | None => []
                                      end) rows))
    else [] in
  if orb (maxKeys <? Z.of_nat (List.length rows))
         (maxKeys <? Z.of_nat (List.length objects) + Z.of_nat (List.length prefixes))
  then
    let trimTo := maxKeys - Z.of_nat (List.length prefixes) in
    let trimTo := if trimTo <? 0 then 0 else trimTo in
    let objects := if trimTo <? Z.of_nat (List.length objects)
                   then firstn (Z.to_nat trimTo) objects else objects in
    let lastKey :=
      match rev objects with
      | it :: _ => ListV2Item.Key it
      | [] => match rev prefixes with
              | cp :: _ => cp
              | [] => ""
              end
      end in
    let next := if negb (String.eqb lastKey "") then base64.EncodeToString lastKey else "" in
    inl (ListV2Result.mk objects prefixes true next
           (Z.of_nat (List.length objects) + Z.of_nat (List.length prefixes)))
  else
    inl (ListV2Result.mk objects prefixes false ""
           (Z.of_nat (List.length objects) + Z.of_nat (List.length prefixes)))
  end.

End db.

(* ================================================================== *)
(** ** internal/storage                                                *)
(* ================================================================== *)

Module storage.

(** The files of the driver: blob id -> bytes. *)
Definition Storage := list (string * string).

Definition Stat (s : Storage) (id : string) : option string :=
  match find (fun e => String.eqb (fst e) id) s with
  | Some e => Some (snd e)
  | None => None
  end.

(** [Delete] is a no-op on a missing blob. *)
Definition Delete (s : Storage) (id : string) : Storage :=
  filter (fun e => negb (String.eqb (fst e) id)) s.

(** [BeginWrite], the copy and [Commit]: the temporary file is renamed onto
    the blob's path, replacing what was there. *)
Definition Put (s : Storage) (id bytes : string) : Storage :=
  (id, bytes) :: Delete s id.

(** [ReadAt id off n]: seek to [off] when positive, then read [n] bytes, or
    to the end when [n] is negative.  [None] when the file is missing. *)
Definition ReadAt (s : Storage) (id : string) (off n : Z) : option string :=
  match Stat s id with
  | None => None
  | Some bytes =>
      let rest := if 0 <? off then gostd.slice_from bytes (Z.to_nat off) else bytes in
      Some (if 0 <=? n then gostd.slice_to rest (Z.to_nat n) else rest)
  end.

End storage.

(* ================================================================== *)
(** ** internal/auth: SigV4                                            *)
(* ================================================================== *)

Module auth.

(** The package's error values; [Errorf] is an error made by [fmt.Errorf],
    [Provider] one that came back from the credentials provider. *)
Inductive error :=
| ErrNoAuthHeader
| ErrUnsuportedAlgorithm
| ErrBadCredentialScope
| ErrSignatureMismatch
| ErrSkewedDate
| Errorf (msg : string)
| Provider (e : db.error).

(** The [CredentialsProvider] interface. *)
Class CredentialsProvider (C : Type) := {
  LookupSecret : C -> string -> string + db.error }.

(** A [time.Time] in UTC: the Unix second and the nanosecond within it. *)
Record Time := mkTime { Unix : Z; Nanosecond : Z }.

(** A [time.Duration] is an [int64] count of nanoseconds. *)
Definition Second : Z := 1000000000.
Definition Minute : Z := 60 * Second.
Definition minDuration : Z := - 2 ^ 63.
Definition maxDuration : Z := 2 ^ 63 - 1.

Record VerifyOptions := mkVerifyOptions {
  MaxSkew : Z;                       (* a time.Duration *)
  AllowUnsignedPayload : bool;
  ExpectedService : string }.

Record Result := mkResult {
  AccessKeyID : string;
  SignedHeaders : list string;
  AmzDate : Time;
  Region : string;
  ScopeDate : string }.

(** The request as the verifier reads it.  Header names are kept in lower
    case (Go keeps one canonical spelling per name, and both [Header.Get]
    and the canonical request ignore the case). *)
Record Request := mkRequest {
  Method : string;
  Host : string;
  EscapedPath : string;
  Query : list (string * list string);
  Header : list (string * list string) }.

Definition Header_values (r : Request) (k : string) : list string :=
  match find (fun e => String.eqb (fst e) (gostd.ToLower k)) (Header r) with
  | Some e => snd e
  | None => []
  end.

Definition Header_Get (r : Request) (k : string) : string :=
  match Header_values r k with
  | v :: _ => v
  | [] => ""
  end.

(** [parseAuthzParams]: the map, as the list of its bindings, last first. *)
Definition parseAuthzParams (s : string) : list (string * string) :=
  fold_left
    (fun out p =>
       let p := gostd.TrimSpace p in
       if String.eqb p "" then out
       else match gostd.SplitN2 p "=" with
            | [k; v] => (k, gostd.Trim1 v gostd.quote) :: out
            | _ => out
            end)
    (gostd.Split s ",") [].

Definition param (m : list (string * string)) (k : string) : string :=
  match find (fun e => String.eqb (fst e) k) m with
  | Some e => snd e
  | None => ""
  end.

Definition is_unreserved (c : ascii) : bool :=
  let n := N_of_ascii c in
  orb (orb (andb (N.leb 48 n) (N.leb n 57))
           (orb (andb (N.leb 65 n) (N.leb n 90)) (andb (N.leb 97 n) (N.leb n 122))))
      (orb (orb (Ascii.eqb c "-") (Ascii.eqb c "_")) (orb (Ascii.eqb c ".") (Ascii.eqb c "~"))).

Definition upper_hex_digit (n : N) : ascii :=
  if N.ltb n 10 then ascii_of_N (48 + n) else ascii_of_N (55 + n).

(** [url.QueryEscape] *)
Fixpoint QueryEscape (s : string) : string :=
  match s with
  | EmptyString => EmptyString
  | String c s' =>
      if is_unreserved c then String c (QueryEscape s')
      else if Ascii.eqb c " " then String "+" (QueryEscape s')
      else
        let n := N_of_ascii c in
        String "%" (String (upper_hex_digit (N.div n 16))
                      (String (upper_hex_digit (N.modulo n 16)) (QueryEscape s')))
  end.

(** [strings.ReplaceAll s old new], [old] not empty; [skip] characters of a
    match are still to be dropped. *)
Fixpoint replace_from (s old new : string) (skip : nat) : string :=
  match s with
  | EmptyString => EmptyString
  | String c s' =>
      match skip with
      | S k => replace_from s' old new k
      | O =>
          if String.prefix old s
          then new ++ replace_from s' old new (String.length old - 1)
          else String c (replace_from s' old new O)
      end
  end.
Definition ReplaceAll (s old new : string) : string := replace_from s old new O.

Definition uriEncode (s : string) (encodeSlash : bool) : string :=
  let escaped := QueryEscape s in
  let escaped := ReplaceAll escaped "+" "%20" in
  let escaped := ReplaceAll escaped "&7E" "~" in
  if negb encodeSlash then ReplaceAll escaped "%2F" "/" else escaped.

Fixpoint compress_from (s : string) (prevSpace : bool) : string :=
  match s with
  | EmptyString => EmptyString
  | String c s' =>
      let n := N_of_ascii c in
      if orb (orb (N.eqb n 32) (N.eqb n 9)) (orb (N.eqb n 10) (N.eqb n 13)) then
        if prevSpace then compress_from s' true else String " " (compress_from s' true)
      else String c (compress_from s' false)
  end.
Definition compressSpaces (s : string) : string := compress_from s false.

Definition hexSha256OfBytes `{Crypto} (p : string) : string :=
  gostd.hex_encode (sha256_Sum p).
Definition hmacSHA256 `{Crypto} (key data : string) : string := hmac_SHA256 key data.
Definition hmacSHA256Hex `{Crypto} (key data : string) : string :=
  gostd.hex_encode (hmacSHA256 key data).

Definition nl : string := String (ascii_of_N 10) EmptyString.

Definition buildCanonicalRequest (r : Request) (signedHeaders : list string)
    (payloadHash : string) : string :=
  let uri := if String.eqb (EscapedPath r) "" then "/" else EscapedPath r in
  let qpairs :=
    flat_map (fun kv =>
                let ek := uriEncode (fst kv) true in
                map (fun v => ek ++ "=" ++ uriEncode v true) (gostd.sort_Strings (snd kv)))
             (Query r) in
  let canonicalQuery := gostd.Join (gostd.sort_Strings qpairs) "&" in
  let header_line (h : string) : string :=
    let vv := if String.eqb h "host" then [Host r] else Header_values r h in
    let vv := match vv with [] => [""] | _ => vv end in
    h ++ ":" ++ gostd.TrimSpace (compressSpaces (gostd.Join vv ",")) ++ nl in
  let canonicalHeaders := String.concat "" (map header_line signedHeaders) in
  let sh := gostd.Join signedHeaders ";" in
  gostd.Join [Method r; uri; canonicalQuery; canonicalHeaders; sh; payloadHash] nl.

(** [time.Parse("20060102T150405Z", s)].  The layout is the year in four
    digits, the month and the day in two, the letter T, the hour, the
    minute and the second in two digits, and the letter Z; the parser goes
    through the value field by field. *)
Fixpoint all_digits (s : string) (acc : Z) : option Z :=
  match s with
  | EmptyString => Some acc
  | String c s' =>
      match gostd.digit_val c with
      | Some d => all_digits s' (acc * 10 + d)
      | None => None
      end
  end.

(** [getnum]: a number of two digits, or of one digit when it is not
    [fixed] and no second digit follows; and the rest of the value. *)
Definition getnum (s : string) (fixed : bool) : option (Z * string) :=
  match s with
  | EmptyString => None
  | String c0 s1 =>
      match gostd.digit_val c0 with
      | None => None
      | Some d0 =>
          match s1 with
          | EmptyString => if fixed then None else Some (d0, s1)
          | String c1 s2 =>
              match gostd.digit_val c1 with
              | Some d1 => Some (d0 * 10 + d1, s2)
              | None => if fixed then None else Some (d0, s1)
              end
          end
      end
  end.

(** The field [2006]: four characters, all of them digits. *)
Definition long_year (s : string) : option (Z * string) :=
  match s with
  | String a (String b (String c (String d rest))) =>
      match all_digits (String a (String b (String c (String d EmptyString)))) 0 with
      | Some y => Some (y, rest)
      | None => None
      end
  | _ => None
  end.

(** [skip]: the value without the literal at its head. *)
Definition skip (value prefix : string) : option string :=
  if String.prefix prefix value
  then Some (gostd.slice_from value (String.length prefix))
  else None.

Definition commaOrPeriod (c : ascii) : bool := orb (Ascii.eqb c ".") (Ascii.eqb c ",").

(** The digits at the head of a value, and what follows them. *)
Fixpoint leading_digits (s : string) : list Z * string :=
  match s with
  | EmptyString => ([], s)
  | String c s' =>
      match gostd.digit_val c with
      | Some d => let '(ds, rest) := leading_digits s' in (d :: ds, rest)
      | None => ([], s)
      end
  end.

(** [parseNanoseconds]: the first nine digits of the fraction count, scaled
    to nanoseconds; further digits are read over. *)
Definition parseNanoseconds (ds : list Z) : Z :=
  fold_left (fun acc d => acc * 10 + d) (firstn 9 (ds ++ repeat 0 9)%list) 0.

(** A fractional second that the layout does not have is accepted after the
    seconds: a period or a comma followed by at least one digit. *)
Definition fraction (value : string) : Z * string :=
  match value with
  | String c rest =>
      match leading_digits rest with
      | (d :: ds, rest') =>
          if commaOrPeriod c then (parseNanoseconds (d :: ds), rest') else (0, value)
      | ([], _) => (0, value)
      end
  | EmptyString => (0, value)
  end.

Definition is_leap (y : Z) : bool :=
  andb (y mod 4 =? 0) (orb (negb (y mod 100 =? 0)) (y mod 400 =? 0)).

Definition days_in (m y : Z) : Z :=
  if m =? 2 then (if is_leap y then 29 else 28)
  else if orb (orb (m =? 4) (m =? 6)) (orb (m =? 9) (m =? 11)) then 30 else 31.

Definition days_from_civil (y m d : Z) : Z :=
  let y := if m <=? 2 then y - 1 else y in
  let era := y / 400 in
  let yoe := y - era * 400 in
  let doy := (153 * (m + (if 2 <? m then -3 else 9)) + 2) / 5 + d - 1 in
  let doe := yoe * 365 + yoe / 4 - yoe / 100 + doy in
  era * 146097 + doe - 719468.

(** [time.Date] in UTC, for fields within their ranges. *)
Definition Date (y mo d h mi sec nsec : Z) : Time :=
  mkTime (days_from_civil y mo d * 86400 + h * 3600 + mi * 60 + sec) nsec.

Definition parse_amz_date (s : string) : option Time :=
  match long_year s with
  | None => None
  | Some (y, value) =>
  match getnum value true with
  | None => None
  | Some (mo, value) =>
  if orb (mo <=? 0) (12 <? mo) then None else
  match getnum value true with
  | None => None
  | Some (d, value) =>
  match skip value "T" with
  | None => None
  | Some value =>
  match getnum value false with
  | None => None
  | Some (h, value) =>
  if orb (h <? 0) (24 <=? h) then None else
  match getnum value true with
  | None => None
  | Some (mi, value) =>
  if orb (mi <? 0) (60 <=? mi) then None else
  match getnum value true with
  | None => None
  | Some (sec, value) =>
  if orb (sec <? 0) (60 <=? sec) then None else
  let '(nsec, value) := fraction value in
  match skip value "Z" with
  | None => None
  | Some value =>
  if negb (String.eqb value "") then None else         (* extra text *)
  if orb (d <? 1) (days_in mo y <? d) then None else   (* day out of range *)
  Some (Date y mo d h mi sec nsec)
  end end end end end end end end.

(** [t.Sub(u)]: the difference in nanoseconds, or the largest or smallest
    [Duration] when the difference does not fit. *)
Definition Sub (t u : Time) : Z :=
  let d := (Unix t - Unix u) * Second + (Nanosecond t - Nanosecond u) in
  if d <? minDuration then minDuration
  else if maxDuration <? d then maxDuration
  else d.

(** [time.Since(t)], when the clock shows the second [now]. *)
Definition Since (now : Z) (t : Time) : Z := Sub (mkTime now 0) t.

(** [VerifySigV4]; [now] is the instant [time.Since] reads.  The skew is a
    [Duration]: [time.Since] stops at the largest and the smallest value,
    and the negation of the smallest is the smallest again.  The result is
    the pair the function returns: the [*Result] and the [error]. *)
Definition VerifySigV4 `{Crypto} {C : Type} `{CredentialsProvider C}
    (r : Request) (cred : C) (opts : VerifyOptions) (now : Z)
    : option Result * option error :=
  let authz := Header_Get r "Authorization" in
  if String.eqb authz "" then (None, Some ErrNoAuthHeader) else
  if negb (gostd.HasPrefix authz "AWS4-HMAC-SHA256 ") then (None, Some ErrUnsuportedAlgorithm) else
  let params := parseAuthzParams (gostd.TrimPrefix authz "AWS4-HMAC-SHA256 ") in
  let credential := param params "Credential" in
  let signedHeaderCSV := param params "SignedHeaders" in
  let signatureHex := param params "Signature" in
  if orb (orb (String.eqb credential "") (String.eqb signedHeaderCSV ""))
         (String.eqb signatureHex "")
  then (None, Some (Errorf "authorization header malformed")) else
  match gostd.Split credential "/" with
  | [accessKeyID; scopeDate; region; service; term] =>
  if orb (negb (String.eqb service (ExpectedService opts)))
         (negb (String.eqb term "aws4_request"))
  then (None, Some ErrBadCredentialScope) else
  (* Time *)
  let amzDate := Header_Get r "x-amz-date" in
  let amzDate := if String.eqb amzDate "" then Header_Get r "Date" else amzDate in
  if String.eqb amzDate "" then (None, Some (Errorf "missing x-amz-date")) else
  match parse_amz_date amzDate with
  | None => (None, Some (Errorf "bad x-amz-date"))
  | Some t =>
  let skew := Since now t in
  let skew := if skew <? 0 then gostd.wrap64 (- skew) else skew in   (* skew = -skew *)
  if andb (0 <? MaxSkew opts) (MaxSkew opts <? skew) then (None, Some ErrSkewedDate) else
  let signedHeaders :=
    map (fun h => gostd.TrimSpace (gostd.ToLower h)) (gostd.Split signedHeaderCSV ";") in
  (* Payload hash *)
  let payloadHash := Header_Get r "x-amz-content-sha256" in
  let payloadHash := if String.eqb payloadHash "" then hexSha256OfBytes "" else payloadHash in
  if andb (gostd.EqualFold payloadHash "UNSIGNED-PAYLOAD") (negb (AllowUnsignedPayload opts))
  then (None, Some (Errorf "unsigned payload not allowed")) else
  (* Canonical request; its error is always nil *)
  let canonicalRequest := buildCanonicalRequest r signedHeaders payloadHash in
  let canonHash := hexSha256OfBytes canonicalRequest in
  let stringToSign :=
    gostd.Join ["AWS4-HMAC-SHA256"; amzDate;
                scopeDate ++ "/" ++ region ++ "/" ++ service ++ "/aws4_request";
                canonHash] nl in
  (* Derive signing key *)
  match LookupSecret cred accessKeyID with
  | inr e => (None, Some (Provider e))
  | inl secret =>
  let err : option error := None in        (* what [err] holds from here on *)
  let kDate := hmacSHA256 ("AWS4" ++ secret) scopeDate in
  let kRegion := hmacSHA256 kDate region in
  let kService := hmacSHA256 kRegion service in
  let kSigning := hmacSHA256 kService "aws4_request" in
  let expectedSig := hmacSHA256Hex kSigning stringToSign in
  if negb (String.eqb expectedSig (gostd.ToLower signatureHex))
  then (None, err)                         (* return nil, err *)
  else
    (Some (mkResult accessKeyID signedHeaders t region scopeDate), None)
  end end
  | _ => (None, Some ErrBadCredentialScope)
  end.

End auth.

(* ================================================================== *)
(** ** internal/server: requests, responses, the server state          *)
(* ================================================================== *)

Module server.

(** An [*http.Request] as the handlers read it.  [UserID] is the caller id
    that [AuthMiddleware] leaves in the context, 0 when there is none;
    [ContentLength] is -1 when unknown. *)
Record Request := mkRequest {
  Method : string;
  Path : string;
  Query : list (string * string);
  Header : list (string * string);
  ContentLength : Z;
  Body : string;
  UserID : Z }.

Definition lookup (l : list (string * string)) (k : string) : string :=
  match find (fun e => String.eqb (fst e) k) l with
  | Some e => snd e
  | None => ""
  end.

(** [w.Header().Set] *)
Definition hset (l : list (string * string)) (k v : string) : list (string * string) :=
  filter (fun e => negb (String.eqb (fst e) k)) l ++ [(k, v)].

(** What the handler has written: the status, the S3 error code and message
    of [writeS3Error] (empty on success), the headers and the body. *)
Record Response := mkResponse {
  Status : Z;
  Code : string;
  Message : string;
  Hdr : list (string * string);
  Out : string }.

Definition writeS3Error (hdr : list (string * string)) (status : Z) (code msg : string)
    : Response :=
  mkResponse status code msg (hset hdr "Content-Type" "application/xml") "".

Definition WriteHeader (hdr : list (string * string)) (status : Z) : Response :=
  mkResponse status "" "" hdr "".

(** A handler either answers or panics (a nil dereference). *)
Inductive outcome (A : Type) :=
| Done (a : A)
| Panics (a : A).
Arguments Done {A} a.
Arguments Panics {A} a.

(** The server: the metadata database, the blob files, and the entropy that
    [crypto/rand] will deliver, with the number of draws made so far. *)
Record Server := mkServer {
  db_ : db.DB;
  storage_ : storage.Storage;
  entropy : nat -> string;
  drawn : nat }.

Definition set_db (s : Server) (d : db.DB) : Server :=
  mkServer d (storage_ s) (entropy s) (drawn s).
Definition set_storage (s : Server) (st : storage.Storage) : Server :=
  mkServer (db_ s) st (entropy s) (drawn s).

(** [genHex], behind [GenBlobID] and [GenVersionID]. *)
Definition genHex (s : Server) : string * Server :=
  (entropy s (drawn s), mkServer (db_ s) (storage_ s) (entropy s) (S (drawn s))).
Definition GenBlobID := genHex.
Definition GenVersionID := genHex.

(** [WithTxImmediate]: the closure ran from [s0] and reached [s1]; on an
    error the database is rolled back, the files and the draws are not. *)
Definition rollback (s0 s1 : Server) : Server := set_db s1 (db_ s0).

Definition parseBucketKey (path : string) : option (string * string) :=
  match gostd.SplitN2 (gostd.Trim1 path "/") "/" with
  | [b; k] => if orb (String.eqb b "") (String.eqb k "") then None else Some (b, k)
  | _ => None
  end.

Definition stripQuotes (s : string) : string :=
  let s := gostd.TrimSpace s in
  let n := String.length s in
  if andb (andb (2 <=? n)%nat (String.prefix gostd.dquote s))
          (String.eqb (gostd.slice_from s (n - 1)) gostd.dquote)
  then String.substring 1 (n - 2) s
  else s.

(* ------------------------------------------------------------------ *)
(** *** handlePut                                                      *)

Record putResult := mkPutResult {
  res_versionID : string; res_etag : string; res_blobID : string;
  res_size : Z; res_status : Z }.

(** What the transaction closure of [handlePut] leaves behind: its error,
    the server it reached, and the captured [res], [staged], [usedNew]. *)
Record putTx := mkPutTx {
  tx_err : option db.error;
  tx_server : Server;
  tx_res : putResult;
  tx_staged : bool;
  tx_usedNew : bool }.

Definition no_res : putResult := mkPutResult "" "" "" 0 0.

(** The closure from [GenVersionID] on: the version row, the Object row and
    its head, the idempotency record, the result.  [staged] and [usedNew]
    are the values the captured variables have by then. *)
Definition putTx_version (s : Server) (bucketID : Z) (key idem etag ctype : string)
    (staged usedNew : bool) (useBlobID : string) (useSize now : Z) : putTx :=
  let '(verID, s) := GenVersionID s in
  match db.InsertObjectVersionTx (db_ s) bucketID key verID useBlobID useSize etag ctype now with
  | inr e => mkPutTx (Some e) s no_res staged usedNew
  | inl d =>
  match db.UpsertObjectTx d bucketID key useBlobID useSize etag ctype verID now with
  | inr e => mkPutTx (Some e) (set_db s d) no_res staged usedNew
  | inl d =>
  match db.SetHeadVersionTx d bucketID key verID with
  | inr e => mkPutTx (Some e) (set_db s d) no_res staged usedNew
  | inl d =>
      let d :=
        if negb (String.eqb idem "") then
          match db.SaveIdempotencyTx d bucketID key idem verID etag now with
          | inl d' => d'
          | inr _ => d
          end
        else d in
      mkPutTx None (set_db s d) (mkPutResult verID etag useBlobID useSize 200) staged usedNew
  end end end.

(** The closure from the dedup probe on. *)
Definition putTx_store (s : Server) (bucketID : Z)
    (key idem checksum etag ctype newBlobID : string) (size now : Z) : putTx :=
  match db.FindBlobByChecksumTx (db_ s) checksum with
  | inl found =>
      (* a ready blob has the checksum: the copy just written is removed *)
      let s := set_storage s (storage.Delete (storage_ s) newBlobID) in
      putTx_version s bucketID key idem etag ctype false false
                    (db.Blob.ID found) (db.Blob.Size found) now
  | inr db.ErrNotFound =>
      match db.ReserveBlobPendingTx (db_ s) newBlobID checksum size "local" now with
      | inr e =>
          mkPutTx (Some e) (set_storage s (storage.Delete (storage_ s) newBlobID))
                  no_res true false
      | inl d =>
      match db.MarkBlobReadyTx d newBlobID with
      | inr e => mkPutTx (Some e) (set_db s d) no_res true false
      | inl d => putTx_version (set_db s d) bucketID key idem etag ctype true true
                               newBlobID size now
      end end
  | inr e =>
      mkPutTx (Some e) (set_storage s (storage.Delete (storage_ s) newBlobID))
              no_res true false
  end.

(** The closure: the per-key lock, the idempotency probe, then the rest. *)
Definition putTx_body (s : Server) (bucketID : Z)
    (key idem checksum etag ctype newBlobID : string) (size now : Z) : putTx :=
  match db.LockObjectForUpdate (db_ s) bucketID key now with
  | inr e => mkPutTx (Some e) s no_res true false
  | inl d =>
      let s := set_db s d in
      let probe :=
        if negb (String.eqb idem "")
        then Some (db.GetIdempotencyTx (db_ s) bucketID key idem)
        else None in
      match probe with
      | Some (inl (verID, e)) =>
          mkPutTx None s (mkPutResult verID e "" 0 200) true false
      | Some (inr db.ErrNotFound) | None =>
          putTx_store s bucketID key idem checksum etag ctype newBlobID size now
      | Some (inr e) => mkPutTx (Some e) s no_res true false
      end
  end.

Definition handlePut `{Crypto} (s : Server) (r : Request) (now : Z) : Server * Response :=
  match parseBucketKey (Path r) with
  | None => (s, writeS3Error [] 400 "InvalidRequest" "invalid path, expected /:bucket/:key")
  | Some (bucket, key) =>
  let ownerID := UserID r in
  match db.EnsureBucket (db_ s) bucket ownerID now with
  | (d, inr _) => (set_db s d, writeS3Error [] 500 "InternalError" "bucket error")
  | (d, inl bucketID) =>
  let s := set_db s d in
  (* 1) the body goes to the storage, hashed on the way *)
  let '(newBlobID, s) := GenBlobID s in
  let s := set_storage s (storage.Put (storage_ s) newBlobID (Body r)) in
  let size := gostd.len (Body r) in
  let sumHex := gostd.hex_encode (sha256_Sum (Body r)) in
  let checksum := "sha256:" ++ sumHex in
  let etag := gostd.dquote ++ checksum ++ gostd.dquote in
  let ctype := if String.eqb (lookup (Header r) "Content-Type") ""
               then "application/octet-stream"
               else lookup (Header r) "Content-Type" in
  if andb (0 <=? ContentLength r) (negb (size =? ContentLength r)) then
    (set_storage s (storage.Delete (storage_ s) newBlobID),
     writeS3Error [] 400 "BadDigest" "mismatched content length")
  else
  let want := lookup (Header r) "x-amz-content-sha256" in
  if andb (andb (negb (String.eqb want "")) (negb (String.eqb want sumHex)))
          (negb (String.eqb want "UNSIGNED-PAYLOAD")) then
    (set_storage s (storage.Delete (storage_ s) newBlobID),
     writeS3Error [] 400 "BadDigest" "sha256 mismatch")
  else
  let idem := lookup (Header r) "X-Idempotency-Key" in
  (* 2) the transaction *)
  let t := putTx_body s bucketID key idem checksum etag ctype newBlobID size now in
  match tx_err t with
  | Some _ =>
      let s1 := rollback s (tx_server t) in
      let s1 := if tx_staged t
                then set_storage s1 (storage.Delete (storage_ s1) newBlobID) else s1 in
      (s1, writeS3Error [] 500 "InternalError" "tx error")
  | None =>
      let s1 := tx_server t in
      let s1 := if andb (tx_staged t) (negb (tx_usedNew t))
                then set_storage s1 (storage.Delete (storage_ s1) newBlobID) else s1 in
      (* 3) the answer, after the commit *)
      let res := tx_res t in
      let hdr := hset (hset (hset [] "ETag" (res_etag res))
                            "x-amz-version-id" (res_versionID res))
                      "Content-Type" "application/xml" in
      if negb (String.eqb (res_versionID res) "")
      then (s1, WriteHeader hdr (res_status res))
      else (s1, WriteHeader hdr 200)
  end
  end end.

(* ------------------------------------------------------------------ *)
(** *** handleGet                                                      *)

(** The [Range] block of [handleGet]: either the 416 answer, or [start],
    [length], [status] and the [Content-Range] header when one is set. *)
Inductive range_result :=
| RangeNotSatisfiable
| RangeOk (start length status : Z) (content_range : option string).

Definition content_range (a b total : Z) : string :=
  "bytes " ++ gostd.itoa a ++ "-" ++ gostd.itoa b ++ "/" ++ gostd.itoa total.

Definition handleGet_range (rng : string) (total : Z) : range_result :=
  if gostd.HasPrefix rng "bytes=" then
    let spec := gostd.TrimPrefix rng "bytes=" in
    let '(a, z) :=
      match gostd.IndexByte spec "-" with
      | Some i => (gostd.slice_to spec i, gostd.slice_from spec (S i))
      | None => ("", "")
      end in
    if andb (negb (String.eqb a "")) (negb (String.eqb z "")) then
      let as_ := fst (gostd.ParseInt a) in
      let bs := fst (gostd.ParseInt z) in
      if orb (orb (as_ <? 0) (bs <? as_)) (total <=? as_) then RangeNotSatisfiable
      else RangeOk as_ (gostd.wrap64 (bs - as_ + 1)) 206 (Some (content_range as_ bs total))
    else if andb (negb (String.eqb a "")) (String.eqb z "") then
      let as_ := fst (gostd.ParseInt a) in
      if orb (as_ <? 0) (total <=? as_) then RangeNotSatisfiable
      else RangeOk as_ (gostd.wrap64 (total - as_)) 206
                   (Some (content_range as_ (gostd.wrap64 (total - 1)) total))
    else if andb (String.eqb a "") (negb (String.eqb z "")) then
      let zs := fst (gostd.ParseInt z) in
      if zs <=? 0 then RangeNotSatisfiable
      else
        let zs := if total <? zs then total else zs in
        let start := gostd.wrap64 (total - zs) in
        RangeOk start zs 206 (Some (content_range start (gostd.wrap64 (total - 1)) total))
    else RangeOk 0 (-1) 200 None
  else RangeOk 0 (-1) 200 None.

Definition handleGet (s : Server) (r : Request) : outcome Response :=
  match parseBucketKey (Path r) with
  | None => Done (writeS3Error [] 400 "InvalidRequest" "invalid path, expected /:bucket/:key")
  | Some (bucket, key) =>
  let ownerID := UserID r in
  match db.BucketIDByName (db_ s) bucket ownerID with
  | inr db.ErrNotFound =>
      Done (writeS3Error [] 404 "NoSuchBucket" "The specified bucket does not exist.")
  | inr _ => Done (writeS3Error [] 500 "InternalError" "db error")
  | inl bucketID =>
  let versionID := lookup (Query r) "versionId" in
  let ver := if String.eqb versionID ""
             then db.GetHeadVersionTx (db_ s) bucketID key
             else db.GetVersionTx (db_ s) versionID in
  match ver with
  | inr db.ErrNotFound =>
      Done (writeS3Error [] 404 "NoSuchKey" "The specified key does not exist.")
  | inr _ => Done (writeS3Error [] 500 "InternalError" "db error")
  | inl ver =>
  if db.ObjectVersion.IsDelete ver then
    Done (writeS3Error [] 404 "NoSuchKey" "The specified key does not exist.")
  else
  match db.ObjectVersion.BlobID ver with
  | None => Panics (WriteHeader [] 0)          (* *ver.BlobID on nil *)
  | Some verBlobID =>
  match db.GetBlob (db_ s) verBlobID with
  | inr _ => Done (writeS3Error [] 500 "InternalError" "blob missing")
  | inl b =>
  (* predicates *)
  let pre :=
    match db.ObjectVersion.ETag ver with
    | Some verETag =>
        let ifMatch := lookup (Header r) "If-Match" in
        if andb (negb (String.eqb ifMatch ""))
                (negb (String.eqb (stripQuotes ifMatch) (stripQuotes verETag)))
        then inr (WriteHeader [] 412)
        else
          let ifNone := lookup (Header r) "If-None-Match" in
          if andb (negb (String.eqb ifNone ""))
                  (String.eqb (stripQuotes ifNone) (stripQuotes verETag))
          then inr (WriteHeader [] 304)
          else inl (hset [] "ETag" verETag)
    | None => inl []
    end in
  match pre with
  | inr resp => Done resp
  | inl hdr =>
  let hdr := hset hdr "x-amz-version-id" (db.ObjectVersion.VersionID ver) in
  let ct := match db.ObjectVersion.ContentType ver with
            | Some c => if String.eqb c "" then "application/octet-stream" else c
            | None => "application/octet-stream"
            end in
  let hdr := hset hdr "Content-Type" ct in
  let hdr := hset hdr "Accept-Ranges" "bytes" in
  (* Range *)
  let total := db.Blob.Size b in
  match handleGet_range (lookup (Header r) "Range") total with
  | RangeNotSatisfiable => Done (WriteHeader hdr 416)
  | RangeOk start length status cr =>
  let hdr := match cr with Some v => hset hdr "Content-Range" v | None => hdr end in
  match storage.ReadAt (storage_ s) verBlobID start length with
  | None => Done (writeS3Error hdr 500 "InternalError" "read error")
  | Some bytes =>
      let hdr := hset hdr "Content-Length"
                      (if 0 <=? length then gostd.itoa length else gostd.itoa total) in
      Done (mkResponse status "" "" hdr bytes)
  end end end end end end end end.

(* ------------------------------------------------------------------ *)
(** *** handleDelete                                                   *)

Record delResult := mkDelResult { returnVersion : string; del_status : Z }.

(** The blob GC step shared by [handleDelete] and [deleteVersionsTx]. *)
Definition gc_blob (s : Server) (blobID : option string) : Server :=
  match blobID with
  | Some b =>
      if db.BlobRefCountFromVersionsTx (db_ s) b =? 0 then
        let s := set_storage s (storage.Delete (storage_ s) b) in
        match db.DeleteBlobRecordTx (db_ s) b with
        | inl d => set_db s d
        | inr _ => s
        end
      else s
  | None => s
  end.

(** The transaction closure of [handleDelete]: its error, the server it
    reached and the captured [res]. *)
Definition deleteTx_body (s : Server) (bucketID : Z) (key versionID : string) (now : Z)
    : option db.error * Server * delResult :=
  match db.LockObjectForUpdate (db_ s) bucketID key now with
  | inr e => (Some e, s, mkDelResult "" 0)
  | inl d =>
  let s := set_db s d in
  if String.eqb versionID "" then
    (* 1) no versionId: a delete-marker becomes the head *)
    let '(dm, s) := GenVersionID s in
    match db.CreateDeleteMarkerTx (db_ s) bucketID key dm now with
    | inr e => (Some e, s, mkDelResult "" 0)
    | inl d =>
    match db.SetHeadVersionTx d bucketID key dm with
    | inr e => (Some e, set_db s d, mkDelResult "" 0)
    | inl d => (None, set_db s d, mkDelResult dm 204)
    end end
  else
    (* 2) versionId: that version is removed *)
    match db.GetVersionTx (db_ s) versionID with
    | inr db.ErrNotFound => (None, s, mkDelResult "" 404)
    | inr e => (Some e, s, mkDelResult "" 0)
    | inl ver =>
    match db.DeleteVersionTx (db_ s) versionID with
    | inr e => (Some e, s, mkDelResult "" 0)
    | inl d =>
    let s := set_db s d in
    let head := db.GetHeadVersionTx (db_ s) bucketID key in
    let moved :=
      match head with
      | inl h => String.eqb (db.ObjectVersion.VersionID h) versionID
      | inr _ => true
      end in
    let s :=
      if moved then
        match db.GetPrevVersionTx (db_ s) bucketID key versionID with
        | inl prev =>
            match db.SetHeadVersionTx (db_ s) bucketID key (db.ObjectVersion.VersionID prev) with
            | inl d => set_db s d
            | inr _ => s
            end
        | inr _ =>
            let '(dm, s) := GenVersionID s in
            let s := match db.CreateDeleteMarkerTx (db_ s) bucketID key dm now with
                     | inl d => set_db s d
                     | inr _ => s
                     end in
            match db.SetHeadVersionTx (db_ s) bucketID key dm with
            | inl d => set_db s d
            | inr _ => s
            end
        end
      else s in
    let s := gc_blob s (db.ObjectVersion.BlobID ver) in
    (None, s, mkDelResult versionID 204)
    end end
  end.

Definition handleDelete (s : Server) (r : Request) (now : Z) : Server * Response :=
  match parseBucketKey (Path r) with
  | None => (s, writeS3Error [] 400 "InvalidRequest" "invalid path, expected /:bucket/:key")
  | Some (bucket, key) =>
  let ownerID := UserID r in
  match db.BucketIDByName (db_ s) bucket ownerID with
  | inr db.ErrNotFound =>
      (s, writeS3Error [] 404 "NoSuchBucket" "The specified bucket does not exist.")
  | inr _ => (s, writeS3Error [] 500 "InternalError" "db error")
  | inl bucketID =>
  let versionID := lookup (Query r) "versionId" in
  match deleteTx_body s bucketID key versionID now with
  | (Some _, s1, _) => (rollback s s1, writeS3Error [] 500 "InternalError" "tx error")
  | (None, s1, res) =>
      if del_status res =? 404
      then (s1, writeS3Error [] 404 "NoSuchVersion" "The specified version does not exist.")
      else (s1, WriteHeader (hset [] "x-amz-version-id" (returnVersion res)) (del_status res))
  end end end.

(* ------------------------------------------------------------------ *)
(** *** handleDeleteBucket                                             *)

(** After the transaction the handler answers 409 on [ErrBucketNotEmpty];
    every other result, success included, runs into the [InternalError]
    answer and its [return]: the 204 below it is never reached. *)
Definition handleDeleteBucket (s : Server) (r : Request) (bucket : string)
    : Server * Response :=
  if String.eqb bucket "" then
    (s, mkResponse 400 "" "empty bucket name" [] "empty bucket name")
  else
  let ownerID := UserID r in
  match db.BucketIDByName (db_ s) bucket ownerID with
  | inr db.ErrNotFound =>
      (s, writeS3Error [] 404 "NoSuchBucket" "The specified bucket does not exist.")
  | inr _ => (s, writeS3Error [] 500 "InternalError" "db error")
  | inl bucketID =>
      let '(s1, err) :=
        match db.DeleteBucketIfEmpty (db_ s) bucketID with
        | inl d => (set_db s d, None)
        | inr e => (s, Some e)
        end in
      match err with
      | Some db.ErrBucketNotEmpty =>
          (s1, writeS3Error [] 409 "BucketNotEmpty" "The bucket you tried to delete is not empty.")
      | _ => (s1, writeS3Error [] 500 "InternalError" "db error")
      end
  end.

(* ------------------------------------------------------------------ *)
(** *** The lifecycle worker                                           *)

Record LifecycleWorker := mkLifecycleWorker { Every : Z; Batch : Z }.

(** [time.Now().AddDate(0, 0, -days)], a day being 86400 seconds. *)
Definition days_before (now days : Z) : Z := now + 86400 * gostd.wrap64 (- days).

(** One transaction of [deleteVersionsTx]: the server it leaves and whether
    [changed] was incremented. *)
Definition deleteVersionsTx_one (s : Server) (v : db.ObjectVersion.t) (now : Z)
    : Server * bool :=
  match db.LockObjectForUpdate (db_ s) (db.ObjectVersion.BucketID v)
                               (db.ObjectVersion.Key v) now with
  | inr _ => (s, false)
  | inl d =>
  match db.DeleteVersionTx d (db.ObjectVersion.VersionID v) with
  | inr _ => (s, false)                                  (* rolled back *)
  | inl d => (gc_blob (set_db s d) (db.ObjectVersion.BlobID v), true)
  end end.

Fixpoint deleteVersionsTx (s : Server) (vers : list db.ObjectVersion.t) (now : Z)
    : Server * Z :=
  match vers with
  | [] => (s, 0)
  | v :: vers' =>
      let '(s1, ok) := deleteVersionsTx_one s v now in
      let '(s2, changed) := deleteVersionsTx s1 vers' now in
      (s2, (if ok then 1 else 0) + changed)
  end.

(** One transaction of [purgeDeleteMarkersTx]. *)
Definition purgeDeleteMarkersTx_one (s : Server) (dm : db.ObjectVersion.t) (now : Z)
    : Server * bool :=
  match db.LockObjectForUpdate (db_ s) (db.ObjectVersion.BucketID dm)
                               (db.ObjectVersion.Key dm) now with
  | inr _ => (s, false)
  | inl d =>
  let is_head :=
    match db.GetHeadVersionTx d (db.ObjectVersion.BucketID dm) (db.ObjectVersion.Key dm) with
    | inl head => String.eqb (db.ObjectVersion.VersionID head) (db.ObjectVersion.VersionID dm)
    | inr _ => false
    end in
  (* the current head is left alone: removing it would revive the object *)
  if is_head then (set_db s d, false)
  else
    match db.DeleteVersionTx d (db.ObjectVersion.VersionID dm) with
    | inr _ => (s, false)
    | inl d => (set_db s d, true)
    end
  end.

Fixpoint purgeDeleteMarkersTx (s : Server) (dms : list db.ObjectVersion.t) (now : Z)
    : Server * Z :=
  match dms with
  | [] => (s, 0)
  | dm :: dms' =>
      let '(s1, ok) := purgeDeleteMarkersTx_one s dm now in
      let '(s2, changed) := purgeDeleteMarkersTx s1 dms' now in
      (s2, (if ok then 1 else 0) + changed)
  end.

(** One transaction of [expireCurrentTx]. *)
Definition expireCurrentTx_one (s : Server) (o : db.Object.t) (now : Z) : Server * bool :=
  match db.LockObjectForUpdate (db_ s) (db.Object.BucketID o) (db.Object.Key o) now with
  | inr _ => (s, false)
  | inl d =>
  let '(dm, s1) := GenVersionID (set_db s d) in
  match db.CreateDeleteMarkerTx (db_ s1) (db.Object.BucketID o) (db.Object.Key o) dm now with
  | inr _ => (rollback s s1, false)
  | inl d =>
  match db.SetHeadVersionTx d (db.Object.BucketID o) (db.Object.Key o) dm with
  | inr _ => (rollback s s1, false)
  | inl d => (set_db s1 d, true)
  end end end.

Fixpoint expireCurrentTx (s : Server) (objs : list db.Object.t) (now : Z) : Server * Z :=
  match objs with
  | [] => (s, 0)
  | o :: objs' =>
      let '(s1, ok) := expireCurrentTx_one s o now in
      let '(s2, changed) := expireCurrentTx s1 objs' now in
      (s2, (if ok then 1 else 0) + changed)
  end.

(** The body of the loop of [onePass] for one rule.  Step 3 reads
    [*rule.PurgeDeleteMarkersAfterDays] for its cut-off. *)
Definition onePass_rule (lw : LifecycleWorker) (s : Server) (rule : db.LifecycleRule.t)
    (now : Z) : outcome Server :=
  let bucketID := db.LifecycleRule.BucketID rule in
  let prefix := db.LifecycleRule.Prefix rule in
  (* 1) noncurrent expiration, by age *)
  let s :=
    match db.LifecycleRule.ExpireNoncurrentAfterDays rule with
    | Some n =>
        if 0 <=? n then
          let cut := days_before now n in
          fst (deleteVersionsTx s (db.ListNoncurrentByAge (db_ s) bucketID prefix cut (Batch lw)) now)
        else s
    | None => s
    end in
  (* 1b) noncurrent: keep the newest K *)
  let s :=
    match db.LifecycleRule.NoncurrentNewerVersionsToKeep rule with
    | Some k =>
        if 0 <=? k then
          fst (deleteVersionsTx s (db.ListNoncurrentKeepNewest (db_ s) bucketID prefix k (Batch lw)) now)
        else s
    | None => s
    end in
  (* 2) purge delete-markers *)
  let s :=
    match db.LifecycleRule.PurgeDeleteMarkersAfterDays rule with
    | Some p =>
        if 0 <=? p then
          let cut := days_before now p in
          fst (purgeDeleteMarkersTx s (db.ListDeleteMarkersForPurge (db_ s) bucketID prefix cut (Batch lw)) now)
        else s
    | None => s
    end in
  (* 3) expire current (HEAD): a delete-marker is put on top *)
  match db.LifecycleRule.ExpireCurrentAfterDays rule with
  | Some c =>
      if 0 <=? c then
        match db.LifecycleRule.PurgeDeleteMarkersAfterDays rule with
        | None => Panics s
        | Some p =>
            let cut := days_before now p in
            Done (fst (expireCurrentTx s (db.ListHeadsOlderThan (db_ s) bucketID prefix cut (Batch lw)) now))
        end
      else Done s
  | None => Done s
  end.

Fixpoint onePass_rules (lw : LifecycleWorker) (s : Server) (rules : list db.LifecycleRule.t)
    (now : Z) : outcome Server :=
  match rules with
  | [] => Done s
  | rule :: rules' =>
      match onePass_rule lw s rule now with
      | Done s1 => onePass_rules lw s1 rules' now
      | Panics s1 => Panics s1
      end
  end.

Definition onePass (lw : LifecycleWorker) (s : Server) (now : Z) : outcome Server :=
  onePass_rules lw s (db.ListEnabledLifecycleRules (db_ s)) now.

(* ------------------------------------------------------------------ *)
(** *** AuthMiddleware and WithRecover                                 *)

Record credProvider := mkCredProvider { cred_db : db.DB }.

#[export] Instance credProvider_LookupSecret : auth.CredentialsProvider credProvider := {|
  auth.LookupSecret c accessKeyID :=
    match db.FindUserByAccessKey (cred_db c) accessKeyID with
    | inl u => inl (db.User.SecretAccessKey u)
    | inr e => inr e
    end |}.

Definition auth_message (e : auth.error) : string :=
  match e with
  | auth.ErrNoAuthHeader => "missing Authorization header"
  | auth.ErrUnsuportedAlgorithm => "unsupported algorithm"
  | auth.ErrBadCredentialScope => "bad credential scope"
  | auth.ErrSignatureMismatch => "signature does not match"
  | auth.ErrSkewedDate => "date skew too large"
  | auth.Errorf msg => msg
  | auth.Provider db.ErrNotFound => "not found"
  | auth.Provider _ => "db error"
  end.

(** [AuthMiddleware]: [allowNoSign] is ALLOW_INSECURE_NOSIGN, [next] the
    wrapped handler, given the caller id it will find in the context. *)
Definition AuthMiddleware `{Crypto} (allowNoSign : bool) (s : Server) (r : auth.Request)
    (now : Z) (next : Z -> outcome Response) : outcome Response :=
  if andb allowNoSign (String.eqb (auth.Header_Get r "Authorization") "") then next 0
  else
    match auth.VerifySigV4 r (mkCredProvider (db_ s))
            (auth.mkVerifyOptions (15 * auth.Minute) true "s3") now with
    | (_, Some err) =>
        Done (writeS3Error [] 403 "SignatureDoesNotMatch" (auth_message err))
    | (None, None) => Panics (WriteHeader [] 0)       (* res.AccessKeyID on nil *)
    | (Some res, None) =>
        match db.FindUserByAccessKey (db_ s) (auth.AccessKeyID res) with
        | inl u => next (db.User.ID u)
        | inr _ => Done (WriteHeader [] 200)          (* nothing is written *)
        end
    end.

(** [WithRecover]: a panic of the wrapped handler becomes a 500. *)
Definition WithRecover (o : outcome Response) : Response :=
  match o with
  | Done resp => resp
  | Panics _ =>
      mkResponse 500 "InternalError" "panic" (hset [] "Content-Type" "application/xml")
                 "<Error><Code>InternalError</Code><Message>panic</Message></Error>"
  end.

(* ------------------------------------------------------------------ *)
(** *** The blob collector                                             *)

(** The counters of one pass of [StartGC]. *)
Record gcTotals := mkGcTotals { totalFiles : Z; totalBytes : Z }.

(** The body of the loop over the candidates: the file goes first, then the
    record; a record that cannot be deleted is left for the next pass and
    the candidate is not counted. *)
Definition gc_one (st : Server * gcTotals) (r : db.GCBlob.t) : Server * gcTotals :=
  let '(s, tot) := st in
  let s := set_storage s (storage.Delete (storage_ s) (db.GCBlob.ID r)) in
  match db.DeleteBlobRecordTx (db_ s) (db.GCBlob.ID r) with
  | inr _ => (s, tot)
  | inl d =>
      (set_db s d,
       mkGcTotals (totalFiles tot + 1) (gostd.wrap64 (totalBytes tot + db.GCBlob.Size r)))
  end.

(** One tick of [StartGC] with the batch size [batch]. *)
Definition gc_pass (s : Server) (batch : Z) : Server * gcTotals :=
  fold_left gc_one (db.BlobsForGCWithSize (db_ s) batch) (s, mkGcTotals 0 0).

(* ------------------------------------------------------------------ *)
(** *** The lifecycle configuration of a bucket                        *)

(** The XML types of s3xml.go, as [encoding/xml] fills them. *)
Module Filter.
Record t := mk { Prefix : string }.
End Filter.

Module Expiration.
Record t := mk { Days : option Z }.
End Expiration.

Module NoncurrentVersionExpiration.
Record t := mk { NoncurrentDays : option Z; NewerNoncurrentVersions : option Z }.
End NoncurrentVersionExpiration.

Module AbortIncompleteMultipartUpload.
Record t := mk { DaysAfterInitiation : option Z }.
End AbortIncompleteMultipartUpload.

Module Rule.
Record t := mk {
    ID : string;
    Status : string;
    Filter : option Filter.t;
    Expiration : option Expiration.t;
    NoncurrentVersionExpiration : option NoncurrentVersionExpiration.t;
    AbortIncompleteMultipartUpload : option AbortIncompleteMultipartUpload.t }.
End Rule.

Definition ruleFromXML (bucketID : Z) (x : Rule.t) : db.LifecycleRule.t :=
  let prefix := match Rule.Filter x with
                | Some f => Filter.Prefix f
                | None => ""
                end in
  let enabled := gostd.EqualFold (Rule.Status x) "Enabled" in
  let expireCurrent := match Rule.Expiration x with
                       | Some e => Expiration.Days e
                       | None => None
                       end in
  let '(expireNoncurrent, keep) :=
    match Rule.NoncurrentVersionExpiration x with
    | Some n => (NoncurrentVersionExpiration.NoncurrentDays n,
                 NoncurrentVersionExpiration.NewerNoncurrentVersions n)
    | None => (None, None)
    end in
  db.LifecycleRule.mk 0 bucketID prefix enabled expireCurrent expireNoncurrent keep None 0 0.

Definition ruleToXML (r : db.LifecycleRule.t) : Rule.t :=
  let status := if db.LifecycleRule.Enabled r then "Enabled" else "Disabled" in
  let exp := match db.LifecycleRule.ExpireCurrentAfterDays r with
             | Some _ => Some (Expiration.mk (db.LifecycleRule.ExpireCurrentAfterDays r))
             | None => None
             end in
  let nce :=
    match db.LifecycleRule.ExpireNoncurrentAfterDays r,
          db.LifecycleRule.NoncurrentNewerVersionsToKeep r with
    | None, None => None
    | _, _ => Some (NoncurrentVersionExpiration.mk
                      (db.LifecycleRule.ExpireNoncurrentAfterDays r)
                      (db.LifecycleRule.NoncurrentNewerVersionsToKeep r))
    end in
  Rule.mk "" status (Some (Filter.mk (db.LifecycleRule.Prefix r))) exp nce None.

(** The loop of the transaction of [handlePutBucketLifecycle]. *)
Fixpoint create_rules (d : db.DB) (seq bucketID : Z) (rules : list Rule.t) (now : Z)
    : db.DB * Z :=
  match rules with
  | [] => (d, seq)
  | xr :: rules' =>
      let '(d1, seq1) := db.CreateLifecycleRule d seq (ruleFromXML bucketID xr) now in
      create_rules d1 seq1 bucketID rules' now
  end.

(** [handlePutBucketLifecycle].  [cfg] is what [xml.NewDecoder(r.Body)]
    decodes, [None] when it fails; [seq] is the AUTOINCREMENT counter of the
    rule table, returned with the server. *)
Definition handlePutBucketLifecycle (s : Server) (seq : Z) (r : Request) (bucket : string)
    (cfg : option (list Rule.t)) (now : Z) : Server * Z * Response :=
  let ownerID := UserID r in
  match db.BucketIDByName (db_ s) bucket ownerID with
  | inr db.ErrNotFound =>
      (s, seq, writeS3Error [] 404 "NoSuchBucket" "The specified bucket does not exist.")
  | inr _ => (s, seq, writeS3Error [] 500 "InternalError" "db error")
  | inl bucketID =>
      match cfg with
      | None => (s, seq, writeS3Error [] 400 "MalformedXML" "cannot parse lifecycle xml")
      | Some rules =>
          let d := db.DeleteLifecycleRules (db_ s) bucketID in
          let '(d, seq) := create_rules d seq bucketID rules now in
          (set_db s d, seq, WriteHeader [] 200)
      end
  end.

(** [handleGetBucketLifecycle]: the answer and, on success, the
    configuration handed to the XML encoder. *)
Definition handleGetBucketLifecycle (s : Server) (r : Request) (bucket : string)
    : Response * option (list Rule.t) :=
  let ownerID := UserID r in
  match db.BucketIDByName (db_ s) bucket ownerID with
  | inr db.ErrNotFound =>
      (writeS3Error [] 404 "NoSuchBucket" "The specified bucket does not exist.", None)
  | inr _ => (writeS3Error [] 500 "InternalError" "db error", None)
  | inl bucketID =>
      match db.LifecycleRulesOf (db_ s) bucketID with
      | [] => (writeS3Error [] 404 "NoSuchLifecycleConfiguration"
                            "The lifecycle configuration does not exist.", None)
      | rules =>
          (WriteHeader (hset [] "Content-Type" "application/xml") 200,
           Some (map ruleToXML rules))
      end
  end.

Definition handleDeleteBucketLifecycle (s : Server) (r : Request) (bucket : string)
    : Server * Response :=
  let ownerID := UserID r in
  match db.BucketIDByName (db_ s) bucket ownerID with
  | inr db.ErrNotFound =>
      (s, writeS3Error [] 404 "NoSuchBucket" "The specified bucket does not exist.")
  | inr _ => (s, writeS3Error [] 500 "InternalError" "db error")
  | inl bucketID =>
      (set_db s (db.DeleteLifecycleRules (db_ s) bucketID), WriteHeader [] 204)
  end.

(* ------------------------------------------------------------------ *)
(** *** Bucket handlers                                                *)

Module S3Bucket.
Record t := mk { Name : string; CreationDate : Z }.
End S3Bucket.

(** What [writeListBuckets] encodes: the owner and the buckets. *)
Record ListAllMyBuckets := mkListAllMyBuckets {
  OwnerID : string;
  OwnerName : string;
  Buckets : list S3Bucket.t }.

(** [handleListBuckets].  A failed [FindUserByID] is answered with a 500
    but the handler goes on: with the list of buckets in hand it reads
    [u.ID] of the nil user. *)
Definition handleListBuckets (s : Server) (r : Request)
    : outcome (Response * option ListAllMyBuckets) :=
  let ownerID := UserID r in
  let u := db.FindUserByID (db_ s) ownerID in
  let bs := db.ListBuckets (db_ s) ownerID in
  let out := map (fun b => S3Bucket.mk (db.Bucket.Name b) (db.Bucket.CreatedAt b)) bs in
  match u with
  | inr _ => Panics (writeS3Error [] 500 "InternalError" "db error", None)
  | inl u =>
      Done (WriteHeader (hset [] "Content-Type" "application/xml") 200,
            Some (mkListAllMyBuckets (gostd.itoa (db.User.ID u)) "local" out))
  end.

Definition handlePutBucket (s : Server) (r : Request) (bucket : string) (now : Z)
    : Server * Response :=
  if String.eqb bucket "" then
    (s, writeS3Error [] 400 "InvalidBucketName" "empty bucket name")
  else
  let ownerID := UserID r in
  match db.EnsureBucket (db_ s) bucket ownerID now with
  | (d, inr _) => (set_db s d, writeS3Error [] 500 "InternalError" "db error")
  | (d, inl _) =>
      (set_db s d,
       WriteHeader (hset (hset [] "Location" ("/" ++ bucket)) "Content-Type" "application/xml")
                   200)
  end.

(* ------------------------------------------------------------------ *)
(** *** Router                                                         *)

(** The handler the closure that [Router] registers on "/" hands a request
    to, or the answer it writes itself. *)
Inductive route :=
| ToListBuckets
| ToPutBucketLifecycle (bucket : string)
| ToGetBucketLifecycle (bucket : string)
| ToDeleteBucketLifecycle (bucket : string)
| ToPutBucket (bucket : string)
| ToDeleteBucket (bucket : string)
| ToListObjectsV2 (bucket : string)
| ToPut
| ToGet
| ToDelete
| Refused (resp : Response).

(** [hasLifecycle]: the query has the key, with or without a value. *)
Definition hasLifecycle (r : Request) : bool :=
  orb (existsb (fun e => String.eqb (fst e) "lifecycle") (Query r))
      (negb (String.eqb (lookup (Query r) "lifecycle") "")).

Definition Router (r : Request) : route :=
  if String.eqb (Path r) "/" then
    if String.eqb (Method r) "GET" then ToListBuckets
    else Refused (writeS3Error [] 405 "MethodNotAllowed" "only GET on /")
  else
  let p := gostd.Trim1 (Path r) "/" in
  match gostd.SplitN2 p "/" with
  | [bucket] =>
      if hasLifecycle r then
        if String.eqb (Method r) "PUT" then ToPutBucketLifecycle bucket
        else if String.eqb (Method r) "GET" then ToGetBucketLifecycle bucket
        else if String.eqb (Method r) "DELETE" then ToDeleteBucketLifecycle bucket
        else Refused (writeS3Error [] 405 "MethodNotAllowed" "unsupported lifecycle method")
      else
        if String.eqb (Method r) "PUT" then ToPutBucket bucket
        else if String.eqb (Method r) "DELETE" then ToDeleteBucket bucket
        else if String.eqb (Method r) "GET" then
          if String.eqb (lookup (Query r) "list-type") "2" then ToListObjectsV2 bucket
          else Refused (writeS3Error [] 501 "NotImplemented" "list objects not implemented")
        else Refused (writeS3Error [] 405 "MethodNotAllowed" "unsupported method for bucket")
  | _ =>
      if String.eqb (Method r) "PUT" then ToPut
      else if String.eqb (Method r) "GET" then ToGet
      else if String.eqb (Method r) "DELETE" then ToDelete
      else if String.eqb (Method r) "HEAD" then ToGet
      else Refused (writeS3Error [] 405 "MethodNotAllowed" "unsupported method")
  end.

(* ------------------------------------------------------------------ *)
(** *** handleListObjectsV2                                            *)


End server.

(* ================================================================== *)
(** ** Properties and example states                                   *)
(* ================================================================== *)

Module props.

(** P4: the head of an Object row names a version row of the same key. *)
Definition names_version (d : db.DB) (o : db.Object.t) : Prop :=
  exists v, In v (db.object_versions d) /\
            db.ObjectVersion.VersionID v = db.Object.HeadVersionID o /\
            db.ObjectVersion.BucketID v = db.Object.BucketID o /\
            db.ObjectVersion.Key v = db.Object.Key o.

Definition head_consistent (d : db.DB) : Prop :=
  forall o, In o (db.objects d) -> names_version d o.

(** The bytes [start, start+length) of a body, cut at its end. *)
Definition bytes_range (body : string) (start length : Z) : string :=
  String.substring (Z.to_nat start) (Z.to_nat length) body.

(** GET of [r] resolves to the version [ver], whose blob record is [blob]
    and whose file holds [bytes], and carries no conditional header. *)
Definition serves (s : server.Server) (r : server.Request) (ver : db.ObjectVersion.t)
    (blob : db.Blob.t) (bytes : string) : Prop :=
  exists bucket key bucketID blobID,
    server.parseBucketKey (server.Path r) = Some (bucket, key) /\
    db.BucketIDByName (server.db_ s) bucket (server.UserID r) = inl bucketID /\
    (if String.eqb (server.lookup (server.Query r) "versionId") ""
     then db.GetHeadVersionTx (server.db_ s) bucketID key
     else db.GetVersionTx (server.db_ s) (server.lookup (server.Query r) "versionId"))
      = inl ver /\
    db.ObjectVersion.IsDelete ver = false /\
    db.ObjectVersion.BlobID ver = Some blobID /\
    db.GetBlob (server.db_ s) blobID = inl blob /\
    storage.Stat (server.storage_ s) blobID = Some bytes /\
    server.lookup (server.Header r) "If-Match" = "" /\
    server.lookup (server.Header r) "If-None-Match" = "".

(** The headers [handleGet] has set when it reaches the Range block. *)
Definition base_headers (ver : db.ObjectVersion.t) : list (string * string) :=
  let hdr := match db.ObjectVersion.ETag ver with
             | Some e => server.hset [] "ETag" e
             | None => []
             end in
  let hdr := server.hset hdr "x-amz-version-id" (db.ObjectVersion.VersionID ver) in
  let ct := match db.ObjectVersion.ContentType ver with
            | Some c => if String.eqb c "" then "application/octet-stream" else c
            | None => "application/octet-stream"
            end in
  server.hset (server.hset hdr "Content-Type" ct) "Accept-Ranges" "bytes".

(** A byte range as the client means it: [bytes=a-b], [bytes=a-], [bytes=-n]. *)
Inductive byte_range :=
| FromTo (a b : Z)
| From (a : Z)
| Last (n : Z).

(** The header [h] spells the range: its fields are what [strconv.ParseInt]
    reads, without an error, as the numbers of the range. *)
Definition spells (h : string) (f : byte_range) : Prop :=
  match f with
  | FromTo a b =>
      exists sa sb, h = "bytes=" ++ sa ++ "-" ++ sb /\ gostd.IndexByte sa "-" = None /\
                    sa <> "" /\ sb <> "" /\
                    gostd.ParseInt sa = (a, None) /\ gostd.ParseInt sb = (b, None)
  | From a =>
      exists sa, h = "bytes=" ++ sa ++ "-" /\ gostd.IndexByte sa "-" = None /\
                 sa <> "" /\ gostd.ParseInt sa = (a, None)
  | Last n =>
      exists sn, h = "bytes=-" ++ sn /\ sn <> "" /\ gostd.ParseInt sn = (n, None)
  end.

(** What the range selects of an object of [total] bytes: nothing (416), or
    the first byte, the length and the last byte named in Content-Range. *)
Definition selects (total : Z) (f : byte_range) : option (Z * Z * Z) :=
  match f with
  | FromTo a b =>
      if orb (orb (a <? 0) (b <? a)) (total <=? a) then None else Some (a, b - a + 1, b)
  | From a =>
      if orb (a <? 0) (total <=? a) then None else Some (a, total - a, total - 1)
  | Last n =>
      if n <=? 0 then None
      else Some (total - Z.min n total, Z.min n total, total - 1)
  end.

(** The id [EnsureBucket] answers for a bucket name: the id of the bucket of
    that name, or the next id of the sequence when there is none yet. *)
Definition bucket_id (d : db.DB) (name : string) : Z :=
  match find (fun b => String.eqb (db.Bucket.Name b) name) (db.buckets d) with
  | Some b => db.Bucket.ID b
  | None => db.seq_buckets d + 1
  end.

(** The checksum and the ETag [handlePut] computes for a body. *)
Definition checksum_of `{Crypto} (body : string) : string :=
  "sha256:" ++ gostd.hex_encode (sha256_Sum body).
Definition etag_of `{Crypto} (body : string) : string :=
  gostd.dquote ++ checksum_of body ++ gostd.dquote.


(** The server after the PUTs of [l], run in sequence from [s]. *)
Fixpoint after_puts `{Crypto} (s : server.Server) (l : list (server.Request * Z))
    : server.Server :=
  match l with
  | [] => s
  | (r, now) :: l' => after_puts (fst (server.handlePut s r now)) l'
  end.

(** A rule of a lifecycle configuration as it reads once stored: the same
    rule, enabled. *)
Definition enabled (x : server.Rule.t) : server.Rule.t :=
  server.Rule.mk (server.Rule.ID x) "Enabled" (server.Rule.Filter x)
                 (server.Rule.Expiration x) (server.Rule.NoncurrentVersionExpiration x)
                 (server.Rule.AbortIncompleteMultipartUpload x).

(** The rows [create_rules] appends for the rules of a configuration. *)
Fixpoint stored_rules (seq bucketID : Z) (rules : list server.Rule.t) (now : Z)
    : list db.LifecycleRule.t :=
  match rules with
  | [] => []
  | x :: rules' =>
      let r := server.ruleFromXML bucketID x in
      db.LifecycleRule.mk (seq + 1) bucketID (db.LifecycleRule.Prefix r) true
        (db.LifecycleRule.ExpireCurrentAfterDays r)
        (db.LifecycleRule.ExpireNoncurrentAfterDays r)
        (db.LifecycleRule.NoncurrentNewerVersionsToKeep r) None now now
      :: stored_rules (seq + 1) bucketID rules' now
  end.

(** The string begins with the character. *)
Definition begins (c : ascii) (s : string) : bool :=
  match s with
  | String d _ => Ascii.eqb d c
  | EmptyString => false
  end.

(** The keys are in ascending order of their bytes. *)
Fixpoint ascending (l : list string) : bool :=
  match l with
  | x :: (y :: _) as l' => andb (String.leb x y) (ascending l')
  | _ => true
  end.

(** The page size [ListObjectsV2] works with. *)
Definition max_keys (p : db.ListV2Params.t) : Z :=
  if orb (db.ListV2Params.MaxKeys p <=? 0) (1000 <? db.ListV2Params.MaxKeys p)
  then 1000 else db.ListV2Params.MaxKeys p.

(** The key has an Object row in the bucket whose head is the version
    [ov], which is no delete-marker. *)
Definition live (d : db.DB) (bucketID : Z) (key : string) (ov : db.ObjectVersion.t) : Prop :=
  exists o, In o (db.objects d) /\ db.Object.BucketID o = bucketID /\
            db.Object.Key o = key /\ In ov (db.object_versions d) /\
            db.ObjectVersion.VersionID ov = db.Object.HeadVersionID o /\
            db.ObjectVersion.IsDelete ov = false.

(** The key is within the listing: it matches the prefix (SQLite's LIKE)
    and comes after the starting key, when they are given. *)
Definition within (prefix afterKey key : string) : Prop :=
  (prefix = "" \/ db.like (prefix ++ "%") key = true) /\
  (afterKey = "" \/ String.ltb afterKey key = true).

End props.

Module scenario.

(** The identifiers a run draws: "30", "31", ... in hex, like [genHex]. *)
Definition ids (n : nat) : string := gostd.hex_encode (gostd.itoa (Z.of_nat n)).

(** An empty server. *)
Definition fresh : server.Server := server.mkServer db.empty [] ids 0.

Definition with_rules (s : server.Server) (rules : list db.LifecycleRule.t) : server.Server :=
  server.set_db s
    (db.mkDB (db.buckets (server.db_ s)) (db.blobs (server.db_ s)) (db.objects (server.db_ s))
             (db.object_versions (server.db_ s)) (db.users (server.db_ s))
             (db.idempotency_keys (server.db_ s)) rules
             (db.seq_buckets (server.db_ s)) (db.seq_objects (server.db_ s))).

(** PUT /b/k by caller 1, with the given body and headers. *)
Definition put (path body : string) (hdr : list (string * string)) : server.Request :=
  server.mkRequest "PUT" path [] hdr (gostd.len body) body 1.

Definition get (path : string) (query hdr : list (string * string)) : server.Request :=
  server.mkRequest "GET" path query hdr 0 "" 1.

Definition delete (path : string) (query : list (string * string)) : server.Request :=
  server.mkRequest "DELETE" path query [] 0 "" 1.

Definition day : Z := 86400.

(** The fresh server after [EnsureBucket "b"] by caller 1. *)
Definition one_bucket : server.Server :=
  server.set_db fresh (fst (db.EnsureBucket db.empty "b" 1 0)).

(** A rule on bucket 1 with the four thresholds. *)
Definition rule (c n k p : option Z) : db.LifecycleRule.t :=
  db.LifecycleRule.mk 1 1 "" true c n k p 0 0.

(** A signed GET /b/k?versionId=31 of 2026-10-30 12:00:00 UTC (Unix
    1793361600) by the access key "AKIA", with the given signature. *)
Definition signed (signature : string) : auth.Request :=
  auth.mkRequest "GET" "localhost:8080" "/b/k" [("versionId", ["31"])]
    [("authorization",
      ["AWS4-HMAC-SHA256 Credential=AKIA/20261030/us-east-1/s3/aws4_request, SignedHeaders=host;x-amz-date, Signature="
         ++ signature]);
     ("x-amz-date", ["20261030T120000Z"])].

(** The same request with another x-amz-date. *)
Definition signed_at (amzDate signature : string) : auth.Request :=
  auth.mkRequest "GET" "localhost:8080" "/b/k" [("versionId", ["31"])]
    [("authorization",
      ["AWS4-HMAC-SHA256 Credential=AKIA/20261030/us-east-1/s3/aws4_request, SignedHeaders=host;x-amz-date, Signature="
         ++ signature]);
     ("x-amz-date", [amzDate])].

(** A server that knows the user "AKIA" with the secret "secret". *)
Definition with_user : server.Server :=
  server.set_db fresh
    (db.mkDB [] [] [] [] [db.User.mk 7 "AKIA" "secret" "active" 0] [] [] 0 0).

Definition worker : server.LifecycleWorker := server.mkLifecycleWorker 900 50.

End scenario.

(* ================================================================== *)
(** ** Theorems                                                        *)
(* ================================================================== *)

Import server.

(** *** The library functions on examples *)

Example ParseInt_13 : gostd.ParseInt "13" = (13, None).
Proof. reflexivity. Qed.
Example ParseInt_neg : gostd.ParseInt "-2" = (-2, None).
Proof. reflexivity. Qed.
Example ParseInt_bad : gostd.ParseInt "abc" = (0, Some gostd.ErrSyntax).
Proof. reflexivity. Qed.
Example ParseInt_big :
  gostd.ParseInt "9223372036854775808" = (9223372036854775807, Some gostd.ErrRange).
Proof. vm_compute. reflexivity. Qed.
Example itoa_ex : gostd.itoa 1203 = "1203" /\ gostd.itoa 0 = "0" /\ gostd.itoa (-45) = "-45".
Proof. vm_compute. auto. Qed.
Example Trim_ex : gostd.Trim1 "/b/k/" "/" = "b/k".
Proof. reflexivity. Qed.
Example Split_ex : gostd.Split "a/b//c" "/" = ["a"; "b"; ""; "c"].
Proof. reflexivity. Qed.


(** *** Records and projections *)

Lemma set_db_id (s : Server) : set_db s (db_ s) = s.
Proof. destruct s; reflexivity. Qed.

Lemma set_storage_id (s : Server) : set_storage s (storage_ s) = s.
Proof. destruct s; reflexivity. Qed.

Lemma filter_all {A : Type} (f : A -> bool) (l : list A) :
  (forall x, In x l -> f x = true) -> filter f l = l.
Proof.
  induction l as [|a l IH]; simpl; intros Hall; [reflexivity|].
  rewrite (Hall a (or_introl eq_refl)). f_equal. apply IH. intros; apply Hall; now right.
Qed.

Lemma existsb_false_forall {A : Type} (f : A -> bool) (l : list A) :
  existsb f l = false -> forall x, In x l -> f x = false.
Proof.
  induction l as [|a l IH]; simpl; intros He x Hx; [contradiction|].
  apply orb_false_iff in He. destruct He as [Ha Hl].
  destruct Hx as [->|Hx]; [exact Ha | now apply IH].
Qed.

(* ================================================================== *)
(** ** C1: head consistency and the expiration of versions by age      *)
(* ================================================================== *)

(** C1 (code_bug).  The claim: after every completed operation the head of
    an Object row names an existing version of its key, also after the
    expire-noncurrent-by-age action.  The code at the failing input: a key
    is written once (the version is its head, and P4 holds); a pass two
    days later with [expire_noncurrent_after_days = 1] selects that version,
    since [ListNoncurrentByAge] has no condition on the head, and
    [deleteVersionsTx] removes it without moving the head: the Object row
    still names the version, the version table is empty, P4 fails. *)
Theorem expire_noncurrent_by_age_deletes_the_head :
  let s1 := scenario.with_rules
              (fst (handlePut scenario.fresh (scenario.put "/b/k" "hello" []) 1000))
              [scenario.rule None (Some 1) None None] in
  props.head_consistent (db_ s1) /\
  map db.Object.HeadVersionID (db.objects (db_ s1)) = ["31"] /\
  map db.ObjectVersion.VersionID (db.object_versions (db_ s1)) = ["31"] /\
  match onePass scenario.worker s1 (1000 + 2 * scenario.day) with
  | Done s2 =>
      map db.Object.HeadVersionID (db.objects (db_ s2)) = ["31"] /\
      db.object_versions (db_ s2) = [] /\
      ~ props.head_consistent (db_ s2)
  | Panics _ => False
  end.
Proof.
  cbv zeta. split; [|split; [|split]].
  - intros o Ho. vm_compute in Ho. destruct Ho as [<-|[]].
    eexists. split; [vm_compute; left; reflexivity|]. vm_compute. auto.
  - vm_compute. reflexivity.
  - vm_compute. reflexivity.
  - match goal with |- match ?o with _ => _ end => 
      let v := eval vm_compute in (match o with Done s2 => Some (db.objects (db_ s2), db.object_versions (db_ s2)) | Panics _ => None end) in
      assert (Hv : match o with Done s2 => Some (db.objects (db_ s2), db.object_versions (db_ s2)) | Panics _ => None end = v) by (vm_compute; reflexivity);
      destruct o as [s2|s2]; [|discriminate Hv]
    end.
    injection Hv as Ho Hv. rewrite Ho, Hv. split; [reflexivity|split; [reflexivity|]].
    intros Hc. unfold props.head_consistent in Hc. rewrite Ho in Hc.
    destruct (Hc _ (or_introl eq_refl)) as [v [Hin _]]. rewrite Hv in Hin. exact Hin.
Qed.

(* ================================================================== *)
(** ** C2: DELETE /{bucket}                                            *)
(* ================================================================== *)

Lemma count_zero_filter {A : Type} (f : A -> bool) (l : list A) :
  (forall x, In x l -> f x = false) ->
  (0 <? Z.of_nat (List.length (filter f l))) = false.
Proof.
  intros Hall. replace (filter f l) with (@nil A); [reflexivity|].
  induction l as [|a l IH]; simpl; [reflexivity|].
  rewrite (Hall a (or_introl eq_refl)). apply IH. intros; apply Hall; now right.
Qed.

(** C2 (code_bug).  The claim: DELETE /{bucket} answers 204 exactly when
    the bucket has no Object row and no version row.  The code: on an
    existing bucket of the caller with no rows the transaction deletes the
    bucket, and the handler then answers 500 [InternalError]: only
    [ErrBucketNotEmpty] is tested after the transaction, and the 204 stands
    below an unconditional [return]. *)
Theorem delete_bucket_of_empty_bucket_answers_500 :
  forall (s : Server) (r : Request) (bucket : string) (id : Z),
    bucket <> "" ->
    db.BucketIDByName (db_ s) bucket (UserID r) = inl id ->
    (forall o, In o (db.objects (db_ s)) -> db.Object.BucketID o <> id) ->
    (forall v, In v (db.object_versions (db_ s)) -> db.ObjectVersion.BucketID v <> id) ->
    Status (snd (handleDeleteBucket s r bucket)) = 500 /\
    Code (snd (handleDeleteBucket s r bucket)) = "InternalError" /\
    db.buckets (db_ (fst (handleDeleteBucket s r bucket))) =
      filter (fun b => negb (db.Bucket.ID b =? id)) (db.buckets (db_ s)).
Proof.
  intros s r bucket id Hne Hid Hobj Hver.
  unfold handleDeleteBucket.
  destruct (String.eqb_spec bucket ""); [contradiction|].
  rewrite Hid. unfold db.DeleteBucketIfEmpty.
  rewrite count_zero_filter
    by (intros o Ho; apply Z.eqb_neq; now apply Hobj).
  rewrite count_zero_filter
    by (intros v Hv; apply Z.eqb_neq; now apply Hver).
  simpl. auto.
Qed.

Lemma delete_bucket_of_empty_bucket_answers_500_witness :
  Status (snd (handleDeleteBucket scenario.one_bucket (scenario.delete "/b" []) "b")) = 500 /\
  Code (snd (handleDeleteBucket scenario.one_bucket (scenario.delete "/b" []) "b"))
    = "InternalError" /\
  db.buckets (db_ (fst (handleDeleteBucket scenario.one_bucket (scenario.delete "/b" []) "b")))
    = filter (fun b => negb (db.Bucket.ID b =? 1)) (db.buckets (db_ scenario.one_bucket)).
Proof.
  apply (delete_bucket_of_empty_bucket_answers_500
           scenario.one_bucket (scenario.delete "/b" []) "b" 1).
  - discriminate.
  - reflexivity.
  - intros o [].
  - intros v [].
Defined.

(** The handler has no path to a 204. *)
Lemma delete_bucket_never_answers_204 :
  forall (s : Server) (r : Request) (bucket : string),
    Status (snd (handleDeleteBucket s r bucket)) <> 204.
Proof.
  intros s r bucket. unfold handleDeleteBucket.
  destruct (String.eqb bucket ""); [simpl; discriminate|].
  destruct (db.BucketIDByName (db_ s) bucket (UserID r)) as [id|[]]; try (simpl; discriminate).
  destruct (db.DeleteBucketIfEmpty (db_ s) id) as [d|[]]; simpl; discriminate.
Qed.

(* ================================================================== *)
(** ** C3: the cut-off of the expire-current action                    *)
(* ================================================================== *)

(** C3 (code_bug).  The claim: a rule with [expire_current_after_days = C]
    selects the heads older than [now - C days].  The code takes the
    cut-off from [purge_delete_markers_after_days].  A key written at 1000
    and a pass two days later: with C = 1 and the purge threshold 30 the
    head is two days old and stays (no delete-marker, same head); with
    C = 30 and the purge threshold 1 it is expired, 28 days early. *)
Theorem expire_current_cut_is_the_purge_threshold :
  let s1 := fst (handlePut scenario.fresh (scenario.put "/b/k" "hello" []) 1000) in
  let pass (c p : Z) :=
    onePass scenario.worker
      (scenario.with_rules s1 [scenario.rule (Some c) None None (Some p)])
      (1000 + 2 * scenario.day) in
  match pass 1 30 with
  | Done s2 => db.object_versions (db_ s2) = db.object_versions (db_ s1) /\
               db.objects (db_ s2) = db.objects (db_ s1)
  | Panics _ => False
  end /\
  match pass 30 1 with
  | Done s2 => map db.ObjectVersion.IsDelete (db.object_versions (db_ s2)) = [false; true] /\
               map db.Object.HeadVersionID (db.objects (db_ s2))
                 = map db.ObjectVersion.VersionID (skipn 1 (db.object_versions (db_ s2)))
  | Panics _ => False
  end.
Proof. vm_compute. repeat split. Qed.

(** The value of the rule's own threshold is never read: two rules that
    differ in it only, both non-negative, run the same pass. *)
Lemma expire_current_threshold_is_not_read :
  forall (lw : LifecycleWorker) (s : Server) (now id bucketID : Z) (prefix : string)
         (c c' p : Z) (n k : option Z) (cr up : Z),
    0 <= c -> 0 <= c' ->
    onePass_rule lw s
      (db.LifecycleRule.mk id bucketID prefix true (Some c) n k (Some p) cr up) now =
    onePass_rule lw s
      (db.LifecycleRule.mk id bucketID prefix true (Some c') n k (Some p) cr up) now.
Proof.
  intros lw s now id bucketID prefix c c' p n k cr up Hc Hc'.
  unfold onePass_rule; simpl.
  apply Z.leb_le in Hc. apply Z.leb_le in Hc'. rewrite Hc, Hc'. reflexivity.
Qed.

(* ================================================================== *)
(** ** C9: the nil threshold                                           *)
(* ================================================================== *)

Lemma onePass_rules_panics_on :
  forall (lw : LifecycleWorker) (now : Z) (rules : list db.LifecycleRule.t) (s : Server),
    (exists rule, In rule rules /\
       forall s0, exists s1, onePass_rule lw s0 rule now = Panics s1) ->
    exists s', onePass_rules lw s rules now = Panics s'.
Proof.
  intros lw now rules. induction rules as [|r rules IH]; intros s [rule [Hin Hp]].
  - contradiction.
  - simpl. destruct Hin as [->|Hin].
    + destruct (Hp s) as [s1 Hs1]. rewrite Hs1. now exists s1.
    + destruct (onePass_rule lw s r now) as [s1|s1].
      * apply IH. now exists rule.
      * now exists s1.
Qed.

Lemma onePass_rule_panics :
  forall (lw : LifecycleWorker) (s : Server) (rule : db.LifecycleRule.t) (now c : Z),
    db.LifecycleRule.ExpireCurrentAfterDays rule = Some c -> 0 <= c ->
    db.LifecycleRule.PurgeDeleteMarkersAfterDays rule = None ->
    exists s', onePass_rule lw s rule now = Panics s'.
Proof.
  intros lw s rule now c Hc Hpos Hp. unfold onePass_rule.
  rewrite Hc, Hp. apply Z.leb_le in Hpos. rewrite Hpos. eexists; reflexivity.
Qed.

(** C9, as stated, fails: a rule whose [expire_current_after_days] is set to
    a negative number and whose purge threshold is nil passes the guard
    [*rule.ExpireCurrentAfterDays >= 0] on the false side; nothing is
    dereferenced and the pass ends without a panic. *)
Lemma negative_expire_current_does_not_panic :
  match onePass scenario.worker
          (scenario.with_rules
             (fst (handlePut scenario.fresh (scenario.put "/b/k" "hello" []) 1000))
             [scenario.rule (Some (-1)) None None None])
          (1000 + 2 * scenario.day) with
  | Done s2 => map db.ObjectVersion.IsDelete (db.object_versions (db_ s2)) = [false]
  | Panics _ => False
  end.
Proof. vm_compute. reflexivity. Qed.

(** C9 (corrected).  For every enabled rule of the database whose
    [expire_current_after_days] is set to a non-negative number and whose
    [purge_delete_markers_after_days] is nil, the pass panics on the nil
    dereference: the whole pass does, and so does the rule's own step from
    whatever state it is entered in (the expire-current action gets through
    only when the purge threshold is set too). *)
Theorem expire_current_with_nil_purge_threshold_panics :
  forall (lw : LifecycleWorker) (s : Server) (rule : db.LifecycleRule.t) (now c : Z),
    In rule (db.lifecycle_rules (db_ s)) ->
    db.LifecycleRule.Enabled rule = true ->
    db.LifecycleRule.ExpireCurrentAfterDays rule = Some c -> 0 <= c ->
    db.LifecycleRule.PurgeDeleteMarkersAfterDays rule = None ->
    (exists s', onePass lw s now = Panics s') /\
    (forall s0, exists s', onePass_rule lw s0 rule now = Panics s').
Proof.
  intros lw s rule now c Hin Hen Hc Hpos Hp. split.
  - unfold onePass. apply onePass_rules_panics_on.
    exists rule. split.
    + unfold db.ListEnabledLifecycleRules. apply filter_In. now split.
    + intros s0. now apply onePass_rule_panics with (c := c).
  - intros s0. now apply onePass_rule_panics with (c := c).
Qed.

Lemma expire_current_with_nil_purge_threshold_panics_witness :
  let rule := scenario.rule (Some 0) None None None in
  let s := scenario.with_rules scenario.one_bucket [rule] in
  (exists s', onePass scenario.worker s 1000 = Panics s') /\
  (forall s0, exists s', onePass_rule scenario.worker s0 rule 1000 = Panics s').
Proof.
  apply (expire_current_with_nil_purge_threshold_panics scenario.worker
           (scenario.with_rules scenario.one_bucket [scenario.rule (Some 0) None None None])
           (scenario.rule (Some 0) None None None) 1000 0).
  - left. reflexivity.
  - reflexivity.
  - reflexivity.
  - lia.
  - reflexivity.
Defined.

(* ================================================================== *)
(** ** C8: a delete-marker that is the head is not purged              *)
(* ================================================================== *)

Lemma find_existsb {A : Type} (f : A -> bool) (l : list A) (x : A) :
  find f l = Some x -> existsb f l = true.
Proof.
  intros H. apply find_some in H. apply existsb_exists. now exists x.
Qed.

Lemma with_versions_id (d : db.DB) : db.with_versions d (db.object_versions d) = d.
Proof. destruct d; reflexivity. Qed.

Lemma ver_is_refl (v : db.ObjectVersion.t) :
  db.ver_is (db.ObjectVersion.VersionID v) v = true.
Proof. unfold db.ver_is. apply String.eqb_refl. Qed.

(** C8.  A purge candidate whose version id is the head of its key, as the
    Object row reads inside the transaction, is left alone: the transaction
    changes neither the database nor the files; and when the candidate is a
    row of the version table the step is the skip itself ([changed] is not
    incremented). *)
Theorem purge_skips_the_head :
  forall (s : Server) (dm : db.ObjectVersion.t) (now : Z) (o : db.Object.t),
    find (db.obj_is (db.ObjectVersion.BucketID dm) (db.ObjectVersion.Key dm))
         (db.objects (db_ s)) = Some o ->
    db.Object.HeadVersionID o = db.ObjectVersion.VersionID dm ->
    db_ (fst (purgeDeleteMarkersTx_one s dm now)) = db_ s /\
    storage_ (fst (purgeDeleteMarkersTx_one s dm now)) = storage_ s /\
    (In dm (db.object_versions (db_ s)) -> purgeDeleteMarkersTx_one s dm now = (s, false)).
Proof.
  intros s dm now o Hfind Hhead.
  unfold purgeDeleteMarkersTx_one, db.LockObjectForUpdate.
  rewrite (find_existsb _ _ _ Hfind).
  unfold db.GetHeadVersionTx. rewrite Hfind, Hhead. unfold db.GetVersionTx.
  destruct (find (db.ver_is (db.ObjectVersion.VersionID dm)) (db.object_versions (db_ s)))
    as [v|] eqn:Hv.
  - apply find_some in Hv. destruct Hv as [_ Hv]. unfold db.ver_is in Hv.
    rewrite Hv. rewrite set_db_id. auto.
  - assert (Hnone : forall v, In v (db.object_versions (db_ s)) ->
                      db.ver_is (db.ObjectVersion.VersionID dm) v = false)
      by (intros v Hin; exact (find_none _ _ Hv v Hin)).
    split; [|split].
    + unfold db.DeleteVersionTx.
      destruct (String.eqb (db.ObjectVersion.VersionID dm) ""); [reflexivity|].
      simpl. rewrite filter_all; [apply with_versions_id|].
      intros v Hin. now rewrite (Hnone v Hin).
    + destruct (db.DeleteVersionTx (db_ s) (db.ObjectVersion.VersionID dm)); reflexivity.
    + intros Hin. specialize (Hnone dm Hin). rewrite ver_is_refl in Hnone. discriminate.
Qed.

Lemma purge_skips_the_head_witness :
  let s := fst (handleDelete
                  (fst (handlePut scenario.fresh (scenario.put "/b/k" "hello" []) 1000))
                  (scenario.delete "/b/k" []) 2000) in
  let dm := db.ObjectVersion.mk "32" 1 "k" None None None None true 2000 in
  In dm (db.object_versions (db_ s)) /\
  db_ (fst (purgeDeleteMarkersTx_one s dm 3000)) = db_ s /\
  storage_ (fst (purgeDeleteMarkersTx_one s dm 3000)) = storage_ s /\
  purgeDeleteMarkersTx_one s dm 3000 = (s, false).
Proof.
  cbv zeta.
  assert (Hin : In (db.ObjectVersion.mk "32" 1 "k" None None None None true 2000)
                   (db.object_versions (db_ (fst (handleDelete
                      (fst (handlePut scenario.fresh (scenario.put "/b/k" "hello" []) 1000))
                      (scenario.delete "/b/k" []) 2000)))))
    by (vm_compute; auto).
  split; [exact Hin|].
  destruct (purge_skips_the_head
           (fst (handleDelete
                   (fst (handlePut scenario.fresh (scenario.put "/b/k" "hello" []) 1000))
                   (scenario.delete "/b/k" []) 2000))
           (db.ObjectVersion.mk "32" 1 "k" None None None None true 2000) 3000
           (db.Object.mk 1 1 "k" "30" 5
              (gostd.dquote ++ "sha256:2cf24dba5fb0a30e26e83b2ac5b9e29e1b161e5c1fa7425e73043362938b9824" ++ gostd.dquote)
              "application/octet-stream" "32" 1000)) as [A [B C]].
  - vm_compute. reflexivity.
  - reflexivity.
  - split; [exact A|split; [exact B|exact (C Hin)]].
Defined.

(* ================================================================== *)
(** ** C4: SigV4 and the signature mismatch                            *)
(* ================================================================== *)

Example VerifySigV4_accepts_the_right_signature :
  auth.VerifySigV4
    (scenario.signed "04b2c7c916309ea3a5328f66ff0c39de351b5a851b532c19a92345d924bd929b")
    (mkCredProvider (db_ scenario.with_user)) (auth.mkVerifyOptions (15 * auth.Minute) true "s3")
    1793361600
  = (Some (auth.mkResult "AKIA" ["host"; "x-amz-date"] (auth.mkTime 1793361600 0)
                         "us-east-1" "20261030"), None).
Proof. vm_compute. reflexivity. Qed.

(** C4 (code_bug).  The claim: a signature mismatch yields the non-nil
    error [ErrSignatureMismatch] and a 403.  The code at the failing input,
    a well-formed request of a known user whose signature is wrong: the
    comparison fails and the function returns [nil, err] with [err] the nil
    left by the successful [LookupSecret]; [AuthMiddleware] takes the nil
    error for success and dereferences the nil result; the panic ends as
    the 500 of [WithRecover].  (A failing [LookupSecret] does yield a
    non-nil error and a 403, with the provider's error.) *)
Theorem signature_mismatch_returns_nil_nil :
  let r := scenario.signed
             "0000000000000000000000000000000000000000000000000000000000000000" in
  auth.VerifySigV4 r (mkCredProvider (db_ scenario.with_user))
                   (auth.mkVerifyOptions 900 true "s3") 1793361600 = (None, None) /\
  AuthMiddleware false scenario.with_user r 1793361600
                 (fun _ => Done (WriteHeader [] 200)) = Panics (WriteHeader [] 0) /\
  Status (WithRecover (AuthMiddleware false scenario.with_user r 1793361600
                                      (fun _ => Done (WriteHeader [] 200)))) = 500 /\
  Status (WithRecover (AuthMiddleware false scenario.fresh r 1793361600
                                      (fun _ => Done (WriteHeader [] 200)))) = 403.
Proof. vm_compute. repeat split. Qed.

(** No path of [VerifySigV4] returns [ErrSignatureMismatch]. *)
Lemma VerifySigV4_never_returns_ErrSignatureMismatch :
  forall `{Crypto} (C : Type) `{auth.CredentialsProvider C}
         (r : auth.Request) (cred : C) (opts : auth.VerifyOptions) (now : Z),
    snd (auth.VerifySigV4 r cred opts now) <> Some auth.ErrSignatureMismatch.
Proof.
  intros. unfold auth.VerifySigV4.
  repeat match goal with
         | |- context [if ?b then _ else _] => destruct b
         | |- context [match ?x with _ => _ end] => destruct x
         end; simpl; discriminate.
Qed.

(* ================================================================== *)
(** ** C7: byte ranges                                                 *)
(* ================================================================== *)

Lemma substring_all (s : string) : String.substring 0 (String.length s) s = s.
Proof. induction s as [|c s IH]; simpl; [reflexivity|now rewrite IH]. Qed.

Lemma substring_0_ge (s : string) (m : nat) :
  (String.length s <= m)%nat -> String.substring 0 m s = s.
Proof.
  revert m. induction s as [|c s IH]; intros m Hm; destruct m; simpl in *;
    try reflexivity; try lia.
  rewrite IH by lia. reflexivity.
Qed.

Lemma substring_0_app (a z : string) :
  String.substring 0 (String.length a) (a ++ z) = a.
Proof. induction a as [|c a IH]; simpl; [now destruct z|now rewrite IH]. Qed.

Lemma substring_skip_app (a z : string) (m : nat) :
  String.substring (String.length a) m (a ++ z) = String.substring 0 m z.
Proof. induction a as [|c a IH]; simpl; [reflexivity|exact IH]. Qed.

Lemma length_app (a z : string) :
  String.length (a ++ z) = (String.length a + String.length z)%nat.
Proof. induction a as [|c a IH]; simpl; [reflexivity|now rewrite IH]. Qed.

Lemma substring_substring (s : string) (n m : nat) :
  String.substring 0 m (String.substring n (String.length s - n) s) = String.substring n m s.
Proof.
  revert n m. induction s as [|c s IH]; intros n m.
  - destruct n, m; reflexivity.
  - destruct n as [|n].
    + simpl String.length. rewrite Nat.sub_0_r.
      change (String.substring 0 (S (String.length s)) (String c s))
        with (String c (String.substring 0 (String.length s) s)).
      rewrite substring_all. reflexivity.
    + simpl. apply IH.
Qed.

Lemma IndexByte_app (a z : string) (c : ascii) :
  gostd.IndexByte a c = None ->
  gostd.IndexByte (a ++ String c z) c = Some (String.length a).
Proof.
  induction a as [|d a IH]; simpl; intros H.
  - now rewrite Ascii.eqb_refl.
  - destruct (Ascii.eqb d c); [discriminate|].
    destruct (gostd.IndexByte a c); [discriminate|]. now rewrite IH.
Qed.

Lemma slice_to_app (a z : string) : gostd.slice_to (a ++ z) (String.length a) = a.
Proof. apply substring_0_app. Qed.

Lemma slice_from_app (a z : string) (c : ascii) :
  gostd.slice_from (a ++ String c z) (S (String.length a)) = z.
Proof.
  unfold gostd.slice_from. rewrite length_app. simpl String.length.
  replace (String.length a + S (String.length z) - S (String.length a))%nat
    with (String.length z) by lia.
  change (S (String.length a)) with (String.length (a ++ String c "")) at 1 ||
    idtac.
  replace (a ++ String c z) with ((a ++ String c "") ++ z).
  - replace (S (String.length a)) with (String.length (a ++ String c ""))
      by (rewrite length_app; simpl; lia).
    rewrite substring_skip_app. apply substring_all.
  - clear. induction a as [|d a IH]; simpl; [reflexivity|now rewrite IH].
Qed.

Lemma TrimPrefix_bytes (spec : string) :
  gostd.HasPrefix ("bytes=" ++ spec) "bytes=" = true /\
  gostd.TrimPrefix ("bytes=" ++ spec) "bytes=" = spec.
Proof.
  unfold gostd.HasPrefix, gostd.TrimPrefix.
  assert (Hp : String.prefix "bytes=" ("bytes=" ++ spec) = true)
    by (simpl; now destruct spec).
  rewrite Hp. split; [reflexivity|].
  simpl. rewrite Nat.sub_0_r. apply substring_all.
Qed.

(** [ParseInt] without an error returns an [int64]. *)
Lemma digit_val_range (c : ascii) (d : Z) : gostd.digit_val c = Some d -> 0 <= d <= 9.
Proof.
  unfold gostd.digit_val.
  destruct (andb (N.leb 48 (N_of_ascii c)) (N.leb (N_of_ascii c) 57)) eqn:Hd; [|discriminate].
  apply andb_true_iff in Hd. destruct Hd as [H48 H57].
  apply N.leb_le in H48. apply N.leb_le in H57.
  intros H; inversion H; subst. lia.
Qed.

Lemma parse_digits_nonneg (s : string) :
  forall acc over n b, 0 <= acc -> gostd.parse_digits s acc over = Some (n, b) -> 0 <= n.
Proof.
  induction s as [|c s IH]; intros acc over n b Hacc H.
  - simpl in H. inversion H; subst. assumption.
  - cbn [gostd.parse_digits] in H.
    destruct (gostd.digit_val c) as [d|] eqn:Hd; [|discriminate].
    apply digit_val_range in Hd.
    match type of H with context [if ?b then _ else _] => destruct b end.
    + inversion H; subst. lia.
    + eapply IH; [|exact H]. lia.
Qed.

Lemma ParseInt_int64 (s : string) (x : Z) :
  gostd.ParseInt s = (x, None) -> - 2 ^ 63 <= x < 2 ^ 63.
Proof.
  unfold gostd.ParseInt. destruct s as [|c s]; [discriminate|].
  set (neg := Ascii.eqb c "-").
  set (body := if orb (Ascii.eqb c "+") neg then s else String c s).
  unfold gostd.ParseUint.
  assert (Hnn : forall n b, gostd.parse_digits body 0 false = Some (n, b) -> 0 <= n)
    by (intros n b; apply parse_digits_nonneg; lia).
  destruct body as [|d body'] eqn:Hbody; [simpl; discriminate|].
  destruct (gostd.parse_digits (String d body') 0 false) as [[n over]|]; [|simpl; discriminate].
  specialize (Hnn n over eq_refl).
  destruct over.
  - destruct neg; simpl; intros H; discriminate H.
  - destruct neg; cbv beta iota zeta; cbn [andb negb].
    + destruct (2 ^ 63 <? n) eqn:Hlt; [intros H; discriminate H|].
      intros H; inversion H; subst. apply Z.ltb_ge in Hlt. lia.
    + destruct (2 ^ 63 <=? n) eqn:Hle; [intros H; discriminate H|].
      intros H; inversion H; subst. apply Z.leb_gt in Hle. lia.
Qed.

Lemma wrap64_id (z : Z) : - 2 ^ 63 <= z < 2 ^ 63 -> gostd.wrap64 z = z.
Proof.
  intros H. unfold gostd.wrap64.
  rewrite Z.mod_small by lia. lia.
Qed.
Lemma eqb_false_of_ne (a : string) : a <> "" -> String.eqb a "" = false.
Proof. intros H. now apply String.eqb_neq. Qed.

Lemma range_FromTo (sa sb : string) (a b total : Z) :
  gostd.IndexByte sa "-" = None -> sa <> "" -> sb <> "" ->
  gostd.ParseInt sa = (a, None) -> gostd.ParseInt sb = (b, None) ->
  handleGet_range ("bytes=" ++ sa ++ "-" ++ sb) total =
    if orb (orb (a <? 0) (b <? a)) (total <=? a) then RangeNotSatisfiable
    else RangeOk a (gostd.wrap64 (b - a + 1)) 206 (Some (content_range a b total)).
Proof.
  intros Hd Ha Hb Hpa Hpb. unfold handleGet_range.
  destruct (TrimPrefix_bytes (sa ++ "-" ++ sb)) as [Hp Ht]. rewrite Hp, Ht.
  change (sa ++ "-" ++ sb) with (sa ++ String "-" sb).
  rewrite (IndexByte_app sa sb "-" Hd), slice_to_app, slice_from_app.
  rewrite (eqb_false_of_ne _ Ha), (eqb_false_of_ne _ Hb). cbn [negb andb].
  rewrite Hpa, Hpb. reflexivity.
Qed.

Lemma range_From (sa : string) (a total : Z) :
  gostd.IndexByte sa "-" = None -> sa <> "" ->
  gostd.ParseInt sa = (a, None) ->
  handleGet_range ("bytes=" ++ sa ++ "-") total =
    if orb (a <? 0) (total <=? a) then RangeNotSatisfiable
    else RangeOk a (gostd.wrap64 (total - a)) 206
                 (Some (content_range a (gostd.wrap64 (total - 1)) total)).
Proof.
  intros Hd Ha Hpa. unfold handleGet_range.
  destruct (TrimPrefix_bytes (sa ++ "-")) as [Hp Ht]. rewrite Hp, Ht.
  change (sa ++ "-") with (sa ++ String "-" "").
  rewrite (IndexByte_app sa "" "-" Hd), slice_to_app, slice_from_app.
  rewrite (eqb_false_of_ne _ Ha). cbn [negb andb String.eqb].
  rewrite Hpa. reflexivity.
Qed.

Lemma range_Last (sn : string) (n total : Z) :
  sn <> "" -> gostd.ParseInt sn = (n, None) ->
  handleGet_range ("bytes=-" ++ sn) total =
    if n <=? 0 then RangeNotSatisfiable
    else RangeOk (gostd.wrap64 (total - (if total <? n then total else n)))
                 (if total <? n then total else n) 206
                 (Some (content_range (gostd.wrap64 (total - (if total <? n then total else n)))
                                      (gostd.wrap64 (total - 1)) total)).
Proof.
  intros Hn Hpn. unfold handleGet_range.
  change ("bytes=-" ++ sn) with ("bytes=" ++ String "-" sn).
  destruct (TrimPrefix_bytes (String "-" sn)) as [Hp Ht]. rewrite Hp, Ht.
  change (String "-" sn) with ("" ++ String "-" sn).
  rewrite (IndexByte_app "" sn "-" eq_refl).
  change (String.length "") with O.
  change (gostd.slice_to ("" ++ String "-" sn) 0) with (String.substring 0 0 (String "-" sn)).
  change (String.substring 0 0 (String "-" sn)) with "".
  change 1%nat with (S (String.length "")). rewrite slice_from_app.
  rewrite (eqb_false_of_ne _ Hn). cbn [negb andb String.eqb].
  rewrite Hpn. reflexivity.
Qed.
Lemma handleGet_serves (s : Server) (r : Request) ver blob bytes :
  props.serves s r ver blob bytes ->
  handleGet s r =
    match handleGet_range (lookup (Header r) "Range") (db.Blob.Size blob) with
    | RangeNotSatisfiable => Done (WriteHeader (props.base_headers ver) 416)
    | RangeOk start length status cr =>
        let hdr := match cr with
                   | Some v => hset (props.base_headers ver) "Content-Range" v
                   | None => props.base_headers ver
                   end in
        Done (mkResponse status "" ""
                (hset hdr "Content-Length"
                      (if 0 <=? length then gostd.itoa length
                       else gostd.itoa (db.Blob.Size blob)))
                (let rest := if 0 <? start then gostd.slice_from bytes (Z.to_nat start)
                             else bytes in
                 if 0 <=? length then gostd.slice_to rest (Z.to_nat length) else rest))
    end.
Proof.
  intros (bucket & key & bucketID & blobID & Hp & Hb & Hv & Hd & Hbl & Hg & Hst & Him & Hin).
  unfold handleGet. rewrite Hp, Hb, Hv, Hd, Hbl, Hg, Him, Hin.
  unfold props.base_headers.
  destruct (db.ObjectVersion.ETag ver) as [e|]; cbn [String.eqb negb andb];
    destruct (handleGet_range (lookup (Header r) "Range") (db.Blob.Size blob))
      as [|start length status cr]; try reflexivity;
    unfold storage.ReadAt; rewrite Hst; reflexivity.
Qed.

Lemma lookup_hset_eq (l : list (string * string)) (k v : string) :
  lookup (hset l k v) k = v.
Proof.
  unfold lookup, hset.
  assert (H : find (fun e => String.eqb (fst e) k)
                   (filter (fun e => negb (String.eqb (fst e) k)) l ++ [(k, v)])
              = Some (k, v)).
  { induction l as [|[k' v'] l IH]; simpl.
    - now rewrite String.eqb_refl.
    - destruct (String.eqb k' k) eqn:E; simpl; [exact IH|]. rewrite E. exact IH. }
  now rewrite H.
Qed.

Lemma lookup_hset_ne (l : list (string * string)) (k k' v : string) :
  k <> k' -> lookup (hset l k v) k' = lookup l k'.
Proof.
  intros Hne. unfold lookup, hset.
  assert (Hk : String.eqb k k' = false) by now apply String.eqb_neq.
  induction l as [|[k0 v0] l IH]; simpl.
  - now rewrite Hk.
  - destruct (String.eqb k0 k) eqn:E; simpl.
    + apply String.eqb_eq in E. subst k0. rewrite Hk. exact IH.
    + destruct (String.eqb k0 k'); [reflexivity|exact IH].
Qed.

Lemma ReadAt_bytes (bytes : string) (start length : Z) :
  0 <= start -> 0 <= length ->
  (let rest := if 0 <? start then gostd.slice_from bytes (Z.to_nat start) else bytes in
   if 0 <=? length then gostd.slice_to rest (Z.to_nat length) else rest)
  = props.bytes_range bytes start length.
Proof.
  intros Hs Hl. cbv zeta. unfold props.bytes_range.
  apply Z.leb_le in Hl. rewrite Hl.
  destruct (0 <? start) eqn:E.
  - unfold gostd.slice_to, gostd.slice_from. apply substring_substring.
  - apply Z.ltb_ge in E. replace start with 0 by lia. reflexivity.
Qed.
Lemma Content_Range_set (hdr : list (string * string)) (v cl : string) :
  lookup (hset (hset hdr "Content-Range" v) "Content-Length" cl) "Content-Range" = v.
Proof. rewrite lookup_hset_ne by discriminate. apply lookup_hset_eq. Qed.

Lemma len_nonneg (s : string) : 0 <= gostd.len s.
Proof. unfold gostd.len. lia. Qed.

Lemma read_to_end (bytes : string) (a len : Z) :
  0 <= a -> gostd.len bytes < 2 ^ 63 -> 0 <= len <= 2 ^ 63 -> (a = 0 \/ len < 2 ^ 63) ->
  (let rest := if 0 <? a then gostd.slice_from bytes (Z.to_nat a) else bytes in
   if 0 <=? gostd.wrap64 len then gostd.slice_to rest (Z.to_nat (gostd.wrap64 len)) else rest)
  = props.bytes_range bytes a len.
Proof.
  intros Ha Hb Hl Hor.
  destruct (Z.eq_dec len (2 ^ 63)) as [E|E].
  - destruct Hor as [->|Hlt]; [|lia]. subst len.
    change (gostd.wrap64 (2 ^ 63)) with (- 2 ^ 63).
    cbv zeta. change (0 <? 0) with false. change (0 <=? - 2 ^ 63) with false. cbv iota.
    unfold props.bytes_range. change (Z.to_nat 0) with O.
    symmetry. apply substring_0_ge.
    unfold gostd.len in Hb. remember (2 ^ 63) as M eqn:HM.
    assert (0 <= M) by (subst M; apply Z.pow_nonneg; lia). lia.
  - rewrite wrap64_id by lia. apply ReadAt_bytes; lia.
Qed.

(** The Range block on fields that are numbers.  For a GET that resolves to
    a version whose blob record gives the size S of its file (S below
    2^63), with no If-Match and no If-None-Match header, and whose Range
    header is [bytes=a-b], [bytes=a-] or [bytes=-n] with fields that
    [strconv.ParseInt] reads without an error: the answer is 416 when
    [a < 0], [b < a] or [a >= S] (first two forms) or [n <= 0] (third);
    otherwise it is 206, with the Content-Range header [bytes start-last/S]
    and a body that is the bytes [start, start+length) of the object, cut
    at its end, where (start, length, last) is (a, b-a+1, b), (a, S-a, S-1)
    or (S-min(n,S), min(n,S), S-1). *)
Theorem get_serves_the_byte_range :
  forall (s : Server) (r : Request) (ver : db.ObjectVersion.t) (blob : db.Blob.t)
         (bytes : string) (f : props.byte_range),
    props.serves s r ver blob bytes ->
    db.Blob.Size blob = gostd.len bytes ->
    gostd.len bytes < 2 ^ 63 ->
    props.spells (lookup (Header r) "Range") f ->
    exists resp,
      handleGet s r = Done resp /\
      match props.selects (gostd.len bytes) f with
      | None => Status resp = 416
      | Some (start, length, last) =>
          Status resp = 206 /\
          lookup (Hdr resp) "Content-Range" = content_range start last (gostd.len bytes) /\
          Out resp = props.bytes_range bytes start length
      end.
Proof.
  intros s r ver blob bytes f Hserves Hsize Hlen Hspell.
  rewrite (handleGet_serves s r ver blob bytes Hserves). rewrite Hsize.
  pose proof (len_nonneg bytes) as Hnn.
  destruct f as [a b|a|n]; simpl in Hspell; unfold props.selects.
  - destruct Hspell as (sa & sb & Hh & Hd & Ha & Hb & Hpa & Hpb).
    rewrite Hh, (range_FromTo sa sb a b _ Hd Ha Hb Hpa Hpb).
    pose proof (ParseInt_int64 _ _ Hpb) as Hrb.
    destruct (orb (orb (a <? 0) (b <? a)) (gostd.len bytes <=? a)) eqn:E.
    + eexists; split; [reflexivity|reflexivity].
    + apply orb_false_iff in E. destruct E as [E E3].
      apply orb_false_iff in E. destruct E as [E1 E2].
      apply Z.ltb_ge in E1, E2. apply Z.leb_gt in E3.
      eexists; split; [reflexivity|]. cbn [Status Hdr Out].
      split; [reflexivity|]. split; [apply Content_Range_set|].
      apply read_to_end; lia.
  - destruct Hspell as (sa & Hh & Hd & Ha & Hpa).
    rewrite Hh, (range_From sa a _ Hd Ha Hpa).
    destruct (orb (a <? 0) (gostd.len bytes <=? a)) eqn:E.
    + eexists; split; [reflexivity|reflexivity].
    + apply orb_false_iff in E. destruct E as [E1 E3].
      apply Z.ltb_ge in E1. apply Z.leb_gt in E3.
      rewrite (wrap64_id (gostd.len bytes - 1)) by lia.
      eexists; split; [reflexivity|]. cbn [Status Hdr Out].
      split; [reflexivity|]. split; [apply Content_Range_set|].
      apply read_to_end; lia.
  - destruct Hspell as (sn & Hh & Hn & Hpn).
    rewrite Hh, (range_Last sn n _ Hn Hpn).
    destruct (n <=? 0) eqn:E.
    + eexists; split; [reflexivity|reflexivity].
    + apply Z.leb_gt in E.
      assert (Hmin : (if gostd.len bytes <? n then gostd.len bytes else n)
                     = Z.min n (gostd.len bytes)).
      { destruct (gostd.len bytes <? n) eqn:E2;
          [apply Z.ltb_lt in E2|apply Z.ltb_ge in E2]; lia. }
      rewrite Hmin.
      rewrite (wrap64_id (gostd.len bytes - 1)) by lia.
      rewrite (wrap64_id (gostd.len bytes - Z.min n (gostd.len bytes))) by lia.
      eexists; split; [reflexivity|]. cbn [Status Hdr Out].
      split; [reflexivity|]. split; [apply Content_Range_set|].
      apply ReadAt_bytes; lia.
Qed.

(** The three requests of the spec's range scenario, on the 6-byte object. *)
Example range_scenario :
  let s := fst (handlePut scenario.fresh (scenario.put "/b/k" "abcdef" []) 1000) in
  let get (rng : string) := handleGet s (scenario.get "/b/k" [] [("Range", rng)]) in
  match get "bytes=1-3" with
  | Done resp => Status resp = 206 /\ Out resp = "bcd" /\
                 lookup (Hdr resp) "Content-Range" = "bytes 1-3/6"
  | Panics _ => False
  end /\
  match get "bytes=-2" with
  | Done resp => Status resp = 206 /\ Out resp = "ef"
  | Panics _ => False
  end /\
  match get "bytes=10-20" with
  | Done resp => Status resp = 416
  | Panics _ => False
  end.
Proof. vm_compute. repeat split. Qed.

Lemma get_serves_the_byte_range_witness :
  let s := fst (handlePut scenario.fresh (scenario.put "/b/k" "abcdef" []) 1000) in
  let r := scenario.get "/b/k" [] [("Range", "bytes=1-3")] in
  exists resp,
    handleGet s r = Done resp /\
    match props.selects (gostd.len "abcdef") (props.FromTo 1 3) with
    | None => Status resp = 416
    | Some (start, length, last) =>
        Status resp = 206 /\
        lookup (Hdr resp) "Content-Range" = content_range start last (gostd.len "abcdef") /\
        Out resp = props.bytes_range "abcdef" start length
    end.
Proof.
  cbv zeta.
  apply (get_serves_the_byte_range
           (fst (handlePut scenario.fresh (scenario.put "/b/k" "abcdef" []) 1000))
           (scenario.get "/b/k" [] [("Range", "bytes=1-3")])
           (db.ObjectVersion.mk "31" 1 "k" (Some "30") (Some 6)
              (Some (gostd.dquote ++ "sha256:bef57ec7f53a6d40beb640a780a639c83bc29ac8a9816f1fc6c5c6dcd93c4721" ++ gostd.dquote))
              (Some "application/octet-stream") false 1000)
           (db.Blob.mk "30" "local" "" 6
              "sha256:bef57ec7f53a6d40beb640a780a639c83bc29ac8a9816f1fc6c5c6dcd93c4721"
              "ready" 1000)
           "abcdef" (props.FromTo 1 3)).
  - exists "b", "k", 1, "30". vm_compute. repeat split.
  - reflexivity.
  - reflexivity.
  - exists "1", "3". vm_compute. repeat split; discriminate.
Defined.
(** C7 (code_bug).  The claim: an empty, invalid or out-of-range range is
    rejected with 416, and every other one is answered 206 with a body of
    exactly the bytes [start, start+length).  The code on the 6-byte object
    "abcdef", at three ranges it should reject or cut:
    - [bytes=x-y], no numbers: the errors of [ParseInt] are dropped and both
      fields read as 0, so the request is served as [bytes=0-0], 206 and
      the first byte;
    - [bytes=1-100], an end past the object: the end is not cut to the size
      (the form [bytes=-n] does cut [n]), so the answer is 206 with
      Content-Range [bytes 1-100/6] and Content-Length 100 over a body of
      the five bytes that exist;
    - [bytes=-], no field at all: no case of the switch takes it, and the
      whole object is served with 200. *)
Theorem bad_ranges_are_served :
  let s := fst (handlePut scenario.fresh (scenario.put "/b/k" "abcdef" []) 1000) in
  let get (rng : string) := handleGet s (scenario.get "/b/k" [] [("Range", rng)]) in
  match get "bytes=x-y" with
  | Done resp => Status resp = 206 /\ Out resp = "a" /\
                 lookup (Hdr resp) "Content-Range" = "bytes 0-0/6"
  | Panics _ => False
  end /\
  match get "bytes=1-100" with
  | Done resp => Status resp = 206 /\ Out resp = "bcdef" /\
                 lookup (Hdr resp) "Content-Range" = "bytes 1-100/6" /\
                 lookup (Hdr resp) "Content-Length" = "100"
  | Panics _ => False
  end /\
  match get "bytes=-" with
  | Done resp => Status resp = 200 /\ Out resp = "abcdef" /\
                 lookup (Hdr resp) "Content-Range" = ""
  | Panics _ => False
  end.
Proof. vm_compute. repeat split. Qed.


Lemma Lock_versions (d d' : db.DB) (bucketID : Z) (key : string) (now : Z) :
  db.LockObjectForUpdate d bucketID key now = inl d' ->
  db.object_versions d' = db.object_versions d /\ db.blobs d' = db.blobs d /\
  db.idempotency_keys d' = db.idempotency_keys d /\ db.buckets d' = db.buckets d.
Proof.
  unfold db.LockObjectForUpdate.
  destruct (existsb (db.obj_is bucketID key) (db.objects d)); intros H; inversion H; subst;
    repeat split.
Qed.

Lemma Lock_total (d : db.DB) (bucketID : Z) (key : string) (now : Z) :
  exists d', db.LockObjectForUpdate d bucketID key now = inl d'.
Proof.
  unfold db.LockObjectForUpdate.
  destruct (existsb (db.obj_is bucketID key) (db.objects d)); eexists; reflexivity.
Qed.

Lemma gc_blob_versions (s : Server) (b : option string) :
  db.object_versions (db_ (gc_blob s b)) = db.object_versions (db_ s).
Proof.
  unfold gc_blob. destruct b as [b|]; [|reflexivity].
  destruct (db.BlobRefCountFromVersionsTx (db_ s) b =? 0); [|reflexivity].
  unfold db.DeleteBlobRecordTx. cbn [db_ set_storage].
  destruct (String.eqb b ""); reflexivity.
Qed.

(** The versioned path of the closure of [handleDelete]: it ends with 204,
    and every version row left is an old row with another id or a
    delete-marker of the requested key. *)
Lemma deleteTx_versioned (s : Server) (bucketID : Z) (key vid : string) (now : Z)
    (v : db.ObjectVersion.t) :
  vid <> "" -> db.GetVersionTx (db_ s) vid = inl v ->
  exists s',
    deleteTx_body s bucketID key vid now = (None, s', mkDelResult vid 204) /\
    forall x, In x (db.object_versions (db_ s')) ->
      (In x (db.object_versions (db_ s)) /\ db.ver_is vid x = false) \/
      (db.ObjectVersion.BucketID x = bucketID /\ db.ObjectVersion.Key x = key /\
       db.ObjectVersion.IsDelete x = true).
Proof.
  intros Hne Hget. unfold deleteTx_body.
  destruct (Lock_total (db_ s) bucketID key now) as [d Hd]. rewrite Hd.
  destruct (Lock_versions _ _ _ _ _ Hd) as [Hv _].
  apply String.eqb_neq in Hne. rewrite Hne.
  assert (Hget' : db.GetVersionTx (db_ (set_db s d)) vid = inl v)
    by (unfold db.GetVersionTx in *; cbn [db_ set_db]; now rewrite Hv).
  rewrite Hget'. unfold db.DeleteVersionTx. rewrite Hne. cbv zeta.
  set (d1 := db.with_versions (db_ (set_db s d))
               (filter (fun v0 => negb (db.ver_is vid v0)) (db.object_versions (db_ (set_db s d))))).
  assert (Hd1 : forall x, In x (db.object_versions d1) ->
                  In x (db.object_versions (db_ s)) /\ db.ver_is vid x = false).
  { intros x Hx. unfold d1 in Hx. cbn in Hx. apply filter_In in Hx.
    destruct Hx as [Hin Hb]. rewrite Hv in Hin. split; [exact Hin|].
    now apply negb_true_iff in Hb. }
  clearbody d1.
  eexists. split; [reflexivity|].
  intros x. rewrite gc_blob_versions.
  assert (Hmoved : In x (db.object_versions (db_
            match db.GetPrevVersionTx (db_ (set_db (set_db s d) d1)) bucketID key vid with
            | inl prev =>
                match db.SetHeadVersionTx (db_ (set_db (set_db s d) d1)) bucketID key
                        (db.ObjectVersion.VersionID prev) with
                | inl d0 => set_db (set_db (set_db s d) d1) d0
                | inr _ => set_db (set_db s d) d1
                end
            | inr _ =>
                let '(dm, s0) := GenVersionID (set_db (set_db s d) d1) in
                let s0 := match db.CreateDeleteMarkerTx (db_ s0) bucketID key dm now with
                          | inl d0 => set_db s0 d0
                          | inr _ => s0
                          end in
                match db.SetHeadVersionTx (db_ s0) bucketID key dm with
                | inl d0 => set_db s0 d0
                | inr _ => s0
                end
            end)) ->
      (In x (db.object_versions (db_ s)) /\ db.ver_is vid x = false) \/
      (db.ObjectVersion.BucketID x = bucketID /\ db.ObjectVersion.Key x = key /\
       db.ObjectVersion.IsDelete x = true)).
  { destruct (db.GetPrevVersionTx (db_ (set_db (set_db s d) d1)) bucketID key vid) as [prev|e].
    - cbn. intros Hx. left. now apply Hd1.
    - unfold GenVersionID, genHex. cbv beta iota zeta.
      unfold db.CreateDeleteMarkerTx, db.create_version.
      match goal with |- context [existsb ?f ?l] => destruct (existsb f l) end.
      + cbn. intros Hx. left. now apply Hd1.
      + cbn. intros Hx. apply in_app_or in Hx. destruct Hx as [Hx|[<-|[]]].
        * left. now apply Hd1.
        * right. auto. }
  destruct (db.GetHeadVersionTx (db_ (set_db (set_db s d) d1)) bucketID key) as [h|e].
  - destruct (String.eqb (db.ObjectVersion.VersionID h) vid).
    + exact Hmoved.
    + cbn. intros Hx. left. now apply Hd1.
  - exact Hmoved.
Qed.
(** C10.  With a [versionId] the version is fetched by its id alone.  When
    the id names a version of another bucket or key than the path, GET
    answers 200 with that version's bytes and id, and DELETE answers 204
    and removes that version's row. *)
Theorem versionId_is_not_checked_against_the_path :
  forall (s : Server) (r : Request) (now : Z) (bucket key : string) (bucketID : Z)
         (v : db.ObjectVersion.t) (blob : db.Blob.t) (blobID bytes : string),
    parseBucketKey (Path r) = Some (bucket, key) ->
    db.BucketIDByName (db_ s) bucket (UserID r) = inl bucketID ->
    lookup (Query r) "versionId" <> "" ->
    db.GetVersionTx (db_ s) (lookup (Query r) "versionId") = inl v ->
    (db.ObjectVersion.BucketID v, db.ObjectVersion.Key v) <> (bucketID, key) ->
    db.ObjectVersion.IsDelete v = false ->
    db.ObjectVersion.BlobID v = Some blobID ->
    db.GetBlob (db_ s) blobID = inl blob ->
    storage.Stat (storage_ s) blobID = Some bytes ->
    lookup (Header r) "If-Match" = "" ->
    lookup (Header r) "If-None-Match" = "" ->
    lookup (Header r) "Range" = "" ->
    (exists resp, handleGet s r = Done resp /\ Status resp = 200 /\ Out resp = bytes /\
                  lookup (Hdr resp) "x-amz-version-id" = db.ObjectVersion.VersionID v) /\
    Status (snd (handleDelete s r now)) = 204 /\
    ~ In v (db.object_versions (db_ (fst (handleDelete s r now)))).
Proof.
  intros s r now bucket key bucketID v blob blobID bytes
         Hp Hb Hvid Hget Hother Hdel Hblob Hgb Hst Him Hin Hrange.
  split.
  - assert (Hs : props.serves s r v blob bytes).
    { exists bucket, key, bucketID, blobID.
      apply String.eqb_neq in Hvid. rewrite Hvid. repeat split; assumption. }
    rewrite (handleGet_serves s r v blob bytes Hs), Hrange.
    change (handleGet_range "" (db.Blob.Size blob)) with (RangeOk 0 (-1) 200 None).
    eexists. split; [reflexivity|]. cbn [Status Out Hdr].
    split; [reflexivity|]. split; [reflexivity|].
    rewrite lookup_hset_ne by discriminate.
    unfold props.base_headers. cbv zeta.
    rewrite !lookup_hset_ne by discriminate. apply lookup_hset_eq.
  - unfold handleDelete. rewrite Hp, Hb.
    destruct (deleteTx_versioned s bucketID key _ now v Hvid Hget) as [s' [Htx Hrows]].
    rewrite Htx. cbn [del_status returnVersion]. change (204 =? 404) with false. cbv iota.
    cbn [fst snd Status]. split; [reflexivity|].
    intros Hv. destruct (Hrows v Hv) as [[_ Hne]|[Hb' [Hk' _]]].
    + unfold db.GetVersionTx in Hget.
      destruct (find (db.ver_is (lookup (Query r) "versionId")) (db.object_versions (db_ s)))
        as [v0|] eqn:Hf; [|discriminate].
      inversion Hget; subst v0. apply find_some in Hf. destruct Hf as [_ Hf].
      rewrite Hf in Hne. discriminate.
    + apply Hother. now rewrite Hb', Hk'.
Qed.

Lemma versionId_is_not_checked_against_the_path_witness :
  let s := fst (handlePut
                  (fst (handlePut scenario.fresh (scenario.put "/b/a" "X" []) 1000))
                  (scenario.put "/b/c" "Y" []) 2000) in
  let r := scenario.get "/b/c" [("versionId", "31")] [] in
  let v := db.ObjectVersion.mk "31" 1 "a" (Some "30") (Some 1)
             (Some (gostd.dquote ++ "sha256:4b68ab3847feda7d6c62c1fbcbeebfa35eab7351ed5e78f4ddadea5df64b8015" ++ gostd.dquote))
             (Some "application/octet-stream") false 1000 in
  (exists resp, handleGet s r = Done resp /\ Status resp = 200 /\ Out resp = "X" /\
                lookup (Hdr resp) "x-amz-version-id" = db.ObjectVersion.VersionID v) /\
  Status (snd (handleDelete s r 3000)) = 204 /\
  ~ In v (db.object_versions (db_ (fst (handleDelete s r 3000)))).
Proof.
  cbv zeta.
  apply (versionId_is_not_checked_against_the_path
           (fst (handlePut
                   (fst (handlePut scenario.fresh (scenario.put "/b/a" "X" []) 1000))
                   (scenario.put "/b/c" "Y" []) 2000))
           (scenario.get "/b/c" [("versionId", "31")] []) 3000 "b" "c" 1
           (db.ObjectVersion.mk "31" 1 "a" (Some "30") (Some 1)
              (Some (gostd.dquote ++ "sha256:4b68ab3847feda7d6c62c1fbcbeebfa35eab7351ed5e78f4ddadea5df64b8015" ++ gostd.dquote))
              (Some "application/octet-stream") false 1000)
           (db.Blob.mk "30" "local" "" 1 "sha256:4b68ab3847feda7d6c62c1fbcbeebfa35eab7351ed5e78f4ddadea5df64b8015" "ready" 1000)
           "30" "X").
  - reflexivity.
  - vm_compute. reflexivity.
  - discriminate.
  - vm_compute. reflexivity.
  - intros H. inversion H.
  - reflexivity.
  - reflexivity.
  - vm_compute. reflexivity.
  - vm_compute. reflexivity.
  - reflexivity.
  - reflexivity.
  - reflexivity.
Defined.
Lemma Stat_Delete_eq (st : storage.Storage) (id : string) :
  storage.Stat (storage.Delete st id) id = None.
Proof.
  unfold storage.Stat, storage.Delete.
  assert (H : find (fun e => String.eqb (fst e) id)
                   (filter (fun e => negb (String.eqb (fst e) id)) st) = None).
  { induction st as [|[k v] st IH]; simpl; [reflexivity|].
    destruct (String.eqb k id) eqn:E; simpl; [exact IH|]. now rewrite E. }
  now rewrite H.
Qed.

Lemma Stat_Delete_ne (st : storage.Storage) (id id' : string) :
  id <> id' -> storage.Stat (storage.Delete st id) id' = storage.Stat st id'.
Proof.
  intros Hne. unfold storage.Stat, storage.Delete.
  assert (H : find (fun e => String.eqb (fst e) id')
                   (filter (fun e => negb (String.eqb (fst e) id)) st)
              = find (fun e => String.eqb (fst e) id') st).
  { induction st as [|[k v] st IH]; simpl; [reflexivity|].
    destruct (String.eqb k id) eqn:E; simpl.
    - apply String.eqb_eq in E. subst k.
      apply String.eqb_neq in Hne. now rewrite Hne.
    - destruct (String.eqb k id'); [reflexivity|exact IH]. }
  now rewrite H.
Qed.

Lemma Stat_Put_eq (st : storage.Storage) (id bytes : string) :
  storage.Stat (storage.Put st id bytes) id = Some bytes.
Proof. unfold storage.Stat, storage.Put. simpl. now rewrite String.eqb_refl. Qed.


Lemma find_map_preserved {A : Type} (p : A -> bool) (f : A -> A) (l : list A) :
  (forall x, p (f x) = p x) -> find p (map f l) = option_map f (find p l).
Proof.
  intros Hp. induction l as [|a l IH]; simpl; [reflexivity|].
  rewrite Hp. destruct (p a); [reflexivity|exact IH].
Qed.

Lemma find_app_none {A : Type} (p : A -> bool) (l : list A) (x : A) :
  find p l = None -> find p (l ++ [x]) = if p x then Some x else None.
Proof.
  induction l as [|a l IH]; simpl; [reflexivity|].
  destruct (p a); [discriminate|exact IH].
Qed.

Lemma find_app_some {A : Type} (p : A -> bool) (l l' : list A) (x : A) :
  find p l = Some x -> find p (l ++ l') = Some x.
Proof.
  induction l as [|a l IH]; simpl; [discriminate|].
  destruct (p a); [auto|exact IH].
Qed.

(** [EnsureBucket] always answers, with the id of the name; it touches the
    bucket table only, and the name keeps its id. *)
Lemma EnsureBucket_spec (d : db.DB) (name : string) (ownerID now : Z) :
  exists d',
    db.EnsureBucket d name ownerID now = (d', inl (props.bucket_id d name)) /\
    db.blobs d' = db.blobs d /\ db.objects d' = db.objects d /\
    db.object_versions d' = db.object_versions d /\
    db.idempotency_keys d' = db.idempotency_keys d /\
    db.lifecycle_rules d' = db.lifecycle_rules d /\
    db.seq_objects d' = db.seq_objects d /\
    props.bucket_id d' name = props.bucket_id d name.
Proof.
  unfold db.EnsureBucket, props.bucket_id.
  assert (Hset : forall id o b, String.eqb (db.Bucket.Name (db.set_owner id o b)) name
                                = String.eqb (db.Bucket.Name b) name).
  { intros id o b. unfold db.set_owner. destruct (db.Bucket.ID b =? id); reflexivity. }
  assert (Hid : forall id o b, db.Bucket.ID (db.set_owner id o b) = db.Bucket.ID b).
  { intros id o b. unfold db.set_owner. destruct (db.Bucket.ID b =? id); reflexivity. }
  destruct (find (fun b => String.eqb (db.Bucket.Name b) name) (db.buckets d)) as [b|] eqn:Hf.
  - destruct (andb (db.Bucket.OwnerID b =? 0) (negb (ownerID =? 0))).
    + eexists. split; [reflexivity|]. cbn.
      rewrite (find_map_preserved _ _ _ (Hset (db.Bucket.ID b) ownerID)), Hf. cbn.
      rewrite Hid. repeat split.
    + eexists. split; [reflexivity|]. rewrite Hf. repeat split.
  - cbn [db.Bucket.OwnerID db.Bucket.ID].
    destruct (andb (0 =? 0) (negb (ownerID =? 0))).
    + eexists. split; [reflexivity|]. cbn.
      rewrite (find_map_preserved _ _ _ (Hset (db.seq_buckets d + 1) ownerID)).
      rewrite (find_app_none _ _ _ Hf). cbn. rewrite String.eqb_refl. cbn.
      rewrite Hid. repeat split.
    + eexists. split; [reflexivity|]. cbn.
      rewrite (find_app_none _ _ _ Hf). cbn. rewrite String.eqb_refl. repeat split.
Qed.
Lemma sort_by_nil {A : Type} (le : A -> A -> bool) (l : list A) :
  gostd.sort_by le l = [] -> l = [].
Proof.
  destruct l as [|a l]; [reflexivity|]. unfold gostd.sort_by. simpl.
  destruct (fold_right (gostd.insert_sorted le) [] l) as [|b l']; simpl; [discriminate|].
  destruct (le a b); discriminate.
Qed.

Lemma insert_sorted_In {A : Type} (le : A -> A -> bool) (x y : A) (l : list A) :
  In x (gostd.insert_sorted le y l) <-> x = y \/ In x l.
Proof.
  induction l as [|z l IH]; simpl.
  - split; intros [H|H]; auto.
  - destruct (le y z); simpl; [split; intros [H|H]; auto|].
    rewrite IH. split; intros H; intuition.
Qed.

(** The sort is a permutation: it keeps the rows. *)
Lemma sort_by_In {A : Type} (le : A -> A -> bool) (x : A) (l : list A) :
  In x (gostd.sort_by le l) <-> In x l.
Proof.
  unfold gostd.sort_by. induction l as [|a l IH]; simpl; [reflexivity|].
  rewrite insert_sorted_In, IH. split; intros [H|H]; auto.
Qed.

Lemma sort_by_length {A : Type} (le : A -> A -> bool) (l : list A) :
  List.length (gostd.sort_by le l) = List.length l.
Proof.
  unfold gostd.sort_by. induction l as [|a l IH]; simpl; [reflexivity|].
  rewrite <- IH. generalize (fold_right (gostd.insert_sorted le) [] l). intros m.
  induction m as [|b m IHm]; simpl; [reflexivity|].
  destruct (le a b); simpl; [reflexivity|now rewrite IHm].
Qed.

Lemma FindBlob_NotFound (d : db.DB) (c : string) (e : db.error) :
  db.FindBlobByChecksumTx d c = inr e ->
  e = db.ErrNotFound /\
  filter (fun b => andb (String.eqb (db.Blob.Checksum b) c)
                        (String.eqb (db.Blob.State b) "ready")) (db.blobs d) = [].
Proof.
  unfold db.FindBlobByChecksumTx.
  destruct (gostd.sort_by _ _) as [|b l] eqn:Hs; [|discriminate].
  intros H; inversion H; subst. split; [reflexivity|]. exact (sort_by_nil _ _ Hs).
Qed.

Lemma FindBlob_ready (d : db.DB) (c : string) (b : db.Blob.t) :
  db.FindBlobByChecksumTx d c = inl b ->
  In b (db.blobs d) /\ db.Blob.Checksum b = c /\ db.Blob.State b = "ready".
Proof.
  unfold db.FindBlobByChecksumTx.
  destruct (gostd.sort_by _ _) as [|b0 l0] eqn:Hs; [discriminate|].
  intros H; inversion H; subst b0.
  assert (Hin : In b (b :: l0)) by now left.
  rewrite <- Hs in Hin. apply sort_by_In in Hin.
  apply filter_In in Hin. destruct Hin as [Hin Hc].
  apply andb_true_iff in Hc. destruct Hc as [Hc Hst].
  apply String.eqb_eq in Hc, Hst. auto.
Qed.

Lemma filter_app_one {A : Type} (p : A -> bool) (l : list A) (x : A) :
  filter p (l ++ [x]) = (filter p l ++ (if p x then [x] else []))%list.
Proof. rewrite filter_app. reflexivity. Qed.

Lemma map_id_on {A : Type} (f : A -> A) (l : list A) :
  (forall x, In x l -> f x = x) -> map f l = l.
Proof.
  induction l as [|a l IH]; simpl; intros H; [reflexivity|].
  rewrite H by now left. f_equal. apply IH. intros; apply H; now right.
Qed.

(** Reserving and marking ready a blob of a checksum that no ready blob
    has: it becomes the blob the checksum finds. *)
Lemma Reserve_then_Mark (d d1 : db.DB) (id c node : string) (size now : Z) :
  filter (fun b => andb (String.eqb (db.Blob.Checksum b) c)
                        (String.eqb (db.Blob.State b) "ready")) (db.blobs d) = [] ->
  db.ReserveBlobPendingTx d id c size node now = inl d1 ->
  exists d2, db.MarkBlobReadyTx d1 id = inl d2 /\
    db.blobs d2 = (db.blobs d ++ [db.Blob.mk id node "" size c "ready" now])%list /\
    db.FindBlobByChecksumTx d2 c = inl (db.Blob.mk id node "" size c "ready" now) /\
    db.objects d2 = db.objects d /\ db.object_versions d2 = db.object_versions d /\
    db.idempotency_keys d2 = db.idempotency_keys d /\ db.buckets d2 = db.buckets d /\
    db.seq_objects d2 = db.seq_objects d.
Proof.
  intros Hnone. unfold db.ReserveBlobPendingTx.
  destruct (existsb _ (db.blobs d)) eqn:Hex; [discriminate|].
  intros H; inversion H; subst d1. clear H.
  eexists. split; [reflexivity|].
  assert (Hold : map (fun b => if db.blob_is id b
                        then db.Blob.mk (db.Blob.ID b) (db.Blob.StorageNode b) (db.Blob.Path b)
                                        (db.Blob.Size b) (db.Blob.Checksum b) "ready"
                                        (db.Blob.CreatedAt b)
                        else b) (db.blobs d) = db.blobs d).
  { apply map_id_on. intros x Hx.
    pose proof (existsb_false_forall _ _ Hex x Hx) as Hf.
    apply orb_false_iff in Hf. destruct Hf as [Hf _]. now rewrite Hf. }
  assert (Hbl : db.blobs (db.with_blobs
            (db.with_blobs d (db.blobs d ++ [db.Blob.mk id node "" size c "pending" now])%list)
            (map (fun b => if db.blob_is id b
                        then db.Blob.mk (db.Blob.ID b) (db.Blob.StorageNode b) (db.Blob.Path b)
                                        (db.Blob.Size b) (db.Blob.Checksum b) "ready"
                                        (db.Blob.CreatedAt b)
                        else b)
                 (db.blobs (db.with_blobs d
                    (db.blobs d ++ [db.Blob.mk id node "" size c "pending" now])%list))))
          = (db.blobs d ++ [db.Blob.mk id node "" size c "ready" now])%list).
  { cbn [db.blobs db.with_blobs]. rewrite map_app, Hold. cbn.
    unfold db.blob_is. cbn. now rewrite String.eqb_refl. }
  split; [exact Hbl|]. split; [|repeat split].
  unfold db.FindBlobByChecksumTx. rewrite Hbl, filter_app_one, Hnone.
  cbn [db.Blob.Checksum db.Blob.State]. rewrite String.eqb_refl. reflexivity.
Qed.
Lemma find_map_update {A : Type} (p : A -> bool) (f : A -> A) (l : list A) :
  (forall x, p x = true -> p (f x) = true) ->
  find p (map (fun x => if p x then f x else x) l) = option_map f (find p l).
Proof.
  intros Hp. induction l as [|a l IH]; simpl; [reflexivity|].
  destruct (p a) eqn:E.
  - now rewrite (Hp a E).
  - rewrite E. exact IH.
Qed.

Lemma existsb_find {A : Type} (p : A -> bool) (l : list A) :
  existsb p l = true -> exists x, find p l = Some x /\ p x = true.
Proof.
  induction l as [|a l IH]; simpl; [discriminate|].
  destruct (p a) eqn:E; [intros _; now exists a|exact IH].
Qed.

Lemma find_ver_fresh (l : list db.ObjectVersion.t) (v : db.ObjectVersion.t) :
  existsb (db.ver_is (db.ObjectVersion.VersionID v)) l = false ->
  find (db.ver_is (db.ObjectVersion.VersionID v)) (l ++ [v]) = Some v.
Proof.
  intros H. rewrite find_app_none.
  - now rewrite ver_is_refl.
  - destruct (find _ l) as [x|] eqn:Hf; [|reflexivity].
    apply find_some in Hf. destruct Hf as [Hin Hx].
    rewrite (existsb_false_forall _ _ H x Hin) in Hx. discriminate.
Qed.

(** The tail of the PUT transaction, when it commits. *)
Lemma putTx_version_ok (s : Server) (bid : Z) (key idem etag ctype : string)
    (staged usedNew : bool) (useBlobID : string) (useSize now : Z) :
  existsb (db.obj_is bid key) (db.objects (db_ s)) = true ->
  (idem = "" \/ db.GetIdempotencyTx (db_ s) bid key idem = inr db.ErrNotFound) ->
  tx_err (putTx_version s bid key idem etag ctype staged usedNew useBlobID useSize now)
    = None ->
  let t := putTx_version s bid key idem etag ctype staged usedNew useBlobID useSize now in
  let v := db.ObjectVersion.mk (entropy s (drawn s)) bid key (Some useBlobID) (Some useSize)
                               (Some etag) (Some ctype) false now in
  db.object_versions (db_ (tx_server t)) = (db.object_versions (db_ s) ++ [v])%list /\
  (forall x, In x (db.object_versions (db_ s)) ->
             db.ObjectVersion.VersionID x <> entropy s (drawn s)) /\
  tx_res t = mkPutResult (entropy s (drawn s)) etag useBlobID useSize 200 /\
  tx_staged t = staged /\ tx_usedNew t = usedNew /\
  db.GetHeadVersionTx (db_ (tx_server t)) bid key = inl v /\
  (idem <> "" ->
   db.GetIdempotencyTx (db_ (tx_server t)) bid key idem = inl (entropy s (drawn s), etag)) /\
  db.buckets (db_ (tx_server t)) = db.buckets (db_ s) /\
  db.blobs (db_ (tx_server t)) = db.blobs (db_ s) /\
  storage_ (tx_server t) = storage_ s /\
  entropy (tx_server t) = entropy s /\ drawn (tx_server t) = S (drawn s).
Proof.
  intros Hobj Hidem. unfold putTx_version, GenVersionID, genHex.
  cbv beta iota zeta. cbn [db_ storage_ entropy drawn].
  unfold db.InsertObjectVersionTx, db.create_version. cbn [db.ObjectVersion.VersionID].
  destruct (existsb (db.ver_is (entropy s (drawn s))) (db.object_versions (db_ s))) eqn:Hfresh;
    [cbn; intros Hs; discriminate Hs|].
  unfold db.UpsertObjectTx. cbn [db.objects db.with_versions]. rewrite Hobj.
  unfold db.SetHeadVersionTx. cbv beta iota zeta.
  intros _.
  set (v := db.ObjectVersion.mk (entropy s (drawn s)) bid key (Some useBlobID) (Some useSize)
                                (Some etag) (Some ctype) false now).
  assert (Hhead : forall d', db.objects d' =
            map (fun o => if db.obj_is bid key o
                   then db.Object.mk (db.Object.ID o) (db.Object.BucketID o) (db.Object.Key o)
                          (db.Object.BlobID o) (db.Object.Size o) (db.Object.ETag o)
                          (db.Object.ContentType o) (entropy s (drawn s)) (db.Object.CreatedAt o)
                   else o)
              (map (fun o => if db.obj_is bid key o
                     then db.Object.mk (db.Object.ID o) bid key useBlobID useSize etag ctype
                            (entropy s (drawn s)) (db.Object.CreatedAt o)
                     else o) (db.objects (db_ s))) ->
            db.object_versions d' = (db.object_versions (db_ s) ++ [v])%list ->
            db.GetHeadVersionTx d' bid key = inl v).
  { intros d' Ho Hv. unfold db.GetHeadVersionTx. rewrite Ho.
    rewrite find_map_update by (intros x Hx; exact Hx).
    rewrite find_map_update
      by (intros x _; unfold db.obj_is; cbn; now rewrite Z.eqb_refl, String.eqb_refl).
    destruct (existsb_find _ _ Hobj) as (o & Ho' & _). rewrite Ho'. cbn.
    unfold db.GetVersionTx. rewrite Hv.
    change (entropy s (drawn s)) with (db.ObjectVersion.VersionID v).
    now rewrite (find_ver_fresh _ v Hfresh). }
  assert (Hfr : forall x, In x (db.object_versions (db_ s)) ->
                  db.ObjectVersion.VersionID x <> entropy s (drawn s)).
  { intros x Hx. pose proof (existsb_false_forall _ _ Hfresh x Hx) as Hf.
    unfold db.ver_is in Hf. now apply String.eqb_neq. }
  destruct (String.eqb idem "") eqn:Eidem; cbn [negb].
  - cbn. repeat split; try assumption.
    + apply Hhead; reflexivity.
    + intros Hne. apply String.eqb_eq in Eidem. contradiction.
  - unfold db.SaveIdempotencyTx.
    destruct Hidem as [->|Hnf]; [discriminate|].
    assert (Hex : existsb (db.idem_is bid key idem) (db.idempotency_keys (db_ s)) = false).
    { unfold db.GetIdempotencyTx in Hnf.
      destruct (find (db.idem_is bid key idem) (db.idempotency_keys (db_ s))) eqn:Hf;
        [discriminate|].
      destruct (existsb (db.idem_is bid key idem) (db.idempotency_keys (db_ s))) eqn:He;
        [|reflexivity].
      destruct (existsb_find _ _ He) as (x & Hx & _). rewrite Hx in Hf. discriminate. }
    cbn [db.idempotency_keys db.with_objects db.with_versions]. rewrite Hex.
    cbn. repeat split; try assumption.
    + apply Hhead; reflexivity.
    + intros _. unfold db.GetIdempotencyTx. cbn.
      rewrite find_app_none.
      * unfold db.idem_is. cbn. now rewrite Z.eqb_refl, !String.eqb_refl.
      * unfold db.GetIdempotencyTx in Hnf.
        destruct (find (db.idem_is bid key idem) (db.idempotency_keys (db_ s)));
          [discriminate|reflexivity].
Qed.
Lemma Lock_exists (d d' : db.DB) (bid : Z) (key : string) (now : Z) :
  db.LockObjectForUpdate d bid key now = inl d' ->
  existsb (db.obj_is bid key) (db.objects d') = true.
Proof.
  unfold db.LockObjectForUpdate.
  destruct (existsb (db.obj_is bid key) (db.objects d)) eqn:E; intros H; inversion H; subst.
  - exact E.
  - cbn. rewrite existsb_app. cbn. unfold db.obj_is at 2. cbn.
    rewrite Z.eqb_refl, String.eqb_refl. cbn. apply orb_true_r.
Qed.

(** The store-and-version part of the PUT transaction, when it commits. *)
Lemma putTx_store_ok (s : Server) (bid : Z) (key idem checksum etag ctype newBlobID : string)
    (size now : Z) :
  existsb (db.obj_is bid key) (db.objects (db_ s)) = true ->
  (idem = "" \/ db.GetIdempotencyTx (db_ s) bid key idem = inr db.ErrNotFound) ->
  tx_err (putTx_store s bid key idem checksum etag ctype newBlobID size now) = None ->
  let t := putTx_store s bid key idem checksum etag ctype newBlobID size now in
  exists b,
    let v := db.ObjectVersion.mk (entropy s (drawn s)) bid key (Some (db.Blob.ID b))
               (Some (db.Blob.Size b)) (Some etag) (Some ctype) false now in
    db.object_versions (db_ (tx_server t)) = (db.object_versions (db_ s) ++ [v])%list /\
    (forall x, In x (db.object_versions (db_ s)) ->
               db.ObjectVersion.VersionID x <> entropy s (drawn s)) /\
    tx_res t = mkPutResult (entropy s (drawn s)) etag (db.Blob.ID b) (db.Blob.Size b) 200 /\
    andb (tx_staged t) (negb (tx_usedNew t)) = false /\
    db.GetHeadVersionTx (db_ (tx_server t)) bid key = inl v /\
    (idem <> "" ->
     db.GetIdempotencyTx (db_ (tx_server t)) bid key idem = inl (entropy s (drawn s), etag)) /\
    db.buckets (db_ (tx_server t)) = db.buckets (db_ s) /\
    db.FindBlobByChecksumTx (db_ (tx_server t)) checksum = inl b /\
    entropy (tx_server t) = entropy s /\ drawn (tx_server t) = S (drawn s) /\
    ((db.FindBlobByChecksumTx (db_ s) checksum = inl b /\
      db.blobs (db_ (tx_server t)) = db.blobs (db_ s) /\
      storage_ (tx_server t) = storage.Delete (storage_ s) newBlobID) \/
     (db.FindBlobByChecksumTx (db_ s) checksum = inr db.ErrNotFound /\
      b = db.Blob.mk newBlobID "local" "" size checksum "ready" now /\
      db.blobs (db_ (tx_server t)) = (db.blobs (db_ s) ++ [b])%list /\
      storage_ (tx_server t) = storage_ s)).
Proof.
  intros Hobj Hidem. unfold putTx_store.
  destruct (db.FindBlobByChecksumTx (db_ s) checksum) as [found|e] eqn:Hfind.
  - cbv zeta. intros Herr.
    pose proof (putTx_version_ok
                  (set_storage s (storage.Delete (storage_ s) newBlobID))
                  bid key idem etag ctype false false
                  (db.Blob.ID found) (db.Blob.Size found) now Hobj Hidem Herr) as Hok.
    cbv zeta in Hok. cbn [db_ storage_ entropy drawn set_storage] in Hok.
    destruct Hok as (Hv & Hfr & Hres & Hst & Hun & Hhead & Hik & Hbu & Hbl & Hsto & Hen & Hdr).
    exists found. repeat split; try assumption.
    + rewrite Hst, Hun. reflexivity.
    + unfold db.FindBlobByChecksumTx in *. rewrite Hbl. exact Hfind.
    + left. repeat split; assumption.
  - destruct (FindBlob_NotFound _ _ _ Hfind) as [-> Hnone].
    destruct (db.ReserveBlobPendingTx (db_ s) newBlobID checksum size "local" now)
      as [d1|e1] eqn:Hres1; [|cbn; intros Hs; discriminate Hs].
    destruct (Reserve_then_Mark _ _ _ _ _ _ _ Hnone Hres1)
      as (d2 & Hmark & Hbl2 & Hfind2 & Hob2 & Hve2 & Hik2 & Hbu2 & Hso2).
    rewrite Hmark. intros Herr.
    assert (Hobj' : existsb (db.obj_is bid key) (db.objects (db_ (set_db s d2))) = true)
      by (cbn [db_ set_db]; now rewrite Hob2).
    assert (Hidem' : idem = "" \/
              db.GetIdempotencyTx (db_ (set_db s d2)) bid key idem = inr db.ErrNotFound).
    { destruct Hidem as [He|He]; [now left|right].
      unfold db.GetIdempotencyTx in *. cbn [db_ set_db]. now rewrite Hik2. }
    pose proof (putTx_version_ok (set_db s d2) bid key idem etag ctype true true
                  newBlobID size now Hobj' Hidem' Herr) as Hok.
    cbv zeta in Hok. cbn [db_ storage_ entropy drawn set_db] in Hok.
    destruct Hok as (Hv & Hfr & Hres & Hst & Hun & Hhead & Hik & Hbu & Hbl & Hsto & Hen & Hdr).
    exists (db.Blob.mk newBlobID "local" "" size checksum "ready" now).
    cbn [db.Blob.ID db.Blob.Size].
    rewrite Hve2 in Hv, Hfr.
    repeat split; try assumption.
    + rewrite Hst, Hun. reflexivity.
    + congruence.
    + unfold db.FindBlobByChecksumTx in *. rewrite Hbl. exact Hfind2.
    + right. repeat split; try assumption. congruence.
Qed.
Lemma EnsureBucket_found (d d' : db.DB) (name : string) (ownerID now : Z) (x : db.res Z) :
  db.EnsureBucket d name ownerID now = (d', x) ->
  exists b, find (fun b => String.eqb (db.Bucket.Name b) name) (db.buckets d') = Some b.
Proof.
  unfold db.EnsureBucket.
  assert (Hset : forall id o b, String.eqb (db.Bucket.Name (db.set_owner id o b)) name
                                = String.eqb (db.Bucket.Name b) name).
  { intros id o b. unfold db.set_owner. destruct (db.Bucket.ID b =? id); reflexivity. }
  destruct (find (fun b => String.eqb (db.Bucket.Name b) name) (db.buckets d)) as [b|] eqn:Hf.
  - destruct (andb (db.Bucket.OwnerID b =? 0) (negb (ownerID =? 0)));
      intros Hx; inversion Hx; subst; cbn.
    + rewrite (find_map_preserved _ _ _ (Hset (db.Bucket.ID b) ownerID)), Hf. cbn. eauto.
    + eauto.
  - cbn [db.Bucket.OwnerID db.Bucket.ID].
    destruct (andb (0 =? 0) (negb (ownerID =? 0))); intros Hx; inversion Hx; subst; cbn.
    + rewrite (find_map_preserved _ _ _ (Hset (db.seq_buckets d + 1) ownerID)).
      rewrite (find_app_none _ _ _ Hf). cbn. rewrite String.eqb_refl. cbn. eauto.
    + rewrite (find_app_none _ _ _ Hf). cbn. rewrite String.eqb_refl. eauto.
Qed.

Lemma bucket_id_of_buckets (d d' : db.DB) (name : string) :
  db.buckets d' = db.buckets d ->
  (exists b, find (fun b => String.eqb (db.Bucket.Name b) name) (db.buckets d) = Some b) ->
  props.bucket_id d' name = props.bucket_id d name.
Proof.
  intros Hb [b Hf]. unfold props.bucket_id. rewrite Hb, Hf. reflexivity.
Qed.

(** A PUT that is no replay and answers 200: one version row is appended,
    for the blob the checksum of the body finds; that version is the head,
    and the token, when there is one, is on record for it. *)
Lemma put_creates `{Crypto} (s : Server) (r : Request) (now : Z) (bucket key : string) :
  parseBucketKey (Path r) = Some (bucket, key) ->
  (lookup (Header r) "X-Idempotency-Key" = "" \/
   db.GetIdempotencyTx (db_ s) (props.bucket_id (db_ s) bucket) key
     (lookup (Header r) "X-Idempotency-Key") = inr db.ErrNotFound) ->
  Status (snd (handlePut s r now)) = 200 ->
  exists v b,
    db.object_versions (db_ (fst (handlePut s r now)))
      = (db.object_versions (db_ s) ++ [v])%list /\
    (forall x, In x (db.object_versions (db_ s)) ->
               db.ObjectVersion.VersionID x <> db.ObjectVersion.VersionID v) /\
    lookup (Hdr (snd (handlePut s r now))) "x-amz-version-id" = db.ObjectVersion.VersionID v /\
    lookup (Hdr (snd (handlePut s r now))) "ETag" = props.etag_of (Body r) /\
    db.ObjectVersion.BucketID v = props.bucket_id (db_ s) bucket /\
    db.ObjectVersion.Key v = key /\
    db.ObjectVersion.IsDelete v = false /\
    db.ObjectVersion.BlobID v = Some (db.Blob.ID b) /\
    db.ObjectVersion.ETag v = Some (props.etag_of (Body r)) /\
    db.FindBlobByChecksumTx (db_ (fst (handlePut s r now))) (props.checksum_of (Body r))
      = inl b /\
    (forall b0, db.FindBlobByChecksumTx (db_ s) (props.checksum_of (Body r)) = inl b0 ->
       b = b0 /\ db.blobs (db_ (fst (handlePut s r now))) = db.blobs (db_ s) /\
       storage.Stat (storage_ (fst (handlePut s r now))) (entropy s (drawn s)) = None) /\
    db.GetHeadVersionTx (db_ (fst (handlePut s r now))) (props.bucket_id (db_ s) bucket) key
      = inl v /\
    (lookup (Header r) "X-Idempotency-Key" <> "" ->
     db.GetIdempotencyTx (db_ (fst (handlePut s r now))) (props.bucket_id (db_ s) bucket) key
       (lookup (Header r) "X-Idempotency-Key")
       = inl (db.ObjectVersion.VersionID v, props.etag_of (Body r))) /\
    props.bucket_id (db_ (fst (handlePut s r now))) bucket = props.bucket_id (db_ s) bucket.
Proof.
  intros Hp Hidem.
  unfold handlePut. rewrite Hp.
  destruct (EnsureBucket_spec (db_ s) bucket (UserID r) now)
    as (d & He & Hbl & Hob & Hve & Hik & _ & _ & Hbid).
  pose proof (EnsureBucket_found _ _ _ _ _ _ He) as Hfound.
  rewrite He. cbv zeta. unfold GenBlobID, genHex.
  cbn [db_ storage_ entropy drawn set_db set_storage].
  match goal with |- context [if ?c then _ else _] => destruct c end;
    [cbn; intros Hs; discriminate Hs|].
  match goal with |- context [if ?c then _ else _] => destruct c end;
    [cbn; intros Hs; discriminate Hs|].
  fold (props.checksum_of (Body r)). fold (props.etag_of (Body r)).
  set (idem := lookup (Header r) "X-Idempotency-Key") in *.
  set (bid := props.bucket_id (db_ s) bucket) in *.
  set (ctype := if String.eqb (lookup (Header r) "Content-Type") ""
                then "application/octet-stream" else lookup (Header r) "Content-Type").
  set (s0 := set_storage {| db_ := d; storage_ := storage_ s;
                            entropy := entropy s; drawn := S (drawn s) |}
                         (storage.Put (storage_ s) (entropy s (drawn s)) (Body r))).
  assert (Hs0 : db_ s0 = d) by reflexivity.
  assert (Hs0s : storage_ s0 = storage.Put (storage_ s) (entropy s (drawn s)) (Body r))
    by reflexivity.
  assert (Hs0e : entropy s0 = entropy s) by reflexivity.
  assert (Hs0d : drawn s0 = S (drawn s)) by reflexivity.
  unfold putTx_body.
  destruct (Lock_total (db_ s0) bid key now) as [d1 Hd1]. rewrite Hd1.
  destruct (Lock_versions _ _ _ _ _ Hd1) as (Hve1 & Hbl1 & Hik1 & Hbu1).
  pose proof (Lock_exists _ _ _ _ _ Hd1) as Hex1.
  cbv zeta.
  assert (Hidem1 : idem = "" \/
            db.GetIdempotencyTx (db_ (set_db s0 d1)) bid key idem = inr db.ErrNotFound).
  { destruct Hidem as [Hi|Hi]; [now left|right].
    unfold db.GetIdempotencyTx in *. cbn [db_ set_db]. rewrite Hik1, Hs0.
    now rewrite Hik. }
  set (t := putTx_store (set_db s0 d1) bid key idem (props.checksum_of (Body r))
              (props.etag_of (Body r)) ctype (entropy s (drawn s)) (gostd.len (Body r)) now).
  assert (Hprobe :
    match (if negb (String.eqb idem "")
           then Some (db.GetIdempotencyTx (db_ (set_db s0 d1)) bid key idem) else None) with
    | Some (inl (verID, e)) => mkPutTx None (set_db s0 d1) (mkPutResult verID e "" 0 200) true false
    | Some (inr db.ErrNotFound) | None => t
    | Some (inr e) => mkPutTx (Some e) (set_db s0 d1) no_res true false
    end = t).
  { destruct Hidem1 as [->|Hnf]; [reflexivity|].
    rewrite Hnf. destruct (negb (String.eqb idem "")); reflexivity. }
  rewrite Hprobe. clear Hprobe.
  destruct (tx_err t) as [e|] eqn:Herr; [cbn; intros Hs; discriminate Hs|].
  intros _.
  destruct (putTx_store_ok (set_db s0 d1) bid key idem _ _ ctype _ _ now Hex1 Hidem1 Herr)
    as (b & Hok).
  fold t in Hok. cbv zeta in Hok. cbn [db_ storage_ entropy drawn set_db] in Hok.
  rewrite ?Hs0, ?Hs0s, ?Hs0e, ?Hs0d in Hok.
  destruct Hok as (Hv & Hfr & Hres & Hst & Hhead & Hrec & Hbu & Hfind & Hen & Hdrw & Hcase).
  rewrite Hst, Hres. cbn [res_versionID res_etag res_status].
  exists (db.ObjectVersion.mk (entropy s (S (drawn s))) bid key (Some (db.Blob.ID b))
            (Some (db.Blob.Size b)) (Some (props.etag_of (Body r))) (Some ctype) false now), b.
  set (hdr := hset (hset (hset [] "ETag" (props.etag_of (Body r))) "x-amz-version-id"
                (entropy s (S (drawn s)))) "Content-Type" "application/xml").
  assert (Hfst : forall c : bool,
            fst (if c then (tx_server t, WriteHeader hdr 200)
                 else (tx_server t, WriteHeader hdr 200)) = tx_server t)
    by (intros []; reflexivity).
  assert (Hsnd : forall c : bool,
            Hdr (snd (if c then (tx_server t, WriteHeader hdr 200)
                      else (tx_server t, WriteHeader hdr 200))) = hdr)
    by (intros []; reflexivity).
  rewrite Hfst, Hsnd. cbn [db.ObjectVersion.VersionID db.ObjectVersion.BucketID
    db.ObjectVersion.Key db.ObjectVersion.IsDelete db.ObjectVersion.BlobID db.ObjectVersion.ETag].
  unfold hdr.
  rewrite Hve1, Hs0, Hve in Hv. rewrite Hve1, Hs0, Hve in Hfr.
  split; [exact Hv|]. split; [exact Hfr|].
  do 7 (split; [reflexivity|]).
  split; [exact Hfind|].
  split; [|split; [exact Hhead|split; [exact Hrec|]]].
  - intros b0 Hb0.
    assert (Hb0' : db.FindBlobByChecksumTx d1 (props.checksum_of (Body r)) = inl b0).
    { unfold db.FindBlobByChecksumTx in *. rewrite Hbl1, Hs0. now rewrite Hbl. }
    destruct Hcase as [(Hf & Hbls & Hsto)|(Hf & _)]; [|rewrite Hf in Hb0'; discriminate].
    rewrite Hf in Hb0'. inversion Hb0'; subst b0.
    repeat split.
    + rewrite Hbls, Hbl1, Hs0. exact Hbl.
    + rewrite Hsto. apply Stat_Delete_eq.
  - rewrite <- Hbid. apply bucket_id_of_buckets; [|exact Hfound].
    rewrite Hbu, Hbu1, Hs0. reflexivity.
Qed.





(** The spec's replay scenario: the token's second PUT, with another body,
    answers with the first version, and GET still reads the first body. *)
Example replay_scenario :
  let tok := [("X-Idempotency-Key", "tok")] in
  let s1 := fst (handlePut scenario.fresh (scenario.put "/b/k" "A" tok) 1000) in
  let s2 := fst (handlePut s1 (scenario.put "/b/k" "B" tok) 2000) in
  let resp2 := snd (handlePut s1 (scenario.put "/b/k" "B" tok) 2000) in
  Status resp2 = 200 /\ lookup (Hdr resp2) "x-amz-version-id" = "31" /\
  map db.ObjectVersion.VersionID (db.object_versions (db_ s2)) = ["31"] /\
  map fst (storage_ s2) = ["30"] /\
  match handleGet s2 (scenario.get "/b/k" [] []) with
  | Done resp => Status resp = 200 /\ Out resp = "A"
  | Panics _ => False
  end.
Proof. vm_compute. repeat split. Qed.
Lemma FindBlob_of_blobs (d d' : db.DB) (c : string) :
  db.blobs d' = db.blobs d -> db.FindBlobByChecksumTx d' c = db.FindBlobByChecksumTx d c.
Proof. intros Hb. unfold db.FindBlobByChecksumTx. now rewrite Hb. Qed.

Lemma FindBlob_app_other (d d' : db.DB) (c : string) (b : db.Blob.t) :
  db.blobs d' = (db.blobs d ++ [b])%list -> db.Blob.Checksum b <> c ->
  db.FindBlobByChecksumTx d' c = db.FindBlobByChecksumTx d c.
Proof.
  intros Hb Hc. unfold db.FindBlobByChecksumTx. rewrite Hb, filter_app_one.
  apply String.eqb_neq in Hc. rewrite Hc. cbn [andb]. now rewrite app_nil_r.
Qed.

(** What the PUT transaction does, when it commits, to the version and
    blob tables. *)
Lemma putTx_body_frame (s : Server) (bid : Z)
    (key idem checksum etag ctype newBlobID : string) (size now : Z) :
  tx_err (putTx_body s bid key idem checksum etag ctype newBlobID size now) = None ->
  let t := putTx_body s bid key idem checksum etag ctype newBlobID size now in
  (db.object_versions (db_ (tx_server t)) = db.object_versions (db_ s) \/
   exists v, db.object_versions (db_ (tx_server t))
             = (db.object_versions (db_ s) ++ [v])%list) /\
  (forall c b, db.FindBlobByChecksumTx (db_ s) c = inl b ->
               db.FindBlobByChecksumTx (db_ (tx_server t)) c = inl b).
Proof.
  unfold putTx_body.
  destruct (Lock_total (db_ s) bid key now) as [d1 Hd1]. rewrite Hd1.
  destruct (Lock_versions _ _ _ _ _ Hd1) as (Hve1 & Hbl1 & Hik1 & Hbu1).
  pose proof (Lock_exists _ _ _ _ _ Hd1) as Hex1.
  cbv zeta.
  assert (Hstore :
    (idem = "" \/ db.GetIdempotencyTx (db_ (set_db s d1)) bid key idem = inr db.ErrNotFound) ->
    tx_err (putTx_store (set_db s d1) bid key idem checksum etag ctype newBlobID size now)
      = None ->
    (db.object_versions (db_ (tx_server
        (putTx_store (set_db s d1) bid key idem checksum etag ctype newBlobID size now)))
       = db.object_versions (db_ s) \/
     exists v, db.object_versions (db_ (tx_server
        (putTx_store (set_db s d1) bid key idem checksum etag ctype newBlobID size now)))
               = (db.object_versions (db_ s) ++ [v])%list) /\
    (forall c b, db.FindBlobByChecksumTx (db_ s) c = inl b ->
       db.FindBlobByChecksumTx (db_ (tx_server
        (putTx_store (set_db s d1) bid key idem checksum etag ctype newBlobID size now))) c
       = inl b)).
  { intros Hidem Herr.
    destruct (putTx_store_ok (set_db s d1) bid key idem checksum etag ctype newBlobID size now
                Hex1 Hidem Herr) as (b & Hok).
    cbv zeta in Hok. cbn [db_ storage_ entropy drawn set_db] in Hok.
    destruct Hok as (Hv & _ & _ & _ & _ & _ & _ & Hfind & _ & _ & Hcase).
    split.
    - right. eexists. rewrite Hv, Hve1. reflexivity.
    - intros c b0 Hc.
      assert (Hc1 : db.FindBlobByChecksumTx d1 c = inl b0)
        by (rewrite (FindBlob_of_blobs (db_ s) d1 c Hbl1); exact Hc).
      destruct Hcase as [(_ & Hbls & _)|(Hnf & Hb & Hbls & _)].
      + rewrite (FindBlob_of_blobs d1 _ c Hbls). exact Hc1.
      + rewrite (FindBlob_app_other d1 _ c b Hbls); [exact Hc1|].
        subst b. cbn. intros ->. rewrite Hnf in Hc1. discriminate. }
  destruct (negb (String.eqb idem "")) eqn:Hneg.
  - destruct (db.GetIdempotencyTx (db_ (set_db s d1)) bid key idem) as [[vid e]|err] eqn:Hget.
    + intros _. cbn [tx_server db_ set_db]. split; [left; exact Hve1|].
      intros c b Hc. rewrite (FindBlob_of_blobs (db_ s) d1 c Hbl1). exact Hc.
    + destruct err; try (cbn; intros Hs; discriminate Hs).
      apply Hstore. now right.
  - apply Hstore. left. apply negb_false_iff in Hneg. now apply String.eqb_eq.
Qed.

(** What a PUT, whatever its outcome, does to the version and blob tables:
    the version rows stay, with at most one appended, and a checksum that
    found a ready blob still finds it. *)
Lemma handlePut_frame `{Crypto} (s : Server) (r : Request) (now : Z) :
  (db.object_versions (db_ (fst (handlePut s r now))) = db.object_versions (db_ s) \/
   exists v, db.object_versions (db_ (fst (handlePut s r now)))
             = (db.object_versions (db_ s) ++ [v])%list) /\
  (forall c b, db.FindBlobByChecksumTx (db_ s) c = inl b ->
               db.FindBlobByChecksumTx (db_ (fst (handlePut s r now))) c = inl b).
Proof.
  unfold handlePut.
  destruct (parseBucketKey (Path r)) as [[bucket key]|]; [|cbn; auto].
  destruct (EnsureBucket_spec (db_ s) bucket (UserID r) now)
    as (d & He & Hbl & Hob & Hve & Hik & _ & _ & Hbid).
  rewrite He. cbv zeta. unfold GenBlobID, genHex.
  cbn [db_ storage_ entropy drawn set_db set_storage].
  assert (Hsame : forall d', db.object_versions d' = db.object_versions d ->
            db.blobs d' = db.blobs d ->
            (db.object_versions d' = db.object_versions (db_ s) \/
             exists v, db.object_versions d' = (db.object_versions (db_ s) ++ [v])%list) /\
            (forall c b, db.FindBlobByChecksumTx (db_ s) c = inl b ->
                         db.FindBlobByChecksumTx d' c = inl b)).
  { intros d' Hv' Hb'. split; [left; congruence|].
    intros c b Hc. rewrite (FindBlob_of_blobs (db_ s) d' c) by congruence. exact Hc. }
  match goal with |- context [if ?c then _ else _] => destruct c end;
    [cbn; now apply Hsame|].
  match goal with |- context [if ?c then _ else _] => destruct c end;
    [cbn; now apply Hsame|].
  set (s0 := set_storage {| db_ := d; storage_ := storage_ s;
                            entropy := entropy s; drawn := S (drawn s) |}
                         (storage.Put (storage_ s) (entropy s (drawn s)) (Body r))).
  assert (Hs0 : db_ s0 = d) by reflexivity.
  match goal with |- context [tx_err ?t0] => set (t := t0) end.
  destruct (tx_err t) as [e|] eqn:Herr.
  - destruct (tx_staged t); cbn [fst db_ set_storage rollback set_db]; rewrite ?Hs0;
      now apply Hsame.
  - pose proof (putTx_body_frame _ _ _ _ _ _ _ _ _ _ Herr) as Hf. fold t in Hf.
    cbv zeta in Hf. rewrite Hs0, Hve in Hf.
    assert (Hdb : forall c1 c2 resp1 resp2,
              db_ (fst (if c2 : bool
                        then (if c1 : bool then set_storage (tx_server t)
                                (storage.Delete (storage_ (tx_server t)) (entropy s (drawn s)))
                              else tx_server t, resp1)
                        else (if c1 then set_storage (tx_server t)
                                (storage.Delete (storage_ (tx_server t)) (entropy s (drawn s)))
                              else tx_server t, resp2 : Response)))
              = db_ (tx_server t))
      by (intros [] [] ? ?; reflexivity).
    rewrite Hdb. destruct Hf as [Hf1 Hf2]. split; [exact Hf1|].
    intros c b Hc. apply Hf2. rewrite (FindBlob_of_blobs (db_ s) d c Hbl). exact Hc.
Qed.


(** The dedup scenario: the second PUT of a body answers another version id
    and the same ETag, and one blob record serves both versions. *)
Example dedup_scenario :
  let s1 := fst (handlePut scenario.fresh (scenario.put "/b/a" "X" []) 1000) in
  let resp1 := snd (handlePut scenario.fresh (scenario.put "/b/a" "X" []) 1000) in
  let s2 := fst (handlePut s1 (scenario.put "/b/c" "X" []) 2000) in
  let resp2 := snd (handlePut s1 (scenario.put "/b/c" "X" []) 2000) in
  lookup (Hdr resp1) "x-amz-version-id" = "31" /\
  lookup (Hdr resp2) "x-amz-version-id" = "33" /\
  lookup (Hdr resp1) "ETag" = lookup (Hdr resp2) "ETag" /\
  map db.ObjectVersion.BlobID (db.object_versions (db_ s2)) = [Some "30"; Some "30"] /\
  map db.Blob.ID (db.blobs (db_ s2)) = ["30"] /\
  map fst (storage_ s2) = ["30"].
Proof. vm_compute. repeat split. Qed.

(* ================================================================== *)
(** ** Further properties of the handlers and the repository           *)
(* ================================================================== *)

(** A PUT that is no replay and answers 200 has run [EnsureBucket], the
    per-key lock and the store-and-version part of the transaction, which
    committed; the server it leaves is the one the transaction reached. *)
Lemma handlePut_commits `{Crypto} (s : Server) (r : Request) (now : Z) (bucket key : string) :
  parseBucketKey (Path r) = Some (bucket, key) ->
  (lookup (Header r) "X-Idempotency-Key" = "" \/
   db.GetIdempotencyTx (db_ s) (props.bucket_id (db_ s) bucket) key
     (lookup (Header r) "X-Idempotency-Key") = inr db.ErrNotFound) ->
  Status (snd (handlePut s r now)) = 200 ->
  exists d d1,
    db.EnsureBucket (db_ s) bucket (UserID r) now = (d, inl (props.bucket_id (db_ s) bucket)) /\
    db.LockObjectForUpdate d (props.bucket_id (db_ s) bucket) key now = inl d1 /\
    let s0 := mkServer d1 (storage.Put (storage_ s) (entropy s (drawn s)) (Body r))
                       (entropy s) (S (drawn s)) in
    let t := putTx_store s0 (props.bucket_id (db_ s) bucket) key
               (lookup (Header r) "X-Idempotency-Key")
               (props.checksum_of (Body r)) (props.etag_of (Body r))
               (if String.eqb (lookup (Header r) "Content-Type") ""
                then "application/octet-stream" else lookup (Header r) "Content-Type")
               (entropy s (drawn s)) (gostd.len (Body r)) now in
    (lookup (Header r) "X-Idempotency-Key" = "" \/
     db.GetIdempotencyTx d1 (props.bucket_id (db_ s) bucket) key
       (lookup (Header r) "X-Idempotency-Key") = inr db.ErrNotFound) /\
    tx_err t = None /\ fst (handlePut s r now) = tx_server t /\
    (0 <= ContentLength r -> ContentLength r = gostd.len (Body r)).
Proof.
  intros Hp Hidem.
  unfold handlePut. rewrite Hp.
  destruct (EnsureBucket_spec (db_ s) bucket (UserID r) now)
    as (d & He & Hbl & Hob & Hve & Hik & _ & _ & Hbid).
  rewrite He. cbv zeta. unfold GenBlobID, genHex.
  cbn [db_ storage_ entropy drawn set_db set_storage].
  destruct (andb (0 <=? ContentLength r) (negb (gostd.len (Body r) =? ContentLength r)))
    eqn:Hlen; [cbn; intros Hs; discriminate Hs|].
  match goal with |- context [if ?c then _ else _] => destruct c end;
    [cbn; intros Hs; discriminate Hs|].
  fold (props.checksum_of (Body r)). fold (props.etag_of (Body r)).
  set (idem := lookup (Header r) "X-Idempotency-Key") in *.
  set (bid := props.bucket_id (db_ s) bucket) in *.
  set (ctype := if String.eqb (lookup (Header r) "Content-Type") ""
                then "application/octet-stream" else lookup (Header r) "Content-Type").
  set (s0 := set_storage {| db_ := d; storage_ := storage_ s;
                            entropy := entropy s; drawn := S (drawn s) |}
                         (storage.Put (storage_ s) (entropy s (drawn s)) (Body r))).
  assert (Hs0 : db_ s0 = d) by reflexivity.
  unfold putTx_body.
  destruct (Lock_total (db_ s0) bid key now) as [d1 Hd1]. rewrite Hd1.
  destruct (Lock_versions _ _ _ _ _ Hd1) as (Hve1 & Hbl1 & Hik1 & Hbu1).
  pose proof (Lock_exists _ _ _ _ _ Hd1) as Hex1.
  cbv zeta.
  assert (Hidem1 : idem = "" \/
            db.GetIdempotencyTx (db_ (set_db s0 d1)) bid key idem = inr db.ErrNotFound).
  { destruct Hidem as [Hi|Hi]; [now left|right].
    unfold db.GetIdempotencyTx in *. cbn [db_ set_db]. rewrite Hik1, Hs0.
    now rewrite Hik. }
  set (t := putTx_store (set_db s0 d1) bid key idem (props.checksum_of (Body r))
              (props.etag_of (Body r)) ctype (entropy s (drawn s)) (gostd.len (Body r)) now).
  assert (Hprobe :
    match (if negb (String.eqb idem "")
           then Some (db.GetIdempotencyTx (db_ (set_db s0 d1)) bid key idem) else None) with
    | Some (inl (verID, e)) => mkPutTx None (set_db s0 d1) (mkPutResult verID e "" 0 200) true false
    | Some (inr db.ErrNotFound) | None => t
    | Some (inr e) => mkPutTx (Some e) (set_db s0 d1) no_res true false
    end = t).
  { destruct Hidem1 as [->|Hnf]; [reflexivity|].
    rewrite Hnf. destruct (negb (String.eqb idem "")); reflexivity. }
  rewrite Hprobe. clear Hprobe.
  destruct (tx_err t) as [e|] eqn:Herr; [cbn; intros Hs; discriminate Hs|].
  intros _.
  destruct (putTx_store_ok (set_db s0 d1) bid key idem _ _ ctype _ _ now Hex1 Hidem1 Herr)
    as (b & Hok).
  fold t in Hok. cbv zeta in Hok.
  destruct Hok as (_ & _ & _ & Hst & _).
  rewrite Hst.
  exists d, d1. split; [reflexivity|]. split; [exact Hd1|].
  split; [exact Hidem1|]. split; [exact Herr|]. split.
  - destruct (negb (String.eqb (res_versionID (tx_res t)) "")); reflexivity.
  - intros Hge. apply Z.leb_le in Hge. rewrite Hge in Hlen. cbn in Hlen.
    apply negb_false_iff, Z.eqb_eq in Hlen. auto.
Qed.

Lemma EnsureBucket_owned (d d' : db.DB) (name : string) (ownerID now : Z) (x : db.res Z) :
  db.EnsureBucket d name ownerID now = (d', x) ->
  ownerID <> 0 ->
  (forall b, find (fun b => String.eqb (db.Bucket.Name b) name) (db.buckets d) = Some b ->
             db.Bucket.OwnerID b = 0 \/ db.Bucket.OwnerID b = ownerID) ->
  db.BucketIDByName d' name ownerID = inl (props.bucket_id d name).
Proof.
  unfold db.EnsureBucket, props.bucket_id, db.BucketIDByName.
  intros He Hne Hown.
  assert (Hfirst : forall (l : list db.Bucket.t) b,
            find (fun b => String.eqb (db.Bucket.Name b) name) l = Some b ->
            db.Bucket.OwnerID b = ownerID ->
            find (fun b => andb (String.eqb (db.Bucket.Name b) name)
                                (db.Bucket.OwnerID b =? ownerID)) l = Some b).
  { induction l as [|a l IH]; simpl; intros b Hf Ho; [discriminate|].
    destruct (String.eqb (db.Bucket.Name a) name) eqn:En.
    - inversion Hf; subst a. rewrite (proj2 (Z.eqb_eq _ _) Ho). reflexivity.
    - simpl. now apply IH. }
  assert (Hmap : forall (l : list db.Bucket.t) b,
            find (fun b => String.eqb (db.Bucket.Name b) name) l = Some b ->
            find (fun b => String.eqb (db.Bucket.Name b) name)
                 (map (db.set_owner (db.Bucket.ID b) ownerID) l)
            = Some (db.set_owner (db.Bucket.ID b) ownerID b)).
  { induction l as [|a l IH]; simpl; intros b Hf; [discriminate|].
    assert (Hn : db.Bucket.Name (db.set_owner (db.Bucket.ID b) ownerID a) = db.Bucket.Name a)
      by (unfold db.set_owner; destruct (db.Bucket.ID a =? db.Bucket.ID b); reflexivity).
    rewrite Hn.
    destruct (String.eqb (db.Bucket.Name a) name) eqn:En.
    - inversion Hf; subst a. reflexivity.
    - now apply IH. }
  destruct (find (fun b => String.eqb (db.Bucket.Name b) name) (db.buckets d)) as [b|] eqn:Hf.
  - destruct (andb (db.Bucket.OwnerID b =? 0) (negb (ownerID =? 0))) eqn:Ha;
      inversion He; subst d' x; cbn [db.buckets db.with_buckets].
    + rewrite (Hfirst _ _ (Hmap _ _ Hf)).
      * unfold db.set_owner. rewrite Z.eqb_refl. reflexivity.
      * unfold db.set_owner. rewrite Z.eqb_refl. reflexivity.
    + assert (Ho : db.Bucket.OwnerID b = ownerID).
      { destruct (Hown b eq_refl) as [H0|Ho]; [|exact Ho].
        rewrite H0 in Ha. apply Z.eqb_neq in Hne. rewrite Hne in Ha. discriminate Ha. }
      now rewrite (Hfirst _ _ Hf Ho).
  - cbn [db.Bucket.OwnerID db.Bucket.ID] in He.
    apply Z.eqb_neq in Hne. rewrite Hne in He. cbn in He.
    inversion He; subst d' x; cbn [db.buckets db.with_buckets].
    set (b := db.Bucket.mk (db.seq_buckets d + 1) name 0 now).
    assert (Hfb : find (fun b => String.eqb (db.Bucket.Name b) name) (db.buckets d ++ [b])
                  = Some b).
    { rewrite (find_app_none _ _ _ Hf). cbn. now rewrite String.eqb_refl. }
    change (db.seq_buckets d + 1) with (db.Bucket.ID b) at 1.
    rewrite (Hfirst _ _ (Hmap _ _ Hfb)).
    + unfold db.set_owner. rewrite Z.eqb_refl. reflexivity.
    + unfold db.set_owner. rewrite Z.eqb_refl. reflexivity.
Qed.
Lemma putTx_store_fresh (s : Server) (bid : Z)
    (key idem checksum etag ctype newBlobID : string) (size now : Z) :
  tx_err (putTx_store s bid key idem checksum etag ctype newBlobID size now) = None ->
  db.FindBlobByChecksumTx (db_ s) checksum = inr db.ErrNotFound ->
  find (db.blob_is newBlobID) (db.blobs (db_ s)) = None.
Proof.
  unfold putTx_store. intros Herr Hnf. rewrite Hnf in Herr.
  unfold db.ReserveBlobPendingTx in Herr.
  destruct (existsb (fun b => orb (db.blob_is newBlobID b)
                                  (String.eqb (db.Blob.Checksum b) checksum))
                    (db.blobs (db_ s))) eqn:Hex; [discriminate Herr|].
  destruct (find (db.blob_is newBlobID) (db.blobs (db_ s))) as [b|] eqn:Hf; [|reflexivity].
  apply find_some in Hf. destruct Hf as [Hin Hb].
  pose proof (existsb_false_forall _ _ Hex b Hin) as Hc. cbv beta in Hc.
  rewrite Hb in Hc. discriminate Hc.
Qed.

Lemma BucketIDByName_of_buckets (d d' : db.DB) (name : string) (ownerID : Z) :
  db.buckets d' = db.buckets d ->
  db.BucketIDByName d' name ownerID = db.BucketIDByName d name ownerID.
Proof. intros Hb. unfold db.BucketIDByName. now rewrite Hb. Qed.

(** A PUT that stores a new blob, then a GET of the path by a caller for
    whom the bucket is found. *)
Lemma put_then_get :
  forall `{Crypto} (s : Server) (r g : Request) (now : Z) (bucket key : string),
    parseBucketKey (Path r) = Some (bucket, key) ->
    (lookup (Header r) "X-Idempotency-Key" = "" \/
     db.GetIdempotencyTx (db_ s) (props.bucket_id (db_ s) bucket) key
       (lookup (Header r) "X-Idempotency-Key") = inr db.ErrNotFound) ->
    Status (snd (handlePut s r now)) = 200 ->
    db.FindBlobByChecksumTx (db_ s) (props.checksum_of (Body r)) = inr db.ErrNotFound ->
    db.BucketIDByName (fst (db.EnsureBucket (db_ s) bucket (UserID r) now)) bucket (UserID g)
      = inl (props.bucket_id (db_ s) bucket) ->
    Path g = Path r ->
    lookup (Query g) "versionId" = "" ->
    lookup (Header g) "If-Match" = "" -> lookup (Header g) "If-None-Match" = "" ->
    lookup (Header g) "Range" = "" ->
    exists resp,
      handleGet (fst (handlePut s r now)) g = Done resp /\
      Status resp = 200 /\
      Out resp = Body r /\
      lookup (Hdr resp) "ETag" = props.etag_of (Body r) /\
      lookup (Hdr resp) "x-amz-version-id"
        = lookup (Hdr (snd (handlePut s r now))) "x-amz-version-id" /\
      lookup (Hdr resp) "Content-Length" = gostd.itoa (gostd.len (Body r)).
Proof.
  intros Hc s r g now bucket key Hp Hidem H200 Hnf Hbucket Hpath Hvid Him Hinm Hrange.
  destruct (put_creates s r now bucket key Hp Hidem H200)
    as (v & b & _ & _ & Hver & _ & _ & _ & Hdel & Hblob & Hetag & Hfind & _ & Hhead & _).
  destruct (handlePut_commits s r now bucket key Hp Hidem H200)
    as (d & d1 & He & Hd1 & Hok).
  cbv zeta in Hok. destruct Hok as (Hidem1 & Herr & Hfst & _).
  destruct (Lock_versions _ _ _ _ _ Hd1) as (_ & Hbl1 & _ & Hbu1).
  pose proof (Lock_exists _ _ _ _ _ Hd1) as Hex1.
  destruct (EnsureBucket_spec (db_ s) bucket (UserID r) now)
    as (d' & He' & Hbl & _).
  rewrite He in He'. inversion He'; subst d'. clear He'.
  assert (Hnf1 : db.FindBlobByChecksumTx d1 (props.checksum_of (Body r)) = inr db.ErrNotFound).
  { rewrite (FindBlob_of_blobs (db_ s) d1) by congruence. exact Hnf. }
  match type of Herr with tx_err (putTx_store ?s1 _ _ _ _ _ _ _ _ _) = None =>
    set (s0 := s1) in * end.
  assert (Hex0 : existsb (db.obj_is (props.bucket_id (db_ s) bucket) key)
                         (db.objects (db_ s0)) = true) by exact Hex1.
  assert (Hidem0 : lookup (Header r) "X-Idempotency-Key" = "" \/
            db.GetIdempotencyTx (db_ s0) (props.bucket_id (db_ s) bucket) key
              (lookup (Header r) "X-Idempotency-Key") = inr db.ErrNotFound) by exact Hidem1.
  assert (Hnf0 : db.FindBlobByChecksumTx (db_ s0) (props.checksum_of (Body r))
                 = inr db.ErrNotFound) by exact Hnf1.
  match type of Herr with tx_err ?t0 = None => set (t := t0) in * end.
  assert (Hdb0 : db_ s0 = d1) by reflexivity.
  assert (Hsto0 : storage_ s0 = storage.Put (storage_ s) (entropy s (drawn s)) (Body r))
    by reflexivity.
  pose proof (putTx_store_fresh s0 _ _ _ _ _ _ _ _ _ Herr Hnf0) as Hfresh.
  destruct (putTx_store_ok s0 _ _ _ _ _ _ _ _ _ Hex0 Hidem0 Herr) as (b' & Hst).
  fold t in Hst. cbv zeta in Hst. rewrite ?Hdb0, ?Hsto0 in Hst, Hfresh.
  destruct Hst as (_ & _ & _ & _ & _ & _ & Hbu & Hfind' & _ & _ & Hcase).
  destruct Hcase as [(Hhit & _)|(_ & Hb' & Hbls & Hsto)];
    [rewrite Hnf1 in Hhit; discriminate Hhit|].
  rewrite Hfst in *.
  assert (Hbb : inl b = @inl db.Blob.t db.error b') by (rewrite <- Hfind, <- Hfind'; reflexivity).
  inversion Hbb; subst b. clear Hbb Hfind.
  assert (Hserves : props.serves (tx_server t) g v b' (Body r)).
  { exists bucket, key, (props.bucket_id (db_ s) bucket), (db.Blob.ID b').
    rewrite Hpath, Hvid. cbn [String.eqb].
    split; [exact Hp|]. split.
    { rewrite (BucketIDByName_of_buckets d (db_ (tx_server t))) by congruence.
      rewrite He in Hbucket. exact Hbucket. }
    split; [exact Hhead|]. split; [exact Hdel|]. split; [exact Hblob|]. split.
    { unfold db.GetBlob. rewrite Hbls, Hb'. cbn [db.Blob.ID].
      rewrite (find_app_none _ _ _ Hfresh).
      cbn. unfold db.blob_is. cbn. rewrite String.eqb_refl. reflexivity. }
    split; [|split; assumption].
    rewrite Hsto, Hb'. cbn [db.Blob.ID]. apply Stat_Put_eq. }
  rewrite (handleGet_serves _ g v b' (Body r) Hserves), Hrange.
  change (handleGet_range "" (db.Blob.Size b')) with (RangeOk 0 (-1) 200 None).
  eexists. split; [reflexivity|]. cbn [Status Out Hdr].
  split; [reflexivity|]. split; [reflexivity|].
  split; [|split].
  - rewrite lookup_hset_ne by discriminate.
    unfold props.base_headers. cbv zeta. rewrite Hetag.
    rewrite !lookup_hset_ne by discriminate. apply lookup_hset_eq.
  - rewrite lookup_hset_ne by discriminate.
    unfold props.base_headers. cbv zeta.
    rewrite !lookup_hset_ne by discriminate. rewrite lookup_hset_eq. now rewrite Hver.
  - rewrite lookup_hset_eq. rewrite Hb'. reflexivity.
Qed.

(** PUT then GET.  A PUT that is no replay, answers 200 and brings a body
    no ready blob has the checksum of, by a caller (not the anonymous one)
    whose bucket is new, unowned or its own: a GET of the same path by the
    same caller, with no versionId and no conditional or Range header,
    answers 200 with exactly the body that was put, its ETag, the version
    id the PUT answered and the length of the body as Content-Length. *)
Theorem put_then_get_returns_the_body :
  forall `{Crypto} (s : Server) (r g : Request) (now : Z) (bucket key : string),
    parseBucketKey (Path r) = Some (bucket, key) ->
    (lookup (Header r) "X-Idempotency-Key" = "" \/
     db.GetIdempotencyTx (db_ s) (props.bucket_id (db_ s) bucket) key
       (lookup (Header r) "X-Idempotency-Key") = inr db.ErrNotFound) ->
    Status (snd (handlePut s r now)) = 200 ->
    db.FindBlobByChecksumTx (db_ s) (props.checksum_of (Body r)) = inr db.ErrNotFound ->
    UserID r <> 0 ->
    (forall b, find (fun b => String.eqb (db.Bucket.Name b) bucket) (db.buckets (db_ s)) = Some b ->
               db.Bucket.OwnerID b = 0 \/ db.Bucket.OwnerID b = UserID r) ->
    Path g = Path r -> UserID g = UserID r ->
    lookup (Query g) "versionId" = "" ->
    lookup (Header g) "If-Match" = "" -> lookup (Header g) "If-None-Match" = "" ->
    lookup (Header g) "Range" = "" ->
    exists resp,
      handleGet (fst (handlePut s r now)) g = Done resp /\
      Status resp = 200 /\
      Out resp = Body r /\
      lookup (Hdr resp) "ETag" = props.etag_of (Body r) /\
      lookup (Hdr resp) "x-amz-version-id"
        = lookup (Hdr (snd (handlePut s r now))) "x-amz-version-id" /\
      lookup (Hdr resp) "Content-Length" = gostd.itoa (gostd.len (Body r)).
Proof.
  intros Hc s r g now bucket key Hp Hidem H200 Hnf Hne Hown Hpath Huser Hvid Him Hinm Hrange.
  apply (put_then_get s r g now bucket key); try assumption.
  rewrite Huser.
  destruct (db.EnsureBucket (db_ s) bucket (UserID r) now) as [d x] eqn:He.
  exact (EnsureBucket_owned _ _ _ _ _ _ He Hne Hown).
Qed.

Lemma put_then_get_returns_the_body_witness :
  let r := scenario.put "/b/k" "hello" [] in
  let g := scenario.get "/b/k" [] [] in
  exists resp,
    handleGet (fst (handlePut scenario.fresh r 1000)) g = Done resp /\
    Status resp = 200 /\
    Out resp = Body r /\
    lookup (Hdr resp) "ETag" = props.etag_of (Body r) /\
    lookup (Hdr resp) "x-amz-version-id"
      = lookup (Hdr (snd (handlePut scenario.fresh r 1000))) "x-amz-version-id" /\
    lookup (Hdr resp) "Content-Length" = gostd.itoa (gostd.len (Body r)).
Proof.
  cbv zeta.
  apply (@put_then_get_returns_the_body go_crypto scenario.fresh
           (scenario.put "/b/k" "hello" []) (scenario.get "/b/k" [] []) 1000 "b" "k").
  - reflexivity.
  - left. reflexivity.
  - vm_compute. reflexivity.
  - reflexivity.
  - discriminate.
  - intros b Hb. discriminate Hb.
  - reflexivity.
  - reflexivity.
  - reflexivity.
  - reflexivity.
  - reflexivity.
  - reflexivity.
Defined.
Lemma SetHead_GetHead (d : db.DB) (bid : Z) (key vid : string) (v : db.ObjectVersion.t) :
  existsb (db.obj_is bid key) (db.objects d) = true ->
  find (db.ver_is vid) (db.object_versions d) = Some v ->
  exists d',
    db.SetHeadVersionTx d bid key vid = inl d' /\
    db.GetHeadVersionTx d' bid key = inl v /\
    db.object_versions d' = db.object_versions d /\
    db.blobs d' = db.blobs d /\ db.buckets d' = db.buckets d /\
    map (fun o => (db.Object.BucketID o, db.Object.Key o)) (db.objects d')
      = map (fun o => (db.Object.BucketID o, db.Object.Key o)) (db.objects d).
Proof.
  intros Hobj Hv. unfold db.SetHeadVersionTx. eexists. split; [reflexivity|].
  split; [|split; [reflexivity|split; [reflexivity|split; [reflexivity|]]]].
  - unfold db.GetHeadVersionTx. cbn [db.objects db.with_objects].
    rewrite find_map_update by (intros x Hx; exact Hx).
    destruct (existsb_find _ _ Hobj) as (o & Ho & _). rewrite Ho. cbn.
    unfold db.GetVersionTx. cbn [db.object_versions db.with_objects]. now rewrite Hv.
  - cbn [db.objects db.with_objects]. rewrite map_map. apply map_ext.
    intros o. destruct (db.obj_is bid key o); reflexivity.
Qed.

(** DELETE without a versionId.  On a bucket of the caller, when the id the
    transaction draws names no version yet: the answer is 204 with that id;
    a delete-marker with it is appended to the versions and is the head of
    the key; no version row, no blob record and no file is removed; and a
    GET of the path by the same caller, with no versionId, answers 404
    NoSuchKey from then on. *)
Theorem delete_puts_a_marker_on_top :
  forall (s : Server) (r g : Request) (now : Z) (bucket key : string) (bucketID : Z),
    parseBucketKey (Path r) = Some (bucket, key) ->
    db.BucketIDByName (db_ s) bucket (UserID r) = inl bucketID ->
    lookup (Query r) "versionId" = "" ->
    (forall v, In v (db.object_versions (db_ s)) ->
               db.ObjectVersion.VersionID v <> entropy s (drawn s)) ->
    Path g = Path r -> UserID g = UserID r -> lookup (Query g) "versionId" = "" ->
    let s' := fst (handleDelete s r now) in
    let resp := snd (handleDelete s r now) in
    let dm := db.ObjectVersion.mk (entropy s (drawn s)) bucketID key None None None None
                                  true now in
    Status resp = 204 /\
    lookup (Hdr resp) "x-amz-version-id" = entropy s (drawn s) /\
    db.object_versions (db_ s') = (db.object_versions (db_ s) ++ [dm])%list /\
    db.GetHeadVersionTx (db_ s') bucketID key = inl dm /\
    db.blobs (db_ s') = db.blobs (db_ s) /\
    storage_ s' = storage_ s /\
    handleGet s' g = Done (writeS3Error [] 404 "NoSuchKey" "The specified key does not exist.").
Proof.
  intros s r g now bucket key bucketID Hp Hb Hvid Hfresh Hpath Huser Hgvid. cbv zeta.
  unfold handleDelete. rewrite Hp, Hb, Hvid. unfold deleteTx_body.
  destruct (Lock_total (db_ s) bucketID key now) as [d1 Hd1]. rewrite Hd1.
  destruct (Lock_versions _ _ _ _ _ Hd1) as (Hve1 & Hbl1 & _ & Hbu1).
  pose proof (Lock_exists _ _ _ _ _ Hd1) as Hex1.
  cbn [String.eqb]. unfold GenVersionID, genHex. cbv beta iota zeta.
  cbn [db_ storage_ entropy drawn set_db].
  set (dm := db.ObjectVersion.mk (entropy s (drawn s)) bucketID key None None None None
                                 true now).
  unfold db.CreateDeleteMarkerTx, db.create_version. fold dm.
  assert (Hnew : existsb (db.ver_is (db.ObjectVersion.VersionID dm)) (db.object_versions d1)
                 = false).
  { rewrite Hve1. apply not_true_is_false. intros E.
    apply existsb_exists in E. destruct E as (x & Hx & Hxv).
    unfold db.ver_is in Hxv. apply String.eqb_eq in Hxv. now apply Hfresh in Hx. }
  rewrite Hnew.
  assert (Hobj : existsb (db.obj_is bucketID key)
                   (db.objects (db.with_versions d1 (db.object_versions d1 ++ [dm])%list))
                 = true) by exact Hex1.
  assert (Hfind : find (db.ver_is (entropy s (drawn s)))
                    (db.object_versions
                       (db.with_versions d1 (db.object_versions d1 ++ [dm])%list))
                  = Some dm) by exact (find_ver_fresh _ dm Hnew).
  destruct (SetHead_GetHead _ _ _ _ _ Hobj Hfind) as (d2 & Hset & Hhead & Hve2 & Hbl2 & Hbu2 & _).
  rewrite Hset. cbn [del_status returnVersion fst snd Status Hdr db_ storage_ set_db].
  change (204 =? 404) with false. cbv iota. cbn [fst snd Status Hdr db_ storage_ set_db].
  split; [reflexivity|]. split; [apply lookup_hset_eq|].
  split; [rewrite Hve2; cbn; now rewrite Hve1|].
  split; [exact Hhead|]. split; [rewrite Hbl2; exact Hbl1|]. split; [reflexivity|].
  unfold handleGet. rewrite Hpath, Hp, Huser. cbn [db_].
  rewrite (BucketIDByName_of_buckets (db_ s) d2) by (rewrite Hbu2; exact Hbu1).
  rewrite Hb. cbv zeta. rewrite Hgvid. cbn [String.eqb db_ set_db]. rewrite Hhead. reflexivity.
Qed.

Lemma delete_puts_a_marker_on_top_witness :
  let s := fst (handlePut scenario.fresh (scenario.put "/b/k" "hello" []) 1000) in
  let r := scenario.delete "/b/k" [] in
  let g := scenario.get "/b/k" [] [] in
  let s' := fst (handleDelete s r 2000) in
  let resp := snd (handleDelete s r 2000) in
  let dm := db.ObjectVersion.mk (entropy s (drawn s)) 1 "k" None None None None true 2000 in
  Status resp = 204 /\
  lookup (Hdr resp) "x-amz-version-id" = entropy s (drawn s) /\
  db.object_versions (db_ s') = (db.object_versions (db_ s) ++ [dm])%list /\
  db.GetHeadVersionTx (db_ s') 1 "k" = inl dm /\
  db.blobs (db_ s') = db.blobs (db_ s) /\
  storage_ s' = storage_ s /\
  handleGet s' g = Done (writeS3Error [] 404 "NoSuchKey" "The specified key does not exist.").
Proof.
  apply (delete_puts_a_marker_on_top
           (fst (handlePut scenario.fresh (scenario.put "/b/k" "hello" []) 1000))
           (scenario.delete "/b/k" []) (scenario.get "/b/k" [] []) 2000 "b" "k" 1).
  - reflexivity.
  - vm_compute. reflexivity.
  - reflexivity.
  - intros v Hv. vm_compute in Hv. destruct Hv as [<-|[]]. vm_compute. discriminate.
  - reflexivity.
  - reflexivity.
  - reflexivity.
Defined.
Lemma find_name_owner (l : list db.Bucket.t) (name : string) (b : db.Bucket.t) :
  find (fun b => String.eqb (db.Bucket.Name b) name) l = Some b ->
  find (fun x => andb (String.eqb (db.Bucket.Name x) name)
                      (db.Bucket.OwnerID x =? db.Bucket.OwnerID b)) l = Some b.
Proof.
  induction l as [|a l IH]; simpl; intros Hf; [discriminate|].
  destruct (String.eqb (db.Bucket.Name a) name) eqn:En.
  - inversion Hf; subst a. now rewrite Z.eqb_refl.
  - simpl. now apply IH.
Qed.

Lemma filter_none {A : Type} (f : A -> bool) (l : list A) :
  Forall (fun x => f x = false) l -> filter f l = [].
Proof.
  induction 1 as [|a l Ha _ IH]; simpl; [reflexivity|]. now rewrite Ha.
Qed.

Lemma putTx_store_commits (s : Server) (bid : Z)
    (key idem checksum etag ctype newBlobID : string) (size now : Z) :
  (forall b, In b (db.blobs (db_ s)) ->
             db.Blob.ID b <> newBlobID /\ db.Blob.Checksum b <> checksum) ->
  (forall v, In v (db.object_versions (db_ s)) ->
             db.ObjectVersion.VersionID v <> entropy s (drawn s)) ->
  tx_err (putTx_store s bid key idem checksum etag ctype newBlobID size now) = None /\
  db.FindBlobByChecksumTx (db_ s) checksum = inr db.ErrNotFound.
Proof.
  intros Hb Hv.
  assert (Hnf : db.FindBlobByChecksumTx (db_ s) checksum = inr db.ErrNotFound).
  { unfold db.FindBlobByChecksumTx. rewrite filter_none; [reflexivity|].
    apply Forall_forall. intros b Hin. destruct (Hb b Hin) as [_ Hc].
    apply String.eqb_neq in Hc. now rewrite Hc. }
  split; [|exact Hnf]. unfold putTx_store. rewrite Hnf. unfold db.ReserveBlobPendingTx.
  assert (Hex : existsb (fun b => orb (db.blob_is newBlobID b)
                                      (String.eqb (db.Blob.Checksum b) checksum))
                        (db.blobs (db_ s)) = false).
  { apply not_true_is_false. intros E. apply existsb_exists in E.
    destruct E as (b & Hin & Hor). destruct (Hb b Hin) as [Hi Hc].
    apply orb_true_iff in Hor. destruct Hor as [E|E];
      [unfold db.blob_is in E|]; apply String.eqb_eq in E; contradiction. }
  rewrite Hex. unfold db.MarkBlobReadyTx, putTx_version, GenVersionID, genHex.
  cbn [db_ set_db storage_ entropy drawn].
  unfold db.InsertObjectVersionTx, db.create_version.
  cbn [db.ObjectVersion.VersionID db.object_versions db.with_blobs].
  assert (Hfresh : existsb (db.ver_is (entropy s (drawn s))) (db.object_versions (db_ s))
                   = false).
  { apply not_true_is_false. intros E. apply existsb_exists in E.
    destruct E as (v & Hin & Hvid). unfold db.ver_is in Hvid.
    apply String.eqb_eq in Hvid. exact (Hv v Hin Hvid). }
  rewrite Hfresh. unfold db.UpsertObjectTx.
  match goal with |- context [if ?c then _ else _] => destruct c end; reflexivity.
Qed.

(** A PUT whose declared length and content hash fit the body, that is no
    replay, whose checksum no blob has and whose two identifiers are new
    answers 200. *)
Lemma handlePut_answers_200 `{Crypto} (s : Server) (r : Request) (now : Z)
    (bucket key : string) :
  parseBucketKey (Path r) = Some (bucket, key) ->
  (lookup (Header r) "X-Idempotency-Key" = "" \/
   db.GetIdempotencyTx (db_ s) (props.bucket_id (db_ s) bucket) key
     (lookup (Header r) "X-Idempotency-Key") = inr db.ErrNotFound) ->
  (ContentLength r < 0 \/ ContentLength r = gostd.len (Body r)) ->
  (lookup (Header r) "x-amz-content-sha256" = "" \/
   lookup (Header r) "x-amz-content-sha256" = gostd.hex_encode (sha256_Sum (Body r)) \/
   lookup (Header r) "x-amz-content-sha256" = "UNSIGNED-PAYLOAD") ->
  (forall b, In b (db.blobs (db_ s)) ->
             db.Blob.ID b <> entropy s (drawn s) /\
             db.Blob.Checksum b <> props.checksum_of (Body r)) ->
  (forall v, In v (db.object_versions (db_ s)) ->
             db.ObjectVersion.VersionID v <> entropy s (S (drawn s))) ->
  Status (snd (handlePut s r now)) = 200 /\
  db.FindBlobByChecksumTx (db_ s) (props.checksum_of (Body r)) = inr db.ErrNotFound.
Proof.
  intros Hp Hidem Hcl Hsha Hblobs Hvers.
  unfold handlePut. rewrite Hp.
  destruct (EnsureBucket_spec (db_ s) bucket (UserID r) now)
    as (d & He & Hbl & Hob & Hve & Hik & _ & _ & Hbid).
  rewrite He. cbv zeta. unfold GenBlobID, genHex.
  cbn [db_ storage_ entropy drawn set_db set_storage].
  assert (Hlen : andb (0 <=? ContentLength r) (negb (gostd.len (Body r) =? ContentLength r))
                 = false).
  { destruct Hcl as [Hneg|Heq].
    - apply Z.leb_gt in Hneg. now rewrite Hneg.
    - rewrite Heq, Z.eqb_refl. apply andb_false_r. }
  rewrite Hlen.
  assert (Hwant : andb (andb (negb (String.eqb (lookup (Header r) "x-amz-content-sha256") ""))
                             (negb (String.eqb (lookup (Header r) "x-amz-content-sha256")
                                               (gostd.hex_encode (sha256_Sum (Body r))))))
                       (negb (String.eqb (lookup (Header r) "x-amz-content-sha256")
                                         "UNSIGNED-PAYLOAD")) = false).
  { destruct Hsha as [ -> | [ -> | -> ] ].
    - reflexivity.
    - rewrite String.eqb_refl. cbn [negb]. now rewrite andb_false_r.
    - rewrite (String.eqb_refl "UNSIGNED-PAYLOAD"). apply andb_false_r. }
  rewrite Hwant.
  fold (props.checksum_of (Body r)). fold (props.etag_of (Body r)).
  set (idem := lookup (Header r) "X-Idempotency-Key") in *.
  set (bid := props.bucket_id (db_ s) bucket) in *.
  set (ctype := if String.eqb (lookup (Header r) "Content-Type") ""
                then "application/octet-stream" else lookup (Header r) "Content-Type").
  set (s0 := set_storage {| db_ := d; storage_ := storage_ s;
                            entropy := entropy s; drawn := S (drawn s) |}
                         (storage.Put (storage_ s) (entropy s (drawn s)) (Body r))).
  assert (Hs0 : db_ s0 = d) by reflexivity.
  unfold putTx_body.
  destruct (Lock_total (db_ s0) bid key now) as [d1 Hd1]. rewrite Hd1.
  destruct (Lock_versions _ _ _ _ _ Hd1) as (Hve1 & Hbl1 & Hik1 & Hbu1).
  pose proof (Lock_exists _ _ _ _ _ Hd1) as Hex1.
  cbv zeta.
  assert (Hidem1 : idem = "" \/
            db.GetIdempotencyTx (db_ (set_db s0 d1)) bid key idem = inr db.ErrNotFound).
  { destruct Hidem as [Hi|Hi]; [now left|right].
    unfold db.GetIdempotencyTx in *. cbn [db_ set_db]. rewrite Hik1, Hs0.
    now rewrite Hik. }
  set (t := putTx_store (set_db s0 d1) bid key idem (props.checksum_of (Body r))
              (props.etag_of (Body r)) ctype (entropy s (drawn s)) (gostd.len (Body r)) now).
  assert (Hprobe :
    match (if negb (String.eqb idem "")
           then Some (db.GetIdempotencyTx (db_ (set_db s0 d1)) bid key idem) else None) with
    | Some (inl (verID, e)) => mkPutTx None (set_db s0 d1) (mkPutResult verID e "" 0 200) true false
    | Some (inr db.ErrNotFound) | None => t
    | Some (inr e) => mkPutTx (Some e) (set_db s0 d1) no_res true false
    end = t).
  { destruct Hidem1 as [ -> | Hnf ]; [reflexivity|].
    rewrite Hnf. destruct (negb (String.eqb idem "")); reflexivity. }
  rewrite Hprobe. clear Hprobe.
  assert (Hblobs1 : forall b, In b (db.blobs (db_ (set_db s0 d1))) ->
                      db.Blob.ID b <> entropy s (drawn s) /\
                      db.Blob.Checksum b <> props.checksum_of (Body r)).
  { cbn [db_ set_db]. rewrite Hbl1, Hs0, Hbl. exact Hblobs. }
  assert (Hvers1 : forall v, In v (db.object_versions (db_ (set_db s0 d1))) ->
                      db.ObjectVersion.VersionID v
                      <> entropy (set_db s0 d1) (drawn (set_db s0 d1))).
  { cbn [db_ set_db entropy drawn]. rewrite Hve1, Hs0, Hve. exact Hvers. }
  destruct (putTx_store_commits (set_db s0 d1) bid key idem (props.checksum_of (Body r))
              (props.etag_of (Body r)) ctype (entropy s (drawn s)) (gostd.len (Body r)) now
              Hblobs1 Hvers1) as [Herr Hnf1].
  fold t in Herr. rewrite Herr.
  destruct (putTx_store_ok (set_db s0 d1) bid key idem _ _ ctype _ _ now Hex1 Hidem1 Herr)
    as (b & Hok).
  fold t in Hok. cbv zeta in Hok.
  destruct Hok as (_ & _ & Hres & _).
  rewrite Hres. cbn [res_versionID res_status]. split.
  - destruct (negb (String.eqb (entropy (set_db s0 d1) (drawn (set_db s0 d1))) ""));
      reflexivity.
  - unfold db.FindBlobByChecksumTx in *. cbn [db_ set_db] in Hnf1.
    rewrite Hbl1, Hs0, Hbl in Hnf1. exact Hnf1.
Qed.

(** PUT does not look at who owns the bucket.  [EnsureBucket] finds the
    bucket by its name alone.  Take a PUT into a bucket that another user
    owns, by a caller who has no bucket of that name; let its declared
    length and content hash fit the body, let it be no idempotent replay,
    let no blob have the checksum of the body and let the two identifiers
    it draws be new.  Then the PUT answers 200 like any other and its
    version is a row of the owner's bucket; the caller's own GET of the
    path then answers 404 NoSuchBucket, and the owner's GET (no versionId,
    no conditional or Range header) serves the caller's bytes. *)
Theorem put_does_not_check_the_bucket_owner :
  forall `{Crypto} (s : Server) (r g_caller g_owner : Request) (now : Z)
         (bucket key : string) (b : db.Bucket.t),
    parseBucketKey (Path r) = Some (bucket, key) ->
    (lookup (Header r) "X-Idempotency-Key" = "" \/
     db.GetIdempotencyTx (db_ s) (props.bucket_id (db_ s) bucket) key
       (lookup (Header r) "X-Idempotency-Key") = inr db.ErrNotFound) ->
    (ContentLength r < 0 \/ ContentLength r = gostd.len (Body r)) ->
    (lookup (Header r) "x-amz-content-sha256" = "" \/
     lookup (Header r) "x-amz-content-sha256" = gostd.hex_encode (sha256_Sum (Body r)) \/
     lookup (Header r) "x-amz-content-sha256" = "UNSIGNED-PAYLOAD") ->
    (forall x, In x (db.blobs (db_ s)) ->
               db.Blob.ID x <> entropy s (drawn s) /\
               db.Blob.Checksum x <> props.checksum_of (Body r)) ->
    (forall v, In v (db.object_versions (db_ s)) ->
               db.ObjectVersion.VersionID v <> entropy s (S (drawn s))) ->
    find (fun b => String.eqb (db.Bucket.Name b) bucket) (db.buckets (db_ s)) = Some b ->
    db.Bucket.OwnerID b <> 0 ->
    db.BucketIDByName (db_ s) bucket (UserID r) = inr db.ErrNotFound ->
    Path g_caller = Path r -> UserID g_caller = UserID r ->
    Path g_owner = Path r -> UserID g_owner = db.Bucket.OwnerID b ->
    lookup (Query g_owner) "versionId" = "" ->
    lookup (Header g_owner) "If-Match" = "" -> lookup (Header g_owner) "If-None-Match" = "" ->
    lookup (Header g_owner) "Range" = "" ->
    let s' := fst (handlePut s r now) in
    Status (snd (handlePut s r now)) = 200 /\
    (exists v, In v (db.object_versions (db_ s')) /\
               db.ObjectVersion.BucketID v = db.Bucket.ID b /\
               db.ObjectVersion.Key v = key /\
               db.ObjectVersion.VersionID v
                 = lookup (Hdr (snd (handlePut s r now))) "x-amz-version-id") /\
    handleGet s' g_caller
      = Done (writeS3Error [] 404 "NoSuchBucket" "The specified bucket does not exist.") /\
    (exists resp, handleGet s' g_owner = Done resp /\ Status resp = 200 /\ Out resp = Body r).
Proof.
  intros Hc s r gc gow now bucket key b Hp Hidem Hcl Hsha Hblobs Hvers Hfind Hown Hmine
         Hpc Huc Hpo Huo Hvid Him Hinm Hrange. cbv zeta.
  destruct (handlePut_answers_200 s r now bucket key Hp Hidem Hcl Hsha Hblobs Hvers)
    as [H200 Hnf].
  split; [exact H200|].
  assert (Hbid : props.bucket_id (db_ s) bucket = db.Bucket.ID b)
    by (unfold props.bucket_id; now rewrite Hfind).
  assert (He : db.EnsureBucket (db_ s) bucket (UserID r) now = (db_ s, inl (db.Bucket.ID b))).
  { unfold db.EnsureBucket. rewrite Hfind.
    apply Z.eqb_neq in Hown. rewrite Hown. reflexivity. }
  destruct (put_creates s r now bucket key Hp Hidem H200)
    as (v & b0 & Hv & _ & Hver & _ & Hvb & Hvk & _).
  destruct (handlePut_commits s r now bucket key Hp Hidem H200)
    as (d & d1 & He' & Hd1 & Hok).
  rewrite He in He'. inversion He'; subst d. clear He'.
  cbv zeta in Hok. destruct Hok as (Hidem1 & Herr & Hfst & _).
  destruct (Lock_versions _ _ _ _ _ Hd1) as (_ & _ & _ & Hbu1).
  split; [|split].
  - exists v. split; [rewrite Hv; apply in_or_app; right; now left|].
    rewrite Hvb, Hvk, Hver, Hbid. auto.
  - assert (Hbu : db.buckets (db_ (fst (handlePut s r now))) = db.buckets (db_ s)).
    { rewrite Hfst.
      match type of Herr with tx_err (putTx_store ?s1 _ _ _ _ _ _ _ _ _) = None =>
        set (s0 := s1) in * end.
      assert (Hex0 : existsb (db.obj_is (props.bucket_id (db_ s) bucket) key)
                             (db.objects (db_ s0)) = true)
        by exact (Lock_exists _ _ _ _ _ Hd1).
      destruct (putTx_store_ok s0 _ _ _ _ _ _ _ _ _ Hex0 Hidem1 Herr) as (b' & Hst).
      cbv zeta in Hst. destruct Hst as (_ & _ & _ & _ & _ & _ & Hbu & _).
      rewrite Hbu. exact Hbu1. }
    unfold handleGet. rewrite Hpc, Hp, Huc.
    rewrite (BucketIDByName_of_buckets (db_ s) _ _ _ Hbu), Hmine. reflexivity.
  - destruct (put_then_get s r gow now bucket key Hp Hidem H200 Hnf) as (resp & Hg & Hs & Ho & _);
      try assumption.
    + rewrite He, Huo, Hbid. cbn [fst]. unfold db.BucketIDByName.
      now rewrite (find_name_owner _ _ _ Hfind).
    + exists resp. auto.
Qed.

Lemma put_does_not_check_the_bucket_owner_witness :
  let s := fst (handlePut scenario.fresh (scenario.put "/b/k" "hello" []) 1000) in
  let r := mkRequest "PUT" "/b/mine" [] [] 5 "other" 2 in
  let g_caller := mkRequest "GET" "/b/mine" [] [] 0 "" 2 in
  let g_owner := mkRequest "GET" "/b/mine" [] [] 0 "" 1 in
  let s' := fst (handlePut s r 2000) in
  Status (snd (handlePut s r 2000)) = 200 /\
  (exists v, In v (db.object_versions (db_ s')) /\
             db.ObjectVersion.BucketID v = 1 /\
             db.ObjectVersion.Key v = "mine" /\
             db.ObjectVersion.VersionID v
               = lookup (Hdr (snd (handlePut s r 2000))) "x-amz-version-id") /\
  handleGet s' g_caller
    = Done (writeS3Error [] 404 "NoSuchBucket" "The specified bucket does not exist.") /\
  (exists resp, handleGet s' g_owner = Done resp /\ Status resp = 200 /\ Out resp = "other").
Proof.
  cbv zeta.
  apply (@put_does_not_check_the_bucket_owner go_crypto
           (fst (handlePut scenario.fresh (scenario.put "/b/k" "hello" []) 1000))
           (mkRequest "PUT" "/b/mine" [] [] 5 "other" 2)
           (mkRequest "GET" "/b/mine" [] [] 0 "" 2)
           (mkRequest "GET" "/b/mine" [] [] 0 "" 1)
           2000 "b" "mine" (db.Bucket.mk 1 "b" 1 1000)).
  - reflexivity.
  - left. reflexivity.
  - right. reflexivity.
  - left. reflexivity.
  - intros x Hx. vm_compute in Hx. destruct Hx as [<-|[]].
    split; vm_compute; discriminate.
  - intros v Hv. vm_compute in Hv. destruct Hv as [<-|[]]. vm_compute. discriminate.
  - vm_compute. reflexivity.
  - discriminate.
  - vm_compute. reflexivity.
  - reflexivity.
  - reflexivity.
  - reflexivity.
  - reflexivity.
  - reflexivity.
  - reflexivity.
  - reflexivity.
  - reflexivity.
Defined.




(** Whatever its outcome, a PUT removes no version row, appends at most
    one, and leaves every checksum that found a ready blob finding the same
    blob: later PUTs of those bytes still dedup onto it. *)
Theorem put_keeps_versions_and_blobs :
  forall `{Crypto} (s : Server) (r : Request) (now : Z),
    (exists added, db.object_versions (db_ (fst (handlePut s r now)))
                   = (db.object_versions (db_ s) ++ added)%list /\
                   (List.length added <= 1)%nat) /\
    (forall c b, db.FindBlobByChecksumTx (db_ s) c = inl b ->
                 db.FindBlobByChecksumTx (db_ (fst (handlePut s r now))) c = inl b).
Proof.
  intros Hc s r now. destruct (handlePut_frame s r now) as [[Hv|[v Hv]] Hb].
  - split; [|exact Hb]. exists []. rewrite Hv, app_nil_r. split; [reflexivity|]. cbn. lia.
  - split; [|exact Hb]. exists [v]. split; [exact Hv|]. cbn. lia.
Qed.

(** DELETE /{bucket} of a bucket of the caller that still has an Object row
    or a version row: the answer is 409 BucketNotEmpty and nothing is
    changed. *)
Theorem delete_bucket_with_rows_answers_409 :
  forall (s : Server) (r : Request) (bucket : string) (id : Z),
    bucket <> "" ->
    db.BucketIDByName (db_ s) bucket (UserID r) = inl id ->
    (exists o, In o (db.objects (db_ s)) /\ db.Object.BucketID o = id) \/
    (exists v, In v (db.object_versions (db_ s)) /\ db.ObjectVersion.BucketID v = id) ->
    handleDeleteBucket s r bucket
      = (s, writeS3Error [] 409 "BucketNotEmpty" "The bucket you tried to delete is not empty.").
Proof.
  intros s r bucket id Hne Hid Hrows.
  unfold handleDeleteBucket.
  destruct (String.eqb_spec bucket ""); [contradiction|].
  rewrite Hid. unfold db.DeleteBucketIfEmpty.
  assert (Hpos : forall (A : Type) (f : A -> bool) (l : list A) (x : A),
            In x l -> f x = true -> (0 <? Z.of_nat (List.length (filter f l))) = true).
  { intros A f l x Hin Hf. apply Z.ltb_lt.
    assert (Hx : In x (filter f l)) by (apply filter_In; now split).
    destruct (filter f l); [contradiction|]. cbn [List.length]. lia. }
  destruct (0 <? Z.of_nat (List.length (filter (fun o => db.Object.BucketID o =? id)
                                               (db.objects (db_ s))))) eqn:Eo;
    [reflexivity|].
  destruct Hrows as [(o & Hin & Ho)|(v & Hin & Hv)].
  - rewrite (Hpos _ (fun o => db.Object.BucketID o =? id) _ o Hin) in Eo;
      [discriminate Eo|now apply Z.eqb_eq].
  - rewrite (Hpos _ (fun v => db.ObjectVersion.BucketID v =? id) _ v Hin);
      [reflexivity|now apply Z.eqb_eq].
Qed.

Lemma delete_bucket_with_rows_answers_409_witness :
  let s := fst (handlePut scenario.fresh (scenario.put "/b/k" "hello" []) 1000) in
  handleDeleteBucket s (scenario.delete "/b" []) "b"
    = (s, writeS3Error [] 409 "BucketNotEmpty" "The bucket you tried to delete is not empty.").
Proof.
  apply (delete_bucket_with_rows_answers_409
           (fst (handlePut scenario.fresh (scenario.put "/b/k" "hello" []) 1000))
           (scenario.delete "/b" []) "b" 1).
  - discriminate.
  - vm_compute. reflexivity.
  - left. eexists. split; [vm_compute; left; reflexivity|reflexivity].
Defined.

Lemma expire_current_threshold_is_not_read_witness :
  onePass_rule scenario.worker scenario.one_bucket
    (db.LifecycleRule.mk 1 1 "" true (Some 1) None None (Some 30) 0 0) 1000 =
  onePass_rule scenario.worker scenario.one_bucket
    (db.LifecycleRule.mk 1 1 "" true (Some 365) None None (Some 30) 0 0) 1000.
Proof.
  apply (expire_current_threshold_is_not_read scenario.worker scenario.one_bucket
           1000 1 1 "" 1 365 30 None None 0 0); lia.
Defined.

Lemma Since_cases (now : Z) (t : auth.Time) :
  let d := (now - auth.Unix t) * auth.Second - auth.Nanosecond t in
  (d < - 2 ^ 63 /\ auth.Since now t = - 2 ^ 63) \/
  (2 ^ 63 - 1 < d /\ auth.Since now t = 2 ^ 63 - 1) \/
  (- 2 ^ 63 <= d <= 2 ^ 63 - 1 /\ auth.Since now t = d).
Proof.
  unfold auth.Since, auth.Sub, auth.minDuration, auth.maxDuration.
  cbn [auth.Unix auth.Nanosecond]. cbv zeta.
  replace ((now - auth.Unix t) * auth.Second + (0 - auth.Nanosecond t))
    with ((now - auth.Unix t) * auth.Second - auth.Nanosecond t) by ring.
  set (d := (now - auth.Unix t) * auth.Second - auth.Nanosecond t).
  destruct (d <? - 2 ^ 63) eqn:E1; [apply Z.ltb_lt in E1; now left|].
  apply Z.ltb_ge in E1.
  destruct (2 ^ 63 - 1 <? d) eqn:E2; [apply Z.ltb_lt in E2; right; now left|].
  apply Z.ltb_ge in E2. right. right. auto.
Qed.

Lemma wrap64_min : gostd.wrap64 (- - 2 ^ 63) = - 2 ^ 63.
Proof. reflexivity. Qed.

(** The skew check of [VerifySigV4], read on the true distance [d] between
    the clock and the request time. *)
Lemma skew_within (now : Z) (t : auth.Time) (M : Z) :
  (if auth.Since now t <? 0 then gostd.wrap64 (- auth.Since now t) else auth.Since now t) <= M ->
  let d := (now - auth.Unix t) * auth.Second - auth.Nanosecond t in
  Z.abs d <= M \/ d <= - 2 ^ 63 \/ 2 ^ 63 - 1 <= M.
Proof.
  cbv zeta. intros Hs.
  destruct (Since_cases now t) as [[Hd Hv]|[[Hd Hv]|[Hd Hv]]]; cbv zeta in Hd, Hv;
    rewrite Hv in Hs.
  - right. left. lia.
  - change (2 ^ 63 - 1 <? 0) with false in Hs. cbv iota in Hs. right. right. exact Hs.
  - set (d := (now - auth.Unix t) * auth.Second - auth.Nanosecond t) in *.
    destruct (d <? 0) eqn:E; [apply Z.ltb_lt in E|apply Z.ltb_ge in E].
    + destruct (Z.eq_dec d (- 2 ^ 63)) as [->|Hne]; [right; left; lia|].
      rewrite wrap64_id in Hs by lia. left. lia.
    + left. lia.
Qed.

(** What [VerifySigV4] accepts: a result comes with a nil error, for an
    access key whose secret the provider found; and, when a positive skew
    is set, the request time is within that skew of the clock, or so far
    ahead of the clock that the distance is no [Duration] (2^63 nanoseconds
    or more, about 292 years): there [time.Since] gives the smallest
    [Duration], its negation is the smallest again, and the check lets the
    request pass.  (A skew that is the largest [Duration] rejects nothing.) *)
Theorem VerifySigV4_accepts_within_skew_or_far_ahead :
  forall `{Crypto} (C : Type) `{auth.CredentialsProvider C}
         (r : auth.Request) (cred : C) (opts : auth.VerifyOptions) (now : Z)
         (res : auth.Result) (e : option auth.error),
    auth.VerifySigV4 r cred opts now = (Some res, e) ->
    let d := (now - auth.Unix (auth.AmzDate res)) * auth.Second
             - auth.Nanosecond (auth.AmzDate res) in
    e = None /\
    (exists secret, auth.LookupSecret cred (auth.AccessKeyID res) = inl secret) /\
    (auth.MaxSkew opts <= 0 \/ Z.abs d <= auth.MaxSkew opts \/ d <= - 2 ^ 63 \/
     2 ^ 63 - 1 <= auth.MaxSkew opts).
Proof.
  intros Hc C Hp r cred opts now res e. unfold auth.VerifySigV4.
  repeat match goal with
         | |- context [if ?b then _ else _] =>
             match b with
             | context [if _ then _ else _] => fail 1
             | _ => destruct b eqn:?
             end
         | |- context [match ?x with _ => _ end] =>
             match x with
             | context [match _ with _ => _ end] => fail 1
             | _ => destruct x eqn:?
             end
         end; cbv zeta; intros Hr; try discriminate Hr.
  all: inversion Hr; subst; cbn [auth.AccessKeyID auth.AmzDate].
  all: split; [reflexivity|]; split; [eexists; eassumption|].
  all: match goal with
       | Hs : andb (0 <? _) (_ <? _) = false |- _ =>
           apply andb_false_iff in Hs; destruct Hs as [Hs|Hs]; apply Z.ltb_ge in Hs;
             [left; exact Hs|right]
       end.
  all: match goal with
       | |- context [auth.Unix ?t] => apply (skew_within now t)
       end.
  all: match goal with
       | E : (auth.Since _ _ <? 0) = _ |- _ => rewrite E; assumption
       end.
Qed.

Lemma VerifySigV4_accepts_within_skew_or_far_ahead_witness :
  let res := auth.mkResult "AKIA" ["host"; "x-amz-date"] (auth.mkTime 1793361600 0)
                           "us-east-1" "20261030" in
  let opts := auth.mkVerifyOptions (15 * auth.Minute) true "s3" in
  let d := (1793361900 - auth.Unix (auth.AmzDate res)) * auth.Second
           - auth.Nanosecond (auth.AmzDate res) in
  @None auth.error = None /\
  (exists secret, auth.LookupSecret (mkCredProvider (db_ scenario.with_user))
                                    (auth.AccessKeyID res) = inl secret) /\
  (auth.MaxSkew opts <= 0 \/ Z.abs d <= auth.MaxSkew opts \/ d <= - 2 ^ 63 \/
   2 ^ 63 - 1 <= auth.MaxSkew opts).
Proof.
  apply (@VerifySigV4_accepts_within_skew_or_far_ahead go_crypto credProvider _
           (scenario.signed "04b2c7c916309ea3a5328f66ff0c39de351b5a851b532c19a92345d924bd929b")
           (mkCredProvider (db_ scenario.with_user))
           (auth.mkVerifyOptions (15 * auth.Minute) true "s3")
           1793361900
           (auth.mkResult "AKIA" ["host"; "x-amz-date"] (auth.mkTime 1793361600 0)
                          "us-east-1" "20261030")
           None).
  vm_compute. reflexivity.
Defined.

(** The skew check on the clock of 2026-10-30 12:00:00 UTC with the 15
    minutes of the middleware: a request dated one hour ahead is refused
    whatever its signature, a request dated 2026-10-30 12:00:00.5 is read
    with its half second, and a correctly signed request dated 2400-01-01
    is accepted and reaches the handler as the user of the key. *)
Example VerifySigV4_on_dates_ahead :
  let cred := mkCredProvider (db_ scenario.with_user) in
  let opts := auth.mkVerifyOptions (15 * auth.Minute) true "s3" in
  let far := scenario.signed_at "24000101T000000Z"
               "0d5e34c26712dee650cc38e46d3297398be3c4e4b6e963fdb38d3dc31b314fe9" in
  auth.VerifySigV4 (scenario.signed_at "20261030T130000Z" "00") cred opts 1793361600
    = (None, Some auth.ErrSkewedDate) /\
  auth.parse_amz_date "20261030T120000.5Z" = Some (auth.mkTime 1793361600 500000000) /\
  auth.VerifySigV4 far cred opts 1793361600
    = (Some (auth.mkResult "AKIA" ["host"; "x-amz-date"] (auth.mkTime 13569465600 0)
                           "us-east-1" "20261030"), None) /\
  AuthMiddleware false scenario.with_user far 1793361600
                 (fun uid => Done (WriteHeader [] uid)) = Done (WriteHeader [] 7).
Proof. vm_compute. repeat split. Qed.

Lemma VerifySigV4_accepted_key `{Crypto} {C : Type} `{auth.CredentialsProvider C}
    (r : auth.Request) (cred : C) (opts : auth.VerifyOptions) (now : Z) (res : auth.Result) :
  auth.VerifySigV4 r cred opts now = (Some res, None) ->
  exists secret, auth.LookupSecret cred (auth.AccessKeyID res) = inl secret.
Proof.
  unfold auth.VerifySigV4.
  repeat match goal with
         | |- context [if ?b then _ else _] =>
             match b with
             | context [if _ then _ else _] => fail 1
             | _ => destruct b eqn:?
             end
         | |- context [match ?x with _ => _ end] =>
             match x with
             | context [match _ with _ => _ end] => fail 1
             | _ => destruct x eqn:?
             end
         end; cbv zeta; intros Hr; try discriminate Hr.
  all: inversion Hr; subst; cbn [auth.AccessKeyID]; eexists; eassumption.
Qed.

(** [AuthMiddleware] hands a request to the wrapped handler only on behalf
    of an active user of the database, whose access key the request was
    verified for, or, when unsigned requests are allowed and there is no
    Authorization header, on behalf of the anonymous caller 0.  Every other
    request ends in the 403 answer or in the nil dereference. *)
Theorem AuthMiddleware_guards_the_handler :
  forall `{Crypto} (allowNoSign : bool) (s : Server) (r : auth.Request) (now : Z)
         (next : Z -> outcome Response),
    (allowNoSign = true /\ auth.Header_Get r "Authorization" = "" /\
     AuthMiddleware allowNoSign s r now next = next 0) \/
    (exists u res,
       In u (db.users (db_ s)) /\ db.User.Status u = "active" /\
       auth.VerifySigV4 r (mkCredProvider (db_ s)) (auth.mkVerifyOptions (15 * auth.Minute) true "s3") now
         = (Some res, None) /\
       db.User.AccessKeyID u = auth.AccessKeyID res /\
       AuthMiddleware allowNoSign s r now next = next (db.User.ID u)) \/
    (exists msg, AuthMiddleware allowNoSign s r now next
                 = Done (writeS3Error [] 403 "SignatureDoesNotMatch" msg)) \/
    AuthMiddleware allowNoSign s r now next = Panics (WriteHeader [] 0).
Proof.
  intros Hc allowNoSign s r now next. unfold AuthMiddleware.
  destruct (andb allowNoSign (String.eqb (auth.Header_Get r "Authorization") "")) eqn:Ea.
  - left. apply andb_true_iff in Ea. destruct Ea as [-> Eh].
    apply String.eqb_eq in Eh. auto.
  - right.
    destruct (auth.VerifySigV4 r (mkCredProvider (db_ s))
                (auth.mkVerifyOptions (15 * auth.Minute) true "s3") now) as [[res|] [e|]] eqn:Ev.
    + right. left. eexists. reflexivity.
    + destruct (VerifySigV4_accepted_key r (mkCredProvider (db_ s)) _ now res Ev)
        as (secret & Hs).
      cbn in Hs. unfold db.FindUserByAccessKey in *.
      destruct (find _ (db.users (db_ s))) as [u|] eqn:Hf; [|discriminate Hs].
      left. exists u, res. apply find_some in Hf. destruct Hf as [Hin Hu].
      apply andb_true_iff in Hu. destruct Hu as [Hk Hst].
      apply String.eqb_eq in Hk, Hst. auto.
    + right. left. eexists. reflexivity.
    + right. right. reflexivity.
Qed.

Lemma filter_filter {A : Type} (f g : A -> bool) (l : list A) :
  filter f (filter g l) = filter (fun x => andb (g x) (f x)) l.
Proof.
  induction l as [|a l IH]; simpl; [reflexivity|].
  destruct (g a); simpl; [destruct (f a); now rewrite IH|exact IH].
Qed.

Lemma filter_nil_existsb {A : Type} (f : A -> bool) (l : list A) :
  (Z.of_nat (List.length (filter f l)) =? 0) = negb (existsb f l).
Proof.
  induction l as [|a l IH]; simpl; [reflexivity|].
  destruct (f a); simpl; [reflexivity|exact IH].
Qed.

(** The versioned branch of the DELETE transaction, up to the blob GC step:
    the blob table and the files are untouched, and the versions that refer
    to a blob are the old ones but the deleted one. *)
Lemma deleteTx_versioned_blobs (s : Server) (bucketID : Z) (key vid : string) (now : Z)
    (v : db.ObjectVersion.t) :
  vid <> "" -> db.GetVersionTx (db_ s) vid = inl v ->
  exists s2,
    deleteTx_body s bucketID key vid now
      = (None, gc_blob s2 (db.ObjectVersion.BlobID v), mkDelResult vid 204) /\
    db.blobs (db_ s2) = db.blobs (db_ s) /\ storage_ s2 = storage_ s /\
    forall b, filter (db.refers_to b) (db.object_versions (db_ s2))
              = filter (fun w => andb (negb (db.ver_is vid w)) (db.refers_to b w))
                       (db.object_versions (db_ s)).
Proof.
  intros Hne Hget. unfold deleteTx_body.
  destruct (Lock_total (db_ s) bucketID key now) as [d Hd]. rewrite Hd.
  destruct (Lock_versions _ _ _ _ _ Hd) as (Hv & Hbl & _).
  apply String.eqb_neq in Hne. rewrite Hne.
  assert (Hget' : db.GetVersionTx (db_ (set_db s d)) vid = inl v)
    by (unfold db.GetVersionTx in *; cbn [db_ set_db]; now rewrite Hv).
  rewrite Hget'. unfold db.DeleteVersionTx. rewrite Hne. cbv zeta.
  set (d1 := db.with_versions (db_ (set_db s d))
               (filter (fun v0 => negb (db.ver_is vid v0)) (db.object_versions (db_ (set_db s d))))).
  assert (Hd1v : db.object_versions d1
                 = filter (fun v0 => negb (db.ver_is vid v0)) (db.object_versions (db_ s)))
    by (unfold d1; cbn; now rewrite Hv).
  assert (Hd1b : db.blobs d1 = db.blobs (db_ s)) by (unfold d1; cbn; exact Hbl).
  clearbody d1.
  eexists. split; [reflexivity|].
  set (s1 := set_db (set_db s d) d1).
  assert (Hs1 : db_ s1 = d1) by reflexivity.
  assert (Hs1s : storage_ s1 = storage_ s) by reflexivity.
  assert (Hkeep : db.blobs (db_ s1) = db.blobs (db_ s) /\ storage_ s1 = storage_ s /\
            forall b, filter (db.refers_to b) (db.object_versions (db_ s1))
                      = filter (fun w => andb (negb (db.ver_is vid w)) (db.refers_to b w))
                               (db.object_versions (db_ s))).
  { rewrite Hs1, Hd1b, Hd1v. repeat split. intros b. apply filter_filter. }
  assert (Hmoved :
    let s2 := match db.GetPrevVersionTx (db_ s1) bucketID key vid with
              | inl prev =>
                  match db.SetHeadVersionTx (db_ s1) bucketID key
                          (db.ObjectVersion.VersionID prev) with
                  | inl d0 => set_db s1 d0
                  | inr _ => s1
                  end
              | inr _ =>
                  let '(dm, s0) := GenVersionID s1 in
                  let s0 := match db.CreateDeleteMarkerTx (db_ s0) bucketID key dm now with
                            | inl d0 => set_db s0 d0
                            | inr _ => s0
                            end in
                  match db.SetHeadVersionTx (db_ s0) bucketID key dm with
                  | inl d0 => set_db s0 d0
                  | inr _ => s0
                  end
              end in
    db.blobs (db_ s2) = db.blobs (db_ s) /\ storage_ s2 = storage_ s /\
    forall b, filter (db.refers_to b) (db.object_versions (db_ s2))
              = filter (fun w => andb (negb (db.ver_is vid w)) (db.refers_to b w))
                       (db.object_versions (db_ s))).
  { cbv zeta. destruct (db.GetPrevVersionTx (db_ s1) bucketID key vid) as [prev|e].
    - cbn. exact Hkeep.
    - unfold GenVersionID, genHex. cbv beta iota zeta.
      unfold db.CreateDeleteMarkerTx, db.create_version.
      match goal with |- context [existsb ?f ?l] => destruct (existsb f l) end.
      + cbn. exact Hkeep.
      + cbn. destruct Hkeep as (Hb & Hs & Hf). split; [exact Hb|]. split; [exact Hs|].
        intros b. rewrite filter_app, Hf. cbn. apply app_nil_r. }
  cbv zeta in Hmoved.
  destruct (db.GetHeadVersionTx (db_ s1) bucketID key) as [h|e].
  - destruct (String.eqb (db.ObjectVersion.VersionID h) vid).
    + exact Hmoved.
    + exact Hkeep.
  - exact Hmoved.
Qed.

(** DELETE with a versionId and the blob of the version.  The blob record
    and its file are removed exactly when no other version row refers to
    the blob; while another version shares it (a dedup), both stay. *)
Theorem versioned_delete_keeps_a_shared_blob :
  forall (s : Server) (r : Request) (now : Z) (bucket key : string) (bucketID : Z)
         (v : db.ObjectVersion.t) (blobID : string),
    parseBucketKey (Path r) = Some (bucket, key) ->
    db.BucketIDByName (db_ s) bucket (UserID r) = inl bucketID ->
    lookup (Query r) "versionId" <> "" ->
    db.GetVersionTx (db_ s) (lookup (Query r) "versionId") = inl v ->
    db.ObjectVersion.BlobID v = Some blobID -> blobID <> "" ->
    let s' := fst (handleDelete s r now) in
    Status (snd (handleDelete s r now)) = 204 /\
    if existsb (fun w => andb (negb (db.ver_is (lookup (Query r) "versionId") w))
                              (db.refers_to blobID w))
               (db.object_versions (db_ s))
    then db.blobs (db_ s') = db.blobs (db_ s) /\ storage_ s' = storage_ s
    else db.blobs (db_ s') = filter (fun b => negb (db.blob_is blobID b)) (db.blobs (db_ s)) /\
         storage_ s' = storage.Delete (storage_ s) blobID.
Proof.
  intros s r now bucket key bucketID v blobID Hp Hb Hvid Hget Hblob Hne. cbv zeta.
  unfold handleDelete. rewrite Hp, Hb.
  destruct (deleteTx_versioned_blobs s bucketID key _ now v Hvid Hget)
    as (s2 & Htx & Hbl & Hst & Hrefs).
  rewrite Htx. cbn [del_status returnVersion]. change (204 =? 404) with false. cbv iota.
  cbn [fst snd Status]. split; [reflexivity|].
  rewrite Hblob. unfold gc_blob, db.BlobRefCountFromVersionsTx.
  rewrite Hrefs, filter_nil_existsb.
  destruct (existsb _ (db.object_versions (db_ s))); cbn [negb].
  - auto.
  - unfold db.DeleteBlobRecordTx. apply String.eqb_neq in Hne. rewrite Hne.
    cbn. rewrite Hbl, Hst. auto.
Qed.

Lemma versioned_delete_keeps_a_shared_blob_witness :
  let s := fst (handlePut
                  (fst (handlePut scenario.fresh (scenario.put "/b/a" "X" []) 1000))
                  (scenario.put "/b/c" "X" []) 2000) in
  let r := scenario.delete "/b/a" [("versionId", "31")] in
  let s' := fst (handleDelete s r 3000) in
  Status (snd (handleDelete s r 3000)) = 204 /\
  if existsb (fun w => andb (negb (db.ver_is (lookup (Query r) "versionId") w))
                            (db.refers_to "30" w))
             (db.object_versions (db_ s))
  then db.blobs (db_ s') = db.blobs (db_ s) /\ storage_ s' = storage_ s
  else db.blobs (db_ s') = filter (fun b => negb (db.blob_is "30" b)) (db.blobs (db_ s)) /\
       storage_ s' = storage.Delete (storage_ s) "30".
Proof.
  apply (versioned_delete_keeps_a_shared_blob
           (fst (handlePut
                   (fst (handlePut scenario.fresh (scenario.put "/b/a" "X" []) 1000))
                   (scenario.put "/b/c" "X" []) 2000))
           (scenario.delete "/b/a" [("versionId", "31")]) 3000 "b" "a" 1
           (db.ObjectVersion.mk "31" 1 "a" (Some "30") (Some 1)
              (Some (@props.etag_of go_crypto "X")) (Some "application/octet-stream") false 1000)
           "30").
  - reflexivity.
  - vm_compute. reflexivity.
  - discriminate.
  - vm_compute. reflexivity.
  - reflexivity.
  - discriminate.
Defined.
Lemma In_Limit {A : Type} (n : Z) (l : list A) (x : A) : In x (db.Limit n l) -> In x l.
Proof.
  unfold db.Limit. destruct (n <? 0); [auto|]. intros H.
  rewrite <- (firstn_skipn (Z.to_nat n) l). apply in_or_app. now left.
Qed.

Lemma keep_newest_loop_In (d : db.DB) (bucketID keep : Z) (keys : list string) :
  forall (left : Z) (v : db.ObjectVersion.t),
    In v (db.keep_newest_loop d bucketID keep keys left) ->
    exists k v0,
      v = db.keep_columns v0 /\
      In v0 (db.Offset keep
               (gostd.sort_by db.newest_first_desc
                  (filter (fun v => andb (db.noncurrent d bucketID v)
                                         (String.eqb (db.ObjectVersion.Key v) k))
                          (db.object_versions d)))).
Proof.
  induction keys as [|k keys IH]; intros left v; cbn [db.keep_newest_loop]; [intros []|].
  destruct (left <=? 0); [intros []|]. cbv zeta. intros Hin.
  apply in_app_or in Hin. destruct Hin as [Hin|Hin].
  - apply in_map_iff in Hin. destruct Hin as (v0 & Hv & Hin).
    exists k, v0. split; [now symmetry|]. exact (In_Limit _ _ _ Hin).
  - exact (IH _ _ Hin).
Qed.

(** What [ListNoncurrentKeepNewest] lists, for a threshold K >= 0: rows of
    versions of the bucket that are no delete-markers, whose key has an
    Object row with another head, and that come after the K newest such
    versions of their key: the head and the K newest noncurrent versions
    of a key are never listed. *)
Theorem keep_newest_spares_the_head_and_the_newest :
  forall (d : db.DB) (bucketID : Z) (prefix : string) (keep limit : Z)
         (v : db.ObjectVersion.t),
    0 <= keep ->
    In v (db.ListNoncurrentKeepNewest d bucketID prefix keep limit) ->
    exists v0 newer older,
      v = db.keep_columns v0 /\
      In v0 (db.object_versions d) /\
      db.ObjectVersion.BucketID v0 = bucketID /\
      db.ObjectVersion.IsDelete v0 = false /\
      (exists o, In o (db.objects d) /\ db.Object.BucketID o = bucketID /\
                 db.Object.Key o = db.ObjectVersion.Key v0 /\
                 db.Object.HeadVersionID o <> db.ObjectVersion.VersionID v0) /\
      gostd.sort_by db.newest_first_desc
        (filter (fun x => andb (db.noncurrent d bucketID x)
                               (String.eqb (db.ObjectVersion.Key x) (db.ObjectVersion.Key v0)))
                (db.object_versions d)) = (newer ++ older)%list /\
      Z.of_nat (List.length newer) = keep /\
      In v0 older.
Proof.
  intros d bucketID prefix keep limit v Hkeep. unfold db.ListNoncurrentKeepNewest. cbv zeta.
  match goal with |- context [match ?ks with [] => _ | _ :: _ => _ end] =>
    destruct ks as [|k0 ks'] eqn:Hks end; [intros []|].
  destruct (limit <=? 0); [intros []|].
  intros Hin. destruct (keep_newest_loop_In _ _ _ _ _ _ Hin) as (k & v0 & Hv & Hoff).
  unfold db.Offset in Hoff.
  assert (Hneg : (keep <? 0) = false) by (apply Z.ltb_ge; lia).
  rewrite Hneg in Hoff.
  set (sorted := gostd.sort_by db.newest_first_desc
                   (filter (fun v => andb (db.noncurrent d bucketID v)
                                          (String.eqb (db.ObjectVersion.Key v) k))
                           (db.object_versions d))) in *.
  assert (Hsorted : In v0 sorted).
  { rewrite <- (firstn_skipn (Z.to_nat keep) sorted). apply in_or_app. now right. }
  unfold sorted in Hsorted. apply sort_by_In in Hsorted. apply filter_In in Hsorted.
  destruct Hsorted as [Hin0 Hc]. apply andb_true_iff in Hc. destruct Hc as [Hnc Hk].
  apply String.eqb_eq in Hk.
  unfold db.noncurrent in Hnc. apply andb_true_iff in Hnc. destruct Hnc as [Hnc Hobj].
  apply andb_true_iff in Hnc. destruct Hnc as [Hb Hd].
  apply Z.eqb_eq in Hb. apply negb_true_iff in Hd.
  apply existsb_exists in Hobj. destruct Hobj as (o & Ho & Hoc).
  apply andb_true_iff in Hoc. destruct Hoc as [Hois Hhead].
  unfold db.obj_is in Hois. apply andb_true_iff in Hois. destruct Hois as [Hob Hok].
  apply Z.eqb_eq in Hob. apply String.eqb_eq in Hok.
  apply negb_true_iff, String.eqb_neq in Hhead.
  exists v0, (firstn (Z.to_nat keep) sorted), (skipn (Z.to_nat keep) sorted).
  split; [exact Hv|]. split; [exact Hin0|]. split; [exact Hb|]. split; [exact Hd|].
  split; [exists o; repeat split; auto|].
  split; [rewrite Hk; fold sorted; symmetry; apply firstn_skipn|].
  split; [|exact Hoff].
  rewrite firstn_length_le; [lia|].
  destruct (Nat.le_gt_cases (Z.to_nat keep) (List.length sorted)) as [Hle|Hgt]; [exact Hle|].
  rewrite skipn_all2 in Hoff by lia. destruct Hoff.
Qed.

Lemma keep_newest_spares_the_head_and_the_newest_witness :
  let d := db_ (props.after_puts scenario.fresh
                  [(scenario.put "/b/k" "A" [], 1000); (scenario.put "/b/k" "B" [], 2000);
                   (scenario.put "/b/k" "C" [], 3000)]) in
  let v := db.ObjectVersion.mk "31" 1 "k" (Some "30") None None None false 0 in
  exists v0 newer older,
    v = db.keep_columns v0 /\
    In v0 (db.object_versions d) /\
    db.ObjectVersion.BucketID v0 = 1 /\
    db.ObjectVersion.IsDelete v0 = false /\
    (exists o, In o (db.objects d) /\ db.Object.BucketID o = 1 /\
               db.Object.Key o = db.ObjectVersion.Key v0 /\
               db.Object.HeadVersionID o <> db.ObjectVersion.VersionID v0) /\
    gostd.sort_by db.newest_first_desc
      (filter (fun x => andb (db.noncurrent d 1 x)
                             (String.eqb (db.ObjectVersion.Key x) (db.ObjectVersion.Key v0)))
              (db.object_versions d)) = (newer ++ older)%list /\
    Z.of_nat (List.length newer) = 1 /\
    In v0 older.
Proof.
  cbv zeta.
  apply (keep_newest_spares_the_head_and_the_newest
           (db_ (props.after_puts scenario.fresh
                   [(scenario.put "/b/k" "A" [], 1000); (scenario.put "/b/k" "B" [], 2000);
                    (scenario.put "/b/k" "C" [], 3000)]))
           1 "" 1 50
           (db.ObjectVersion.mk "31" 1 "k" (Some "30") None None None false 0)).
  - lia.
  - vm_compute. left. reflexivity.
Defined.
Lemma find_filter_other {A : Type} (p q : A -> bool) (l : list A) :
  (forall x, p x = true -> q x = true) ->
  find p (filter q l) = find p l.
Proof.
  intros H. induction l as [|a l IH]; simpl; [reflexivity|].
  destruct (q a) eqn:Eq; simpl.
  - destruct (p a); [reflexivity|exact IH].
  - destruct (p a) eqn:Ep; [|exact IH]. rewrite (H a Ep) in Eq. discriminate.
Qed.

Lemma find_filter_gone {A : Type} (p q : A -> bool) (l : list A) :
  (forall x, p x = true -> q x = false) ->
  find p (filter q l) = None.
Proof.
  intros H. induction l as [|a l IH]; simpl; [reflexivity|].
  destruct (q a) eqn:Eq; simpl; [|exact IH].
  destruct (p a) eqn:Ep; [|exact IH]. rewrite (H a Ep) in Eq. discriminate.
Qed.

Lemma blob_is_other (id id' : string) (b : db.Blob.t) :
  id <> id' -> db.blob_is id b = true -> negb (db.blob_is id' b) = true.
Proof.
  unfold db.blob_is. intros Hne Hb. apply String.eqb_eq in Hb. rewrite Hb.
  apply negb_true_iff, String.eqb_neq. exact Hne.
Qed.

(** One step of the collector leaves the versions alone, and the record and
    the file of every blob but the candidate's. *)
Lemma gc_one_other (s : Server) (tot : gcTotals) (r : db.GCBlob.t) (id : string) :
  db.GCBlob.ID r <> id ->
  db.object_versions (db_ (fst (gc_one (s, tot) r))) = db.object_versions (db_ s) /\
  db.GetBlob (db_ (fst (gc_one (s, tot) r))) id = db.GetBlob (db_ s) id /\
  storage.Stat (storage_ (fst (gc_one (s, tot) r))) id = storage.Stat (storage_ s) id.
Proof.
  intros Hne. unfold gc_one, db.DeleteBlobRecordTx. cbn [db_ storage_ set_storage].
  destruct (String.eqb (db.GCBlob.ID r) ""); cbn [fst db_ storage_ set_db set_storage].
  - split; [reflexivity|]. split; [reflexivity|]. now apply Stat_Delete_ne.
  - split; [reflexivity|]. split; [|now apply Stat_Delete_ne].
    unfold db.GetBlob. cbn [db.blobs db.with_blobs].
    rewrite find_filter_other; [reflexivity|].
    intros x Hx. apply (blob_is_other id (db.GCBlob.ID r)); [congruence|exact Hx].
Qed.

Lemma gc_fold_other (rows : list db.GCBlob.t) (id : string) :
  (forall r, In r rows -> db.GCBlob.ID r <> id) ->
  forall (s : Server) (tot : gcTotals),
    db.object_versions (db_ (fst (fold_left gc_one rows (s, tot)))) = db.object_versions (db_ s) /\
    db.GetBlob (db_ (fst (fold_left gc_one rows (s, tot)))) id = db.GetBlob (db_ s) id /\
    storage.Stat (storage_ (fst (fold_left gc_one rows (s, tot)))) id
      = storage.Stat (storage_ s) id.
Proof.
  induction rows as [|r rows IH]; intros Hall s tot; cbn [fold_left]; [auto|].
  destruct (gc_one (s, tot) r) as [s1 tot1] eqn:E.
  destruct (IH (fun x Hx => Hall x (or_intror Hx)) s1 tot1) as (Hv & Hb & Hs).
  destruct (gc_one_other s tot r id (Hall r (or_introl eq_refl))) as (Hv1 & Hb1 & Hs1).
  rewrite E in Hv1, Hb1, Hs1. cbn [fst] in Hv1, Hb1, Hs1.
  rewrite Hv, Hb, Hs. auto.
Qed.

Lemma BlobsForGC_In (d : db.DB) (limit : Z) (r : db.GCBlob.t) :
  In r (db.BlobsForGCWithSize d limit) ->
  exists b, In b (db.blobs d) /\ db.GCBlob.ID r = db.Blob.ID b /\
            db.GCBlob.Size r = db.Blob.Size b /\ db.Blob.State b = "ready" /\
            existsb (db.holds (db.Blob.ID b)) (db.object_versions d) = false.
Proof.
  unfold db.BlobsForGCWithSize. intros Hin. apply In_Limit in Hin.
  apply in_map_iff in Hin. destruct Hin as (b & Hr & Hin).
  apply filter_In in Hin. destruct Hin as [Hin Hc].
  apply andb_true_iff in Hc. destruct Hc as [Hh Hst].
  apply negb_true_iff in Hh. apply String.eqb_eq in Hst.
  exists b. subst r. auto.
Qed.

(** The collector never touches a blob that a version row which is no
    delete-marker refers to: after a pass, with whatever batch size, the
    version table is the same and the record and the file of such a blob
    are as they were. *)
Theorem gc_never_collects_a_referenced_blob :
  forall (s : Server) (batch : Z) (v : db.ObjectVersion.t) (blobID : string),
    In v (db.object_versions (db_ s)) ->
    db.ObjectVersion.IsDelete v = false ->
    db.ObjectVersion.BlobID v = Some blobID ->
    let s' := fst (gc_pass s batch) in
    db.object_versions (db_ s') = db.object_versions (db_ s) /\
    db.GetBlob (db_ s') blobID = db.GetBlob (db_ s) blobID /\
    storage.Stat (storage_ s') blobID = storage.Stat (storage_ s) blobID.
Proof.
  intros s batch v blobID Hin Hdel Hblob. cbv zeta. unfold gc_pass.
  apply gc_fold_other. intros r Hr Heq.
  destruct (BlobsForGC_In _ _ _ Hr) as (b & _ & Hid & _ & _ & Hfree).
  pose proof (existsb_false_forall _ _ Hfree v Hin) as Hv.
  unfold db.holds, db.refers_to in Hv. rewrite Hblob, Hdel, <- Hid, Heq in Hv.
  rewrite String.eqb_refl in Hv. discriminate Hv.
Qed.

Lemma gc_never_collects_a_referenced_blob_witness :
  let s := fst (handlePut scenario.fresh (scenario.put "/b/k" "hello" []) 1000) in
  let v := db.ObjectVersion.mk "31" 1 "k" (Some "30") (Some 5)
             (Some (@props.etag_of go_crypto "hello")) (Some "application/octet-stream")
             false 1000 in
  let s' := fst (gc_pass s 100) in
  db.object_versions (db_ s') = db.object_versions (db_ s) /\
  db.GetBlob (db_ s') "30" = db.GetBlob (db_ s) "30" /\
  storage.Stat (storage_ s') "30" = storage.Stat (storage_ s) "30".
Proof.
  apply (gc_never_collects_a_referenced_blob
           (fst (handlePut scenario.fresh (scenario.put "/b/k" "hello" []) 1000)) 100
           (db.ObjectVersion.mk "31" 1 "k" (Some "30") (Some 5)
              (Some (@props.etag_of go_crypto "hello")) (Some "application/octet-stream")
              false 1000) "30").
  - vm_compute. left. reflexivity.
  - reflexivity.
  - reflexivity.
Defined.
Lemma gc_one_gone (s : Server) (tot : gcTotals) (r : db.GCBlob.t) :
  storage.Stat (storage_ (fst (gc_one (s, tot) r))) (db.GCBlob.ID r) = None /\
  (db.GCBlob.ID r = "" \/
   db.GetBlob (db_ (fst (gc_one (s, tot) r))) (db.GCBlob.ID r) = inr db.ErrNotFound).
Proof.
  unfold gc_one, db.DeleteBlobRecordTx. cbn [db_ storage_ set_storage].
  destruct (String.eqb_spec (db.GCBlob.ID r) ""); cbn [fst db_ storage_ set_db set_storage].
  - split; [apply Stat_Delete_eq|now left].
  - split; [apply Stat_Delete_eq|right].
    unfold db.GetBlob. cbn [db.blobs db.with_blobs].
    rewrite find_filter_gone; [reflexivity|].
    intros x Hx. now rewrite Hx.
Qed.

Lemma gc_one_keeps_gone (s : Server) (tot : gcTotals) (r : db.GCBlob.t) (id : string) :
  storage.Stat (storage_ s) id = None /\
  (id = "" \/ db.GetBlob (db_ s) id = inr db.ErrNotFound) ->
  storage.Stat (storage_ (fst (gc_one (s, tot) r))) id = None /\
  (id = "" \/ db.GetBlob (db_ (fst (gc_one (s, tot) r))) id = inr db.ErrNotFound).
Proof.
  intros [Hs Hb]. destruct (string_dec (db.GCBlob.ID r) id) as [<-|Hne].
  - apply gc_one_gone.
  - destruct (gc_one_other s tot r id Hne) as (_ & Hb1 & Hs1).
    rewrite Hs1, Hb1. auto.
Qed.

Lemma gc_fold_gone (rows : list db.GCBlob.t) (id : string) :
  forall (s : Server) (tot : gcTotals),
    (storage.Stat (storage_ s) id = None /\
     (id = "" \/ db.GetBlob (db_ s) id = inr db.ErrNotFound)) \/
    (exists r, In r rows /\ db.GCBlob.ID r = id) ->
    storage.Stat (storage_ (fst (fold_left gc_one rows (s, tot)))) id = None /\
    (id = "" \/ db.GetBlob (db_ (fst (fold_left gc_one rows (s, tot)))) id = inr db.ErrNotFound).
Proof.
  induction rows as [|r rows IH]; intros s tot H; cbn [fold_left].
  - destruct H as [H|(r & [] & _)]. exact H.
  - destruct (gc_one (s, tot) r) as [s1 tot1] eqn:E. apply IH.
    destruct H as [H|(r0 & [->|Hin] & Hid)].
    + left. pose proof (gc_one_keeps_gone s tot r id H) as Hk. now rewrite E in Hk.
    + left. pose proof (gc_one_gone s tot r0) as Hk. rewrite E, Hid in Hk. exact Hk.
    + right. now exists r0.
Qed.

Lemma gc_fold_totals (rows : list db.GCBlob.t) :
  forall (s : Server) (tot : gcTotals),
    totalFiles (snd (fold_left gc_one rows (s, tot)))
    = totalFiles tot
      + Z.of_nat (List.length (filter (fun r => negb (String.eqb (db.GCBlob.ID r) "")) rows)).
Proof.
  induction rows as [|r rows IH]; intros s tot; cbn [fold_left filter].
  - cbn. lia.
  - destruct (gc_one (s, tot) r) as [s1 tot1] eqn:E. rewrite IH.
    unfold gc_one, db.DeleteBlobRecordTx in E. cbn [db_ set_storage] in E.
    destruct (String.eqb (db.GCBlob.ID r) ""); inversion E; subst; cbn [negb totalFiles].
    + reflexivity.
    + cbn [List.length]. lia.
Qed.

(** What a pass of the collector does to its candidates: the file of each
    is gone afterwards, and so is its record unless its id is empty (GORM
    refuses that delete); the pass counts one file per candidate with a
    record deleted; and a non-negative batch size bounds the candidates. *)
Theorem gc_pass_collects_its_candidates :
  forall (s : Server) (batch : Z),
    let rows := db.BlobsForGCWithSize (db_ s) batch in
    let s' := fst (gc_pass s batch) in
    (forall r, In r rows ->
       storage.Stat (storage_ s') (db.GCBlob.ID r) = None /\
       (db.GCBlob.ID r = "" \/ db.GetBlob (db_ s') (db.GCBlob.ID r) = inr db.ErrNotFound)) /\
    totalFiles (snd (gc_pass s batch))
      = Z.of_nat (List.length (filter (fun r => negb (String.eqb (db.GCBlob.ID r) "")) rows)) /\
    (batch < 0 \/ Z.of_nat (List.length rows) <= batch).
Proof.
  intros s batch. cbv zeta. unfold gc_pass. split; [|split].
  - intros r Hr. apply gc_fold_gone. right. now exists r.
  - rewrite gc_fold_totals. reflexivity.
  - unfold db.BlobsForGCWithSize, db.Limit.
    destruct (batch <? 0) eqn:E; [left; now apply Z.ltb_lt|right].
    apply Z.ltb_ge in E. rewrite length_firstn. lia.
Qed.

(** The collector at work: a ready blob that no version refers to is
    removed with its file, the blob of a version stays. *)
Example gc_scenario :
  let s1 := fst (handlePut scenario.fresh (scenario.put "/b/k" "hello" []) 1000) in
  let orphan := db.Blob.mk "ff" "local" "" 3 "sha256:00" "ready" 1000 in
  let s2 := set_storage (set_db s1 (db.with_blobs (db_ s1) (db.blobs (db_ s1) ++ [orphan])%list))
                        (storage.Put (storage_ s1) "ff" "xyz") in
  map db.GCBlob.ID (db.BlobsForGCWithSize (db_ s2) 10) = ["ff"] /\
  map db.Blob.ID (db.blobs (db_ (fst (gc_pass s2 10)))) = ["30"] /\
  map fst (storage_ (fst (gc_pass s2 10))) = ["30"] /\
  snd (gc_pass s2 10) = mkGcTotals 1 3.
Proof. vm_compute. repeat split. Qed.
Lemma create_rules_spec (rules : list Rule.t) (bucketID now : Z) :
  forall (d : db.DB) (seq : Z),
    fst (create_rules d seq bucketID rules now)
    = db.with_lifecycle_rules d
        (db.lifecycle_rules d ++ props.stored_rules seq bucketID rules now)%list /\
    snd (create_rules d seq bucketID rules now) = seq + Z.of_nat (List.length rules).
Proof.
  induction rules as [|x rules IH]; intros d seq.
  - cbn. rewrite app_nil_r. split; [destruct d; reflexivity|lia].
  - cbn [create_rules props.stored_rules]. unfold db.CreateLifecycleRule.
    destruct (IH (db.with_lifecycle_rules d
                    (db.lifecycle_rules d ++
                     [db.LifecycleRule.mk (seq + 1)
                        (db.LifecycleRule.BucketID (ruleFromXML bucketID x))
                        (db.LifecycleRule.Prefix (ruleFromXML bucketID x)) true
                        (db.LifecycleRule.ExpireCurrentAfterDays (ruleFromXML bucketID x))
                        (db.LifecycleRule.ExpireNoncurrentAfterDays (ruleFromXML bucketID x))
                        (db.LifecycleRule.NoncurrentNewerVersionsToKeep (ruleFromXML bucketID x))
                        (db.LifecycleRule.PurgeDeleteMarkersAfterDays (ruleFromXML bucketID x))
                        now now])%list) (seq + 1)) as [IH1 IH2].
    rewrite IH1, IH2. split.
    + unfold db.with_lifecycle_rules. cbn. rewrite <- app_assoc. cbn.
      unfold ruleFromXML. destruct (Rule.NoncurrentVersionExpiration x); reflexivity.
    + cbn [List.length]. lia.
Qed.

Lemma stored_rules_rows (rules : list Rule.t) (bucketID now : Z) :
  forall seq : Z,
    map ruleToXML (props.stored_rules seq bucketID rules now)
      = map (fun x => props.enabled (ruleToXML (ruleFromXML bucketID x))) rules /\
    Forall (fun row => db.LifecycleRule.BucketID row = bucketID /\
                       db.LifecycleRule.Enabled row = true /\
                       db.LifecycleRule.PurgeDeleteMarkersAfterDays row = None)
           (props.stored_rules seq bucketID rules now).
Proof.
  induction rules as [|x rules IH]; intros seq; cbn [props.stored_rules map].
  - split; constructor.
  - destruct (IH (seq + 1)) as [IH1 IH2]. split.
    + rewrite IH1. f_equal.
    + constructor; [cbn; auto|exact IH2].
Qed.

Lemma filter_every {A : Type} (f : A -> bool) (l : list A) :
  Forall (fun x => f x = true) l -> filter f l = l.
Proof.
  induction 1 as [|a l Ha _ IH]; simpl; [reflexivity|]. now rewrite Ha, IH.
Qed.

(** PUT then GET of the lifecycle configuration of a bucket of the caller.
    The PUT answers 200 and replaces the rules of the bucket: the GET
    answers 200 with the rules just put, in their order, each as
    [ruleToXML] reads the stored row: enabled whatever its Status was, with
    a Filter, no ID; every stored row is enabled and has no threshold for
    the purge of delete-markers; the rules of other buckets are the same. *)
Theorem lifecycle_put_then_get :
  forall (s : Server) (seq : Z) (r g : Request) (bucket : string) (bucketID : Z)
         (rules : list Rule.t) (now : Z),
    db.BucketIDByName (db_ s) bucket (UserID r) = inl bucketID ->
    UserID g = UserID r ->
    rules <> [] ->
    let s' := fst (fst (handlePutBucketLifecycle s seq r bucket (Some rules) now)) in
    Status (snd (handlePutBucketLifecycle s seq r bucket (Some rules) now)) = 200 /\
    handleGetBucketLifecycle s' g bucket
      = (WriteHeader (hset [] "Content-Type" "application/xml") 200,
         Some (map (fun x => props.enabled (ruleToXML (ruleFromXML bucketID x))) rules)) /\
    Forall (fun row => db.LifecycleRule.Enabled row = true /\
                       db.LifecycleRule.PurgeDeleteMarkersAfterDays row = None)
           (db.LifecycleRulesOf (db_ s') bucketID) /\
    filter (fun row => negb (db.LifecycleRule.BucketID row =? bucketID))
           (db.lifecycle_rules (db_ s'))
      = filter (fun row => negb (db.LifecycleRule.BucketID row =? bucketID))
               (db.lifecycle_rules (db_ s)).
Proof.
  intros s seq r g bucket bucketID rules now Hb Hu Hne. cbv zeta.
  unfold handlePutBucketLifecycle. rewrite Hb.
  destruct (create_rules_spec rules bucketID now (db.DeleteLifecycleRules (db_ s) bucketID) seq)
    as [Hd _].
  destruct (create_rules (db.DeleteLifecycleRules (db_ s) bucketID) seq bucketID rules now)
    as [d seq'] eqn:Hc.
  cbn [fst snd] in Hd |- *. cbn [Status WriteHeader db_ set_db].
  destruct (stored_rules_rows rules bucketID now seq) as [Hrows Hall].
  assert (Hof : db.LifecycleRulesOf d bucketID = props.stored_rules seq bucketID rules now).
  { unfold db.LifecycleRulesOf. rewrite Hd. cbn [db.lifecycle_rules db.with_lifecycle_rules
      db.DeleteLifecycleRules]. rewrite filter_app, filter_filter.
    rewrite filter_none, filter_every; [reflexivity| |].
    - eapply Forall_impl; [|exact Hall]. cbv beta. intros row (Hrb & _). now apply Z.eqb_eq.
    - apply Forall_forall. intros row _. apply andb_negb_l. }
  split; [reflexivity|]. split; [|split].
  - unfold handleGetBucketLifecycle. rewrite Hu.
    rewrite (BucketIDByName_of_buckets (db_ s) d) by (rewrite Hd; reflexivity).
    rewrite Hb. cbn [db_ set_db]. rewrite Hof, <- Hrows.
    destruct rules as [|x rules]; [contradiction|]. reflexivity.
  - rewrite Hof. eapply Forall_impl; [|exact Hall]. cbv beta. intros row (_ & He & Hp). auto.
  - rewrite Hd. cbn [db.lifecycle_rules db.with_lifecycle_rules db.DeleteLifecycleRules].
    rewrite filter_app, filter_filter.
    rewrite (filter_none _ (props.stored_rules seq bucketID rules now)).
    + rewrite app_nil_r. apply filter_ext. intros row. apply andb_diag.
    + eapply Forall_impl; [|exact Hall]. cbv beta. intros row (Hrb & _).
      apply negb_false_iff. now apply Z.eqb_eq.
Qed.

Lemma lifecycle_put_then_get_witness :
  let rules := [Rule.mk "r1" "Disabled" None (Some (Expiration.mk (Some 30))) None None] in
  let r := mkRequest "PUT" "/b" [("lifecycle", "")] [] 0 "" 1 in
  let g := mkRequest "GET" "/b" [("lifecycle", "")] [] 0 "" 1 in
  let s' := fst (fst (handlePutBucketLifecycle scenario.one_bucket 0 r "b" (Some rules) 1000)) in
  Status (snd (handlePutBucketLifecycle scenario.one_bucket 0 r "b" (Some rules) 1000)) = 200 /\
  handleGetBucketLifecycle s' g "b"
    = (WriteHeader (hset [] "Content-Type" "application/xml") 200,
       Some (map (fun x => props.enabled (ruleToXML (ruleFromXML 1 x))) rules)) /\
  Forall (fun row => db.LifecycleRule.Enabled row = true /\
                     db.LifecycleRule.PurgeDeleteMarkersAfterDays row = None)
         (db.LifecycleRulesOf (db_ s') 1) /\
  filter (fun row => negb (db.LifecycleRule.BucketID row =? 1)) (db.lifecycle_rules (db_ s'))
    = filter (fun row => negb (db.LifecycleRule.BucketID row =? 1))
             (db.lifecycle_rules (db_ scenario.one_bucket)).
Proof.
  apply (lifecycle_put_then_get scenario.one_bucket 0
           (mkRequest "PUT" "/b" [("lifecycle", "")] [] 0 "" 1)
           (mkRequest "GET" "/b" [("lifecycle", "")] [] 0 "" 1) "b" 1
           [Rule.mk "r1" "Disabled" None (Some (Expiration.mk (Some 30))) None None] 1000).
  - reflexivity.
  - reflexivity.
  - discriminate.
Defined.

Lemma stored_rules_In (rules : list Rule.t) (bucketID now : Z) (x : Rule.t) :
  In x rules ->
  forall seq : Z,
    exists row, In row (props.stored_rules seq bucketID rules now) /\
      db.LifecycleRule.Enabled row = true /\
      db.LifecycleRule.PurgeDeleteMarkersAfterDays row = None /\
      db.LifecycleRule.ExpireCurrentAfterDays row
        = match Rule.Expiration x with Some e => Expiration.Days e | None => None end.
Proof.
  induction rules as [|y rules IH]; intros Hin seq; [contradiction|].
  cbn [props.stored_rules]. destruct Hin as [->|Hin].
  - eexists. split; [left; reflexivity|]. cbn.
    unfold ruleFromXML. destruct (Rule.NoncurrentVersionExpiration x); cbn; auto.
  - destruct (IH Hin (seq + 1)) as (row & Hr & Hrest). exists row. split; [now right|exact Hrest].
Qed.

(** A lifecycle configuration put through the API stops the worker.
    [ruleFromXML] never sets the threshold for the purge of delete-markers,
    which the expire-current step dereferences: once a configuration with a
    rule whose Expiration has Days >= 0 is stored, every pass of the
    lifecycle worker panics. *)
Theorem lifecycle_put_with_expiration_makes_the_pass_panic :
  forall (lw : LifecycleWorker) (s : Server) (seq : Z) (r : Request) (bucket : string)
         (bucketID : Z) (rules : list Rule.t) (now later : Z)
         (x : Rule.t) (e : Expiration.t) (c : Z),
    db.BucketIDByName (db_ s) bucket (UserID r) = inl bucketID ->
    In x rules -> Rule.Expiration x = Some e -> Expiration.Days e = Some c -> 0 <= c ->
    exists s',
      onePass lw (fst (fst (handlePutBucketLifecycle s seq r bucket (Some rules) now))) later
      = Panics s'.
Proof.
  intros lw s seq r bucket bucketID rules now later x e c Hb Hin He Hd Hc.
  unfold handlePutBucketLifecycle. rewrite Hb.
  destruct (create_rules_spec rules bucketID now (db.DeleteLifecycleRules (db_ s) bucketID) seq)
    as [Hds _].
  destruct (create_rules (db.DeleteLifecycleRules (db_ s) bucketID) seq bucketID rules now)
    as [d seq'] eqn:Hcr.
  cbn [fst snd] in Hds |- *.
  destruct (stored_rules_In rules bucketID now x Hin seq) as (row & Hrow & Hen & Hp & Hexp).
  rewrite He, Hd in Hexp.
  unfold onePass. apply onePass_rules_panics_on. exists row. split.
  - unfold db.ListEnabledLifecycleRules. apply filter_In. split; [|exact Hen].
    cbn [db_ set_db]. rewrite Hds. cbn [db.lifecycle_rules db.with_lifecycle_rules].
    apply in_or_app. now right.
  - intros s0. now apply onePass_rule_panics with (c := c).
Qed.

Lemma lifecycle_put_with_expiration_makes_the_pass_panic_witness :
  exists s',
    onePass scenario.worker
      (fst (fst (handlePutBucketLifecycle scenario.one_bucket 0
                   (mkRequest "PUT" "/b" [("lifecycle", "")] [] 0 "" 1) "b"
                   (Some [Rule.mk "r1" "Enabled" None (Some (Expiration.mk (Some 30))) None None])
                   1000)))
      2000
    = Panics s'.
Proof.
  apply (lifecycle_put_with_expiration_makes_the_pass_panic scenario.worker
           scenario.one_bucket 0 (mkRequest "PUT" "/b" [("lifecycle", "")] [] 0 "" 1) "b" 1
           [Rule.mk "r1" "Enabled" None (Some (Expiration.mk (Some 30))) None None] 1000 2000
           (Rule.mk "r1" "Enabled" None (Some (Expiration.mk (Some 30))) None None)
           (Expiration.mk (Some 30)) 30).
  - reflexivity.
  - left. reflexivity.
  - reflexivity.
  - reflexivity.
  - lia.
Defined.

(** DELETE of the lifecycle configuration of a bucket of the caller: the
    answer is 204, the bucket has no rule left, so that a GET of the
    configuration answers 404 NoSuchLifecycleConfiguration, and the rules
    of the other buckets are the same. *)
Theorem lifecycle_delete_then_get :
  forall (s : Server) (r g : Request) (bucket : string) (bucketID : Z),
    db.BucketIDByName (db_ s) bucket (UserID r) = inl bucketID ->
    UserID g = UserID r ->
    let s' := fst (handleDeleteBucketLifecycle s r bucket) in
    Status (snd (handleDeleteBucketLifecycle s r bucket)) = 204 /\
    handleGetBucketLifecycle s' g bucket
      = (writeS3Error [] 404 "NoSuchLifecycleConfiguration"
                      "The lifecycle configuration does not exist.", None) /\
    db.lifecycle_rules (db_ s')
      = filter (fun row => negb (db.LifecycleRule.BucketID row =? bucketID))
               (db.lifecycle_rules (db_ s)).
Proof.
  intros s r g bucket bucketID Hb Hu. cbv zeta.
  unfold handleDeleteBucketLifecycle. rewrite Hb. cbn [fst snd Status WriteHeader db_ set_db].
  split; [reflexivity|]. split; [|reflexivity].
  unfold handleGetBucketLifecycle. rewrite Hu. cbn [db_ set_db].
  assert (Hb' : db.BucketIDByName (db.DeleteLifecycleRules (db_ s) bucketID) bucket (UserID r)
                = inl bucketID) by exact Hb.
  rewrite Hb'. unfold db.LifecycleRulesOf, db.DeleteLifecycleRules.
  cbn [db.lifecycle_rules db.with_lifecycle_rules]. rewrite filter_filter.
  rewrite filter_none; [reflexivity|].
  apply Forall_forall. intros row _. apply andb_negb_l.
Qed.

Lemma lifecycle_delete_then_get_witness :
  let s := scenario.with_rules scenario.one_bucket
             [scenario.rule None (Some 1) None None; db.LifecycleRule.mk 2 7 "" true None None None None 0 0] in
  let r := mkRequest "DELETE" "/b" [("lifecycle", "")] [] 0 "" 1 in
  let g := mkRequest "GET" "/b" [("lifecycle", "")] [] 0 "" 1 in
  let s' := fst (handleDeleteBucketLifecycle s r "b") in
  Status (snd (handleDeleteBucketLifecycle s r "b")) = 204 /\
  handleGetBucketLifecycle s' g "b"
    = (writeS3Error [] 404 "NoSuchLifecycleConfiguration"
                    "The lifecycle configuration does not exist.", None) /\
  db.lifecycle_rules (db_ s')
    = filter (fun row => negb (db.LifecycleRule.BucketID row =? 1)) (db.lifecycle_rules (db_ s)).
Proof.
  apply (lifecycle_delete_then_get
           (scenario.with_rules scenario.one_bucket
              [scenario.rule None (Some 1) None None;
               db.LifecycleRule.mk 2 7 "" true None None None None 0 0])
           (mkRequest "DELETE" "/b" [("lifecycle", "")] [] 0 "" 1)
           (mkRequest "GET" "/b" [("lifecycle", "")] [] 0 "" 1) "b" 1).
  - reflexivity.
  - reflexivity.
Defined.
Lemma app_assoc_s (a b c : string) : ((a ++ b) ++ c = a ++ (b ++ c))%string.
Proof. induction a as [|x a IH]; simpl; [reflexivity|now rewrite IH]. Qed.

Lemma app_empty_r (a : string) : (a ++ "" = a)%string.
Proof. induction a as [|x a IH]; simpl; [reflexivity|now rewrite IH]. Qed.

Lemma rev_string_acc_app (a acc : string) :
  gostd.rev_string_acc a acc = (gostd.rev_string a ++ acc)%string.
Proof.
  unfold gostd.rev_string. revert acc.
  induction a as [|x a IH]; intros acc; simpl; [reflexivity|].
  rewrite IH. rewrite (IH (String x "")). rewrite app_assoc_s. reflexivity.
Qed.

Lemma rev_string_cons (x : ascii) (a : string) :
  gostd.rev_string (String x a) = (gostd.rev_string a ++ String x "")%string.
Proof. unfold gostd.rev_string at 1. simpl. apply rev_string_acc_app. Qed.

Lemma rev_string_app (a b : string) :
  gostd.rev_string (a ++ b) = (gostd.rev_string b ++ gostd.rev_string a)%string.
Proof.
  induction a as [|x a IH]; simpl.
  - change (gostd.rev_string "") with "". now rewrite app_empty_r.
  - rewrite !rev_string_cons, IH. apply app_assoc_s.
Qed.

Lemma rev_string_involutive (a : string) : gostd.rev_string (gostd.rev_string a) = a.
Proof.
  induction a as [|x a IH]; [reflexivity|].
  rewrite rev_string_cons, rev_string_app, IH. reflexivity.
Qed.

Lemma trim_left_begins (c : ascii) (s : string) :
  props.begins c (gostd.trim_left (fun d => negb (Ascii.eqb d c)) s) = false.
Proof.
  induction s as [|d s IH]; simpl; [reflexivity|].
  destruct (Ascii.eqb d c) eqn:E; simpl; [exact IH|exact E].
Qed.

Lemma trim_left_suffix (keep : ascii -> bool) (s : string) :
  exists pre, s = (pre ++ gostd.trim_left keep s)%string.
Proof.
  induction s as [|d s [pre IH]]; simpl; [now exists ""|].
  destruct (keep d); [now exists ""|]. exists (String d pre). simpl. now rewrite <- IH.
Qed.

Lemma begins_app (c : ascii) (a b : string) :
  a <> "" -> props.begins c (a ++ b) = props.begins c a.
Proof. destruct a; [contradiction|reflexivity]. Qed.

(** [strings.Trim path "/"] neither begins nor ends with a slash. *)
Lemma Trim1_ends (s : string) (c : ascii) :
  props.begins c (gostd.Trim1 s c) = false /\
  props.begins c (gostd.rev_string (gostd.Trim1 s c)) = false.
Proof.
  unfold gostd.Trim1, gostd.trim_both.
  set (keep := fun d => negb (Ascii.eqb d c)).
  set (t := gostd.trim_left keep s).
  set (u := gostd.trim_left keep (gostd.rev_string t)).
  split.
  - destruct (trim_left_suffix keep (gostd.rev_string t)) as [pre Hpre]. fold u in Hpre.
    assert (Ht : t = (gostd.rev_string u ++ gostd.rev_string pre)%string).
    { rewrite <- (rev_string_involutive t), Hpre. apply rev_string_app. }
    pose proof (trim_left_begins c s) as Hb. fold keep in Hb. fold t in Hb.
    destruct (gostd.rev_string u) as [|x p] eqn:Hp; [reflexivity|].
    rewrite Ht in Hb. exact Hb.
  - rewrite rev_string_involutive. apply trim_left_begins.
Qed.

Lemma IndexByte_split (s : string) (c : ascii) (i : nat) :
  gostd.IndexByte s c = Some i ->
  exists a z, s = (a ++ String c z)%string /\ String.length a = i /\ gostd.IndexByte a c = None.
Proof.
  revert i. induction s as [|d s IH]; simpl; intros i H; [discriminate|].
  destruct (Ascii.eqb d c) eqn:E.
  - inversion H; subst i. apply Ascii.eqb_eq in E. subst d. now exists "", s.
  - destruct (gostd.IndexByte s c) as [j|] eqn:Hj; [|discriminate].
    inversion H; subst i. destruct (IH j eq_refl) as (a & z & Hs & Hl & Hn).
    exists (String d a), z. simpl. rewrite Hs, Hl, E, Hn. auto.
Qed.

(** The two parts [strings.SplitN(strings.Trim(path, "/"), "/", 2)] yields,
    when it yields two, are not empty. *)
Lemma Trim_SplitN_parts (path : string) :
  match gostd.SplitN2 (gostd.Trim1 path "/") "/" with
  | [b; k] => b <> "" /\ k <> ""
  | [_] => True
  | _ => False
  end.
Proof.
  unfold gostd.SplitN2.
  destruct (Trim1_ends path "/") as [Hb He].
  destruct (gostd.IndexByte (gostd.Trim1 path "/") "/") as [i|] eqn:Hi; [|exact I].
  destruct (IndexByte_split _ _ _ Hi) as (a & z & Hs & Hl & _).
  rewrite Hs in *. subst i. rewrite slice_to_app, slice_from_app. split.
  - intros ->. simpl in Hb. discriminate Hb.
  - intros ->. rewrite rev_string_app in He. simpl in He. discriminate He.
Qed.

(** Behind the router the object handlers always find a bucket and a key
    in the path: a request the router hands to [handlePut], [handleGet] or
    [handleDelete] has a path that [parseBucketKey] accepts, so that their
    400 InvalidRequest answer is never given; and a request it treats as a
    bucket request has a path that [parseBucketKey] refuses. *)
Theorem Router_agrees_with_parseBucketKey :
  forall r : Request,
    match Router r with
    | ToPut | ToGet | ToDelete =>
        exists bucket key, parseBucketKey (Path r) = Some (bucket, key) /\
                           bucket <> "" /\ key <> ""
    | ToPutBucketLifecycle bucket | ToGetBucketLifecycle bucket
    | ToDeleteBucketLifecycle bucket | ToPutBucket bucket | ToDeleteBucket bucket
    | ToListObjectsV2 bucket =>
        parseBucketKey (Path r) = None /\ bucket = gostd.Trim1 (Path r) "/"
    | ToListBuckets => Path r = "/" /\ Method r = "GET"
    | Refused resp => Status resp = 405 \/ Status resp = 501
    end.
Proof.
  intros r. unfold Router, parseBucketKey.
  destruct (String.eqb_spec (Path r) "/") as [Hroot|Hroot].
  - destruct (String.eqb_spec (Method r) "GET"); cbn; auto.
  - pose proof (Trim_SplitN_parts (Path r)) as Hparts.
    unfold gostd.SplitN2 in *.
    destruct (gostd.IndexByte (gostd.Trim1 (Path r) "/") "/") as [i|] eqn:Hi.
    + destruct Hparts as [Hb Hk].
      apply String.eqb_neq in Hb, Hk. rewrite Hb, Hk. cbn [orb].
      apply String.eqb_neq in Hb, Hk.
      repeat match goal with
             | |- context [if String.eqb (Method r) ?m then _ else _] =>
                 destruct (String.eqb (Method r) m)
             end; cbn; eauto.
    + repeat match goal with
             | |- context [if ?b then _ else _] => destruct b
             end; cbn; auto.
Qed.
Lemma EnsureBucket_owner_found (d d' : db.DB) (name : string) (ownerID now : Z)
    (x : db.res Z) :
  db.EnsureBucket d name ownerID now = (d', x) ->
  ownerID <> 0 ->
  (forall b, find (fun b => String.eqb (db.Bucket.Name b) name) (db.buckets d) = Some b ->
             db.Bucket.OwnerID b = 0 \/ db.Bucket.OwnerID b = ownerID) ->
  exists b', find (fun b => String.eqb (db.Bucket.Name b) name) (db.buckets d') = Some b' /\
             db.Bucket.OwnerID b' = ownerID /\ db.Bucket.Name b' = name.
Proof.
  unfold db.EnsureBucket. intros He Hne Hown.
  assert (Hmap : forall (l : list db.Bucket.t) b,
            find (fun b => String.eqb (db.Bucket.Name b) name) l = Some b ->
            find (fun b => String.eqb (db.Bucket.Name b) name)
                 (map (db.set_owner (db.Bucket.ID b) ownerID) l)
            = Some (db.set_owner (db.Bucket.ID b) ownerID b)).
  { induction l as [|a l IH]; simpl; intros b Hf; [discriminate|].
    assert (Hn : db.Bucket.Name (db.set_owner (db.Bucket.ID b) ownerID a) = db.Bucket.Name a)
      by (unfold db.set_owner; destruct (db.Bucket.ID a =? db.Bucket.ID b); reflexivity).
    rewrite Hn.
    destruct (String.eqb (db.Bucket.Name a) name) eqn:En.
    - inversion Hf; subst a. reflexivity.
    - now apply IH. }
  assert (Hname : forall (l : list db.Bucket.t) b,
            find (fun b => String.eqb (db.Bucket.Name b) name) l = Some b ->
            db.Bucket.Name b = name).
  { intros l b Hf. apply find_some in Hf. now apply String.eqb_eq. }
  destruct (find (fun b => String.eqb (db.Bucket.Name b) name) (db.buckets d)) as [b|] eqn:Hf.
  - destruct (andb (db.Bucket.OwnerID b =? 0) (negb (ownerID =? 0))) eqn:Ha;
      inversion He; subst d' x; cbn [db.buckets db.with_buckets].
    + rewrite (Hmap _ _ Hf). eexists. split; [reflexivity|].
      unfold db.set_owner. rewrite Z.eqb_refl. cbn. split; [reflexivity|exact (Hname _ _ Hf)].
    + exists b. split; [exact Hf|]. split; [|exact (Hname _ _ Hf)].
      destruct (Hown b eq_refl) as [H0|Ho]; [|exact Ho].
      rewrite H0 in Ha. apply Z.eqb_neq in Hne. rewrite Hne in Ha. discriminate Ha.
  - cbn [db.Bucket.OwnerID db.Bucket.ID] in He.
    apply Z.eqb_neq in Hne. rewrite Hne in He. cbn in He.
    inversion He; subst d' x; cbn [db.buckets db.with_buckets].
    set (b := db.Bucket.mk (db.seq_buckets d + 1) name 0 now).
    assert (Hfb : find (fun b => String.eqb (db.Bucket.Name b) name) (db.buckets d ++ [b])
                  = Some b).
    { rewrite (find_app_none _ _ _ Hf). cbn. now rewrite String.eqb_refl. }
    change (db.seq_buckets d + 1) with (db.Bucket.ID b) at 1.
    rewrite (Hmap _ _ Hfb). eexists. split; [reflexivity|].
    unfold db.set_owner. rewrite Z.eqb_refl. cbn. auto.
Qed.

(** PUT /{bucket} then GET /.  For a user of the database (not the
    anonymous caller) and a bucket name that is new, unowned or the
    caller's: the PUT answers 200 with the Location of the bucket; a second
    PUT of the same bucket changes nothing and answers the same; and the
    list of buckets the caller then gets names the bucket, and names
    exactly the buckets the caller owns. *)
Theorem put_bucket_then_list_buckets :
  forall (s : Server) (r g : Request) (bucket : string) (now later : Z) (u : db.User.t),
    bucket <> "" -> UserID r <> 0 -> UserID g = UserID r ->
    db.FindUserByID (db_ s) (UserID r) = inl u ->
    (forall b, find (fun b => String.eqb (db.Bucket.Name b) bucket) (db.buckets (db_ s)) = Some b ->
               db.Bucket.OwnerID b = 0 \/ db.Bucket.OwnerID b = UserID r) ->
    let s' := fst (handlePutBucket s r bucket now) in
    Status (snd (handlePutBucket s r bucket now)) = 200 /\
    lookup (Hdr (snd (handlePutBucket s r bucket now))) "Location" = "/" ++ bucket /\
    handlePutBucket s' r bucket later = (s', snd (handlePutBucket s r bucket now)) /\
    exists payload,
      handleListBuckets s' g
        = Done (WriteHeader (hset [] "Content-Type" "application/xml") 200, Some payload) /\
      OwnerID payload = gostd.itoa (db.User.ID u) /\
      In bucket (map S3Bucket.Name (Buckets payload)) /\
      forall n, In n (map S3Bucket.Name (Buckets payload)) <->
                exists b, In b (db.buckets (db_ s')) /\ db.Bucket.Name b = n /\
                          db.Bucket.OwnerID b = UserID r.
Proof.
  intros s r g bucket now later u Hne Huid Hg Hu Hown. cbv zeta.
  unfold handlePutBucket. apply String.eqb_neq in Hne. rewrite Hne.
  destruct (db.EnsureBucket (db_ s) bucket (UserID r) now) as [d [id|e]] eqn:He.
  2:{ destruct (EnsureBucket_spec (db_ s) bucket (UserID r) now) as (d0 & He0 & _).
      rewrite He in He0. discriminate He0. }
  destruct (EnsureBucket_owner_found _ _ _ _ _ _ He Huid Hown) as (b' & Hf' & Ho' & Hn').
  cbn [fst snd Status Hdr WriteHeader db_ set_db].
  split; [reflexivity|]. split.
  { rewrite lookup_hset_ne by discriminate. apply lookup_hset_eq. }
  split.
  { unfold db.EnsureBucket. rewrite Hf', Ho'.
    apply Z.eqb_neq in Huid. rewrite Huid. cbn [andb].
    rewrite set_db_id. reflexivity. }
  unfold handleListBuckets. rewrite Hg. cbn [db_ set_db].
  assert (Hu' : db.FindUserByID d (UserID r) = inl u).
  { unfold db.FindUserByID in *.
    assert (Hus : db.users d = db.users (db_ s)).
    { unfold db.EnsureBucket in He.
      destruct (find _ (db.buckets (db_ s))); destruct (andb _ _); inversion He; reflexivity. }
    now rewrite Hus. }
  rewrite Hu'. eexists. split; [reflexivity|]. cbn [OwnerID Buckets].
  split; [reflexivity|].
  assert (Hnames : forall n,
    In n (map S3Bucket.Name
            (map (fun b => S3Bucket.mk (db.Bucket.Name b) (db.Bucket.CreatedAt b))
                 (db.ListBuckets d (UserID r)))) <->
    exists b, In b (db.buckets d) /\ db.Bucket.Name b = n /\ db.Bucket.OwnerID b = UserID r).
  { intros n. rewrite map_map. cbn [S3Bucket.Name]. rewrite in_map_iff.
    unfold db.ListBuckets. apply Z.eqb_neq in Huid. rewrite Huid. cbn [negb].
    split.
    - intros (b & Hb & Hin). apply sort_by_In, filter_In in Hin. destruct Hin as [Hin Ho].
      apply Z.eqb_eq in Ho. exists b. auto.
    - intros (b & Hin & Hb & Ho). exists b. split; [exact Hb|].
      apply sort_by_In, filter_In. split; [exact Hin|now apply Z.eqb_eq]. }
  split; [|exact Hnames].
  apply Hnames. exists b'. apply find_some in Hf'. destruct Hf' as [Hin _]. auto.
Qed.

Lemma put_bucket_then_list_buckets_witness :
  let s := set_db scenario.fresh
             (db.mkDB [] [] [] [] [db.User.mk 1 "AKIA" "secret" "active" 0] [] [] 0 0) in
  let r := mkRequest "PUT" "/photos" [] [] 0 "" 1 in
  let g := mkRequest "GET" "/" [] [] 0 "" 1 in
  let s' := fst (handlePutBucket s r "photos" 1000) in
  Status (snd (handlePutBucket s r "photos" 1000)) = 200 /\
  lookup (Hdr (snd (handlePutBucket s r "photos" 1000))) "Location" = "/" ++ "photos" /\
  handlePutBucket s' r "photos" 2000 = (s', snd (handlePutBucket s r "photos" 1000)) /\
  exists payload,
    handleListBuckets s' g
      = Done (WriteHeader (hset [] "Content-Type" "application/xml") 200, Some payload) /\
    OwnerID payload = gostd.itoa 1 /\
    In "photos" (map S3Bucket.Name (Buckets payload)) /\
    forall n, In n (map S3Bucket.Name (Buckets payload)) <->
              exists b, In b (db.buckets (db_ s')) /\ db.Bucket.Name b = n /\
                        db.Bucket.OwnerID b = 1.
Proof.
  apply (put_bucket_then_list_buckets
           (set_db scenario.fresh
              (db.mkDB [] [] [] [] [db.User.mk 1 "AKIA" "secret" "active" 0] [] [] 0 0))
           (mkRequest "PUT" "/photos" [] [] 0 "" 1) (mkRequest "GET" "/" [] [] 0 "" 1)
           "photos" 1000 2000 (db.User.mk 1 "AKIA" "secret" "active" 0)).
  - discriminate.
  - discriminate.
  - reflexivity.
  - reflexivity.
  - intros b Hb. discriminate Hb.
Defined.
Lemma insert_sorted_ascending {A : Type} (f : A -> string) (x : A) (l : list A) :
  props.ascending (map f l) = true ->
  props.ascending (map f (gostd.insert_sorted (fun a b => String.leb (f a) (f b)) x l)) = true.
Proof.
  induction l as [|y l IH]; intros Hl; [reflexivity|].
  cbn [gostd.insert_sorted]. destruct (String.leb (f x) (f y)) eqn:E.
  - cbn [map props.ascending]. cbn [map] in Hl. rewrite E. exact Hl.
  - assert (Hyx : String.leb (f y) (f x) = true).
    { destruct (String.leb_total (f x) (f y)) as [H|H]; [congruence|exact H]. }
    assert (Hl' : props.ascending (map f l) = true).
    { cbn [map props.ascending] in Hl. destruct (map f l); [reflexivity|].
      now apply andb_true_iff in Hl. }
    specialize (IH Hl').
    destruct l as [|z l]; [cbn; now rewrite Hyx|].
    cbn [gostd.insert_sorted] in *. cbn [map props.ascending] in Hl.
    apply andb_true_iff in Hl. destruct Hl as [Hyz _].
    destruct (String.leb (f x) (f z)).
    + cbn [map props.ascending]. rewrite Hyx. exact IH.
    + cbn [map props.ascending] in *. rewrite Hyz. exact IH.
Qed.

Lemma sort_by_ascending {A : Type} (f : A -> string) (l : list A) :
  props.ascending (map f (gostd.sort_by (fun a b => String.leb (f a) (f b)) l)) = true.
Proof.
  unfold gostd.sort_by. induction l as [|x l IH]; [reflexivity|].
  cbn [fold_right]. now apply insert_sorted_ascending.
Qed.

Lemma ascending_tail (x : string) (l : list string) :
  props.ascending (x :: l) = true -> props.ascending l = true.
Proof.
  destruct l; [reflexivity|]. cbn [props.ascending]. intros H.
  now apply andb_true_iff in H.
Qed.

Lemma ascending_firstn (n : nat) (l : list string) :
  props.ascending l = true -> props.ascending (firstn n l) = true.
Proof.
  revert l. induction n as [|n IH]; intros l Hl; [reflexivity|].
  destruct l as [|x l]; [reflexivity|]. cbn [firstn].
  pose proof (IH l (ascending_tail _ _ Hl)) as Ht.
  destruct l as [|y l]; [destruct n; reflexivity|].
  destruct n; [reflexivity|]. cbn [firstn] in *. cbn [props.ascending] in Hl |- *.
  apply andb_true_iff in Hl. destruct Hl as [Hxy _]. rewrite Hxy. exact Ht.
Qed.

Lemma Limit_firstn {A : Type} (n : Z) (l : list A) :
  exists k, db.Limit n l = firstn k l.
Proof.
  unfold db.Limit. destruct (n <? 0).
  - exists (List.length l). symmetry. apply firstn_all.
  - now exists (Z.to_nat n).
Qed.

Lemma list_rows_In (d : db.DB) (bucketID : Z) (prefix afterKey : string) (r : db.row) :
  In r (db.list_rows d bucketID prefix afterKey) <->
  exists ov, props.live d bucketID (db.row_Key r) ov /\
             props.within prefix afterKey (db.row_Key r) /\
             r = db.mkRow (db.row_Key r) (db.ObjectVersion.ETag ov) (db.ObjectVersion.Size ov)
                          (db.ObjectVersion.CreatedAt ov).
Proof.
  unfold db.list_rows. rewrite sort_by_In, in_flat_map. split.
  - intros (o & Ho & Hr). apply in_map_iff in Hr. destruct Hr as (ov & Hr & Hov).
    apply filter_In in Ho. destruct Ho as [Ho Hl].
    apply filter_In in Hov. destruct Hov as [Hov Hc].
    apply andb_true_iff in Hc. destruct Hc as [Hid Hdel].
    unfold db.ver_is in Hid. apply String.eqb_eq in Hid. apply negb_true_iff in Hdel.
    unfold db.listed in Hl. apply andb_true_iff in Hl. destruct Hl as [Hl Hafter].
    apply andb_true_iff in Hl. destruct Hl as [Hb Hpre]. apply Z.eqb_eq in Hb.
    subst r. cbn [db.row_Key]. exists ov.
    split; [exists o; repeat split; try assumption; reflexivity|]. split; [|reflexivity].
    split.
    + destruct (String.eqb_spec prefix ""); [now left|now right].
    + destruct (String.eqb_spec afterKey ""); [now left|now right].
  - intros (ov & (o & Ho & Hb & Hk & Hov & Hid & Hdel) & [Hpre Hafter] & Hr).
    exists o. split.
    + apply filter_In. split; [exact Ho|]. unfold db.listed.
      rewrite Hk, (proj2 (Z.eqb_eq _ _) Hb). cbn [andb].
      apply andb_true_iff. split.
      * destruct (String.eqb_spec prefix ""); [reflexivity|].
        destruct Hpre; [contradiction|assumption].
      * destruct (String.eqb_spec afterKey ""); [reflexivity|].
        destruct Hafter; [contradiction|assumption].
    + apply in_map_iff. exists ov. split; [rewrite Hr, Hk; reflexivity|].
      apply filter_In. split; [exact Hov|].
      unfold db.ver_is. rewrite Hid, String.eqb_refl, Hdel. reflexivity.
Qed.


Lemma url_val_char (n : Z) : 0 <= n < 64 -> base64.url_val (base64.url_char n) = Some n.
Proof.
  intros Hn. rewrite <- (Z2Nat.id n) by lia.
  assert (Hk : (Z.to_nat n < 64)%nat) by lia.
  generalize dependent (Z.to_nat n). clear. intros k Hk.
  do 64 (destruct k as [|k]; [vm_compute; reflexivity|]). lia.
Qed.

Lemma byte_range (a : ascii) : 0 <= base64.byte a < 256.
Proof.
  unfold base64.byte. pose proof (N_ascii_bounded a) as H. lia.
Qed.

Lemma chr_byte (a : ascii) (n : Z) : n mod 256 = base64.byte a -> base64.chr n = a.
Proof.
  unfold base64.chr, base64.byte. intros ->. rewrite N2Z.id. apply ascii_N_embedding.
Qed.

Lemma sextets_cons (n : Z) (s : string) :
  0 <= n < 64 ->
  base64.sextets (String (base64.url_char n) s)
  = match base64.sextets s with Some l => Some (n :: l) | None => None end.
Proof. intros Hn. cbn [base64.sextets]. now rewrite url_val_char. Qed.

(** A continuation token decodes to the key it was made of. *)
Lemma base64_round_trip (s : string) :
  base64.DecodeString (base64.EncodeToString s) = Some s.
Proof.
  unfold base64.DecodeString.
  assert (H : forall n s, (String.length s < n)%nat ->
            exists l, base64.sextets (base64.EncodeToString s) = Some l /\
                      base64.quanta l = Some s).
  { induction n as [|n IH]; intros t Hn; [lia|].
    destruct t as [|a [|b [|c rest]]].
    - exists []. split; reflexivity.
    - pose proof (byte_range a) as Ha.
      cbn [base64.EncodeToString].
      rewrite !sextets_cons by (try apply Z.div_pos; try apply Z.mod_pos_bound;
        try (split; [Z.div_mod_to_equations; lia|Z.div_mod_to_equations; lia]); lia).
      cbn [base64.sextets]. eexists. split; [reflexivity|]. cbn [base64.quanta].
      rewrite (chr_byte a); [reflexivity|]. Z.div_mod_to_equations. lia.
    - pose proof (byte_range a) as Ha. pose proof (byte_range b) as Hb.
      cbn [base64.EncodeToString].
      rewrite !sextets_cons by (Z.div_mod_to_equations; lia).
      cbn [base64.sextets]. eexists. split; [reflexivity|]. cbn [base64.quanta].
      rewrite (chr_byte a), (chr_byte b); [reflexivity| |];
        Z.div_mod_to_equations; lia.
    - pose proof (byte_range a) as Ha. pose proof (byte_range b) as Hb.
      pose proof (byte_range c) as Hc.
      destruct (IH rest) as (l & Hl & Hq); [cbn in Hn; lia|].
      cbn [base64.EncodeToString].
      rewrite !sextets_cons by (Z.div_mod_to_equations; lia).
      rewrite Hl. eexists. split; [reflexivity|]. cbn [base64.quanta]. rewrite Hq.
      rewrite (chr_byte a), (chr_byte b), (chr_byte c); [reflexivity| | |];
        Z.div_mod_to_equations; lia. }
  destruct (H (S (String.length s)) s (Nat.lt_succ_diag_r _)) as (l & Hl & Hq).
  now rewrite Hl.
Qed.
Lemma ascii_compare_refl (a : ascii) : Ascii.compare a a = Eq.
Proof. unfold Ascii.compare. apply N.compare_refl. Qed.

Lemma string_compare_refl (s : string) : String.compare s s = Eq.
Proof. induction s as [|a s IH]; simpl; [reflexivity|]. now rewrite ascii_compare_refl. Qed.

Lemma string_compare_Lt_trans (a b c : string) :
  String.compare a b = Lt -> String.compare b c = Lt -> String.compare a c = Lt.
Proof.
  revert b c. induction a as [|x a IH]; intros [|y b] [|z c]; simpl;
    try discriminate; try reflexivity.
  destruct (Ascii.compare x y) eqn:Exy; try discriminate;
    destruct (Ascii.compare y z) eqn:Eyz; try discriminate; intros H1 H2.
  - apply Ascii.compare_eq_iff in Exy, Eyz. subst. rewrite ascii_compare_refl. eauto.
  - apply Ascii.compare_eq_iff in Exy. subst. now rewrite Eyz.
  - apply Ascii.compare_eq_iff in Eyz. subst. now rewrite Exy.
  - unfold Ascii.compare in *. rewrite N.compare_lt_iff in *.
    assert (Hxz : (N_of_ascii x < N_of_ascii z)%N) by lia.
    apply N.compare_lt_iff in Hxz. now rewrite Hxz.
Qed.

Lemma ltb_leb (a b : string) : String.ltb a b = negb (String.leb b a).
Proof.
  unfold String.ltb, String.leb. rewrite (String.compare_antisym b a).
  destruct (String.compare a b); reflexivity.
Qed.

Lemma leb_ltb_trans (a b c : string) :
  String.leb a b = true -> String.ltb b c = true -> String.ltb a c = true.
Proof.
  unfold String.leb, String.ltb. intros H1 H2.
  destruct (String.compare b c) eqn:Ebc; try discriminate.
  destruct (String.compare a b) eqn:Eab; try discriminate.
  - apply String.compare_eq_iff in Eab. subst. now rewrite Ebc.
  - now rewrite (string_compare_Lt_trans _ _ _ Eab Ebc).
Qed.

Lemma leb_trans (a b c : string) :
  String.leb a b = true -> String.leb b c = true -> String.leb a c = true.
Proof.
  intros H1 H2. destruct (String.eqb_spec b c) as [->|Hne]; [exact H1|].
  assert (Hlt : String.ltb b c = true).
  { rewrite ltb_leb. apply negb_true_iff. apply not_true_is_false. intros H3.
    apply Hne. now apply String.leb_antisym. }
  pose proof (leb_ltb_trans _ _ _ H1 Hlt) as H. rewrite ltb_leb in H.
  apply negb_true_iff in H. destruct (String.leb_total a c) as [Hac|Hca]; [exact Hac|congruence].
Qed.

Lemma leb_refl (a : string) : String.leb a a = true.
Proof. unfold String.leb. now rewrite string_compare_refl. Qed.

(** In an ascending list every key is at most the keys after it. *)
Lemma ascending_app (l1 l2 : list string) (x y : string) :
  props.ascending (l1 ++ l2) = true -> In x l1 -> In y l2 -> String.leb x y = true.
Proof.
  induction l1 as [|a l1 IH]; intros Hasc Hx Hy; [contradiction|].
  assert (Hhead : forall l z, props.ascending (a :: l) = true -> In z l ->
                              String.leb a z = true).
  { clear. induction l as [|b l IH]; intros z Hasc Hz; [contradiction|].
    cbn [props.ascending] in Hasc. apply andb_true_iff in Hasc. destruct Hasc as [Hab Hl].
    destruct Hz as [<-|Hz]; [exact Hab|].
    apply IH; [|exact Hz]. destruct l as [|c l]; [reflexivity|].
    cbn [props.ascending] in Hl |- *. apply andb_true_iff in Hl. destruct Hl as [Hbc Hl].
    rewrite (leb_trans _ _ _ Hab Hbc). exact Hl. }
  destruct Hx as [<-|Hx].
  - apply (Hhead (l1 ++ l2)%list); [exact Hasc|]. apply in_or_app. now right.
  - apply IH; [|exact Hx|exact Hy]. exact (ascending_tail _ _ Hasc).
Qed.

Lemma rev_last {A : Type} (l : list A) (x : A) (l' : list A) :
  rev l = x :: l' -> l = (rev l' ++ [x])%list.
Proof.
  intros H. rewrite <- (rev_involutive l), H. reflexivity.
Qed.

Lemma list_rows_keys_ascending (d : db.DB) (bucketID : Z) (prefix afterKey : string) :
  props.ascending (map db.row_Key (db.list_rows d bucketID prefix afterKey)) = true.
Proof. unfold db.list_rows. apply (sort_by_ascending db.row_Key). Qed.

(** The no-delimiter listing in terms of the rows of the query: the page
    is the first [max_keys] rows, truncated when there are more. *)
Lemma ListObjectsV2_page (d : db.DB) (p : db.ListV2Params.t) (afterKey : string) :
  db.ListV2Params.Delimiter p = "" ->
  (if String.eqb (db.ListV2Params.ContTokenRaw p) ""
   then Some (db.ListV2Params.StartAfter p)
   else base64.DecodeString (db.ListV2Params.ContTokenRaw p)) = Some afterKey ->
  let all := db.list_rows d (db.ListV2Params.BucketID p) (db.ListV2Params.Prefix p) afterKey in
  let m := Z.to_nat (props.max_keys p) in
  exists res,
    db.ListObjectsV2 d p = inl res /\
    map db.ListV2Item.Key (db.ListV2Result.Objects res) = firstn m (map db.row_Key all) /\
    db.ListV2Result.IsTruncated res = (m <? List.length all)%nat /\
    (if db.ListV2Result.IsTruncated res
     then exists keys lastKey,
            firstn m (map db.row_Key all) = (keys ++ [lastKey])%list /\
            db.ListV2Result.NextToken res
            = if negb (String.eqb lastKey "") then base64.EncodeToString lastKey else ""
     else db.ListV2Result.NextToken res = "").
Proof.
  intros Hdel Hafter. cbv zeta. unfold db.ListObjectsV2. rewrite Hdel, Hafter.
  cbn [String.eqb negb]. fold (props.max_keys p). cbv zeta.
  set (m := props.max_keys p).
  assert (Hm : 0 < m <= 1000).
  { unfold m, props.max_keys.
    destruct (db.ListV2Params.MaxKeys p <=? 0) eqn:E1; cbn [orb]; [lia|].
    destruct (1000 <? db.ListV2Params.MaxKeys p) eqn:E2; [lia|].
    apply Z.leb_gt in E1. apply Z.ltb_ge in E2. lia. }
  set (all := db.list_rows d (db.ListV2Params.BucketID p) (db.ListV2Params.Prefix p) afterKey).
  set (rows := db.Limit (m + 1) all).
  assert (Hrows : rows = firstn (S (Z.to_nat m)) all).
  { unfold rows, db.Limit. replace (m + 1 <? 0) with false by (symmetry; apply Z.ltb_ge; lia).
    f_equal. lia. }
  assert (Hkeys : map db.ListV2Item.Key (map db.item_of rows) = map db.row_Key rows)
    by (rewrite map_map; reflexivity).
  rewrite length_map. change (Z.of_nat (@List.length string [])) with 0.
  rewrite Z.add_0_r, Z.sub_0_r.
  replace (m <? 0) with false by (symmetry; apply Z.ltb_ge; lia).
  rewrite orb_diag.
  assert (Hlen : List.length rows = Nat.min (S (Z.to_nat m)) (List.length all))
    by (rewrite Hrows; apply length_firstn).
  destruct (m <? Z.of_nat (List.length rows)) eqn:Et.
  - apply Z.ltb_lt in Et.
    assert (Hmore : (Z.to_nat m < List.length all)%nat) by lia.
    eexists. split; [reflexivity|].
    cbn [db.ListV2Result.Objects db.ListV2Result.IsTruncated db.ListV2Result.NextToken].
    assert (Hpage : map db.ListV2Item.Key (firstn (Z.to_nat m) (map db.item_of rows))
                    = firstn (Z.to_nat m) (map db.row_Key all)).
    { rewrite <- firstn_map, Hkeys, Hrows, <- !firstn_map, firstn_firstn.
      f_equal. lia. }
    split; [exact Hpage|]. split; [symmetry; now apply Nat.ltb_lt|].
    destruct (rev (firstn (Z.to_nat m) (map db.item_of rows))) as [|it l'] eqn:Hrev.
    + exfalso. apply (f_equal (@List.length _)) in Hrev.
      rewrite length_rev, length_firstn, length_map in Hrev. cbn in Hrev. lia.
    + apply rev_last in Hrev.
      exists (map db.ListV2Item.Key (rev l')), (db.ListV2Item.Key it).
      split; [|reflexivity]. rewrite <- Hpage, Hrev, map_app. reflexivity.
  - apply Z.ltb_ge in Et.
    assert (Hfew : (List.length all <= Z.to_nat m)%nat) by lia.
    eexists. split; [reflexivity|].
    cbn [db.ListV2Result.Objects db.ListV2Result.IsTruncated db.ListV2Result.NextToken].
    split; [|split].
    + rewrite Hkeys, Hrows, !firstn_all2; [reflexivity| |]; rewrite ?length_map; lia.
    + symmetry. apply Nat.ltb_ge. exact Hfew.
    + reflexivity.
Qed.

Lemma encode_empty (s : string) : base64.EncodeToString s = "" -> s = "".
Proof. destruct s as [|a [|b [|c rest]]]; [reflexivity| | |]; discriminate. Qed.

(** Paging through a listing without a delimiter.  The page that the
    continuation token of a first page leads to holds only keys greater
    than every key of the first page, and no key is skipped: a key of the
    bucket with a live head, within the prefix and after the starting key,
    is on the first page, or on the second, or greater than every key of a
    second page that is itself truncated. *)
Theorem list_objects_next_page_continues :
  forall (d : db.DB) (p : db.ListV2Params.t) (res1 : db.ListV2Result.t),
    db.ListV2Params.Delimiter p = "" ->
    db.ListV2Params.ContTokenRaw p = "" ->
    db.ListObjectsV2 d p = inl res1 ->
    db.ListV2Result.NextToken res1 <> "" ->
    let p2 := db.ListV2Params.mk (db.ListV2Params.BucketID p) (db.ListV2Params.Prefix p) ""
                (db.ListV2Params.MaxKeys p) (db.ListV2Params.StartAfter p)
                (db.ListV2Result.NextToken res1) (db.ListV2Params.FetchOwner p)
                (db.ListV2Params.EncodingType p) in
    let keys1 := map db.ListV2Item.Key (db.ListV2Result.Objects res1) in
    exists res2,
      db.ListObjectsV2 d p2 = inl res2 /\
      let keys2 := map db.ListV2Item.Key (db.ListV2Result.Objects res2) in
      (forall k1 k2, In k1 keys1 -> In k2 keys2 -> String.ltb k1 k2 = true) /\
      (forall key ov,
         props.live d (db.ListV2Params.BucketID p) key ov ->
         props.within (db.ListV2Params.Prefix p) (db.ListV2Params.StartAfter p) key ->
         In key keys1 \/ In key keys2 \/
         (db.ListV2Result.IsTruncated res2 = true /\
          forall k2, In k2 keys2 -> String.ltb k2 key = true)).
Proof.
  intros d p res1 Hdel Htok Hres1 Hnext. cbv zeta.
  assert (Hafter1 : (if String.eqb (db.ListV2Params.ContTokenRaw p) ""
                     then Some (db.ListV2Params.StartAfter p)
                     else base64.DecodeString (db.ListV2Params.ContTokenRaw p))
                    = Some (db.ListV2Params.StartAfter p)) by (now rewrite Htok).
  destruct (ListObjectsV2_page d p _ Hdel Hafter1) as (r1 & Hr1 & Hk1 & Ht1 & Hn1).
  cbv zeta in Hk1, Ht1, Hn1.
  rewrite Hres1 in Hr1. inversion Hr1; subst r1. clear Hr1.
  set (m := Z.to_nat (props.max_keys p)) in *.
  set (all1 := db.list_rows d (db.ListV2Params.BucketID p) (db.ListV2Params.Prefix p)
                 (db.ListV2Params.StartAfter p)) in *.
  destruct (db.ListV2Result.IsTruncated res1); [|contradiction].
  destruct Hn1 as (keys & lastKey & Hsplit & Hnt).
  destruct (String.eqb_spec lastKey "") as [Hl|Hl]; cbn [negb] in Hnt; [contradiction|].
  set (p2 := db.ListV2Params.mk (db.ListV2Params.BucketID p) (db.ListV2Params.Prefix p) ""
               (db.ListV2Params.MaxKeys p) (db.ListV2Params.StartAfter p)
               (db.ListV2Result.NextToken res1) (db.ListV2Params.FetchOwner p)
               (db.ListV2Params.EncodingType p)).
  assert (Hafter2 : (if String.eqb (db.ListV2Params.ContTokenRaw p2) ""
                     then Some (db.ListV2Params.StartAfter p2)
                     else base64.DecodeString (db.ListV2Params.ContTokenRaw p2))
                    = Some lastKey).
  { cbn [p2 db.ListV2Params.ContTokenRaw]. rewrite Hnt.
    destruct (String.eqb_spec (base64.EncodeToString lastKey) "") as [E|_].
    - apply encode_empty in E. contradiction.
    - apply base64_round_trip. }
  destruct (ListObjectsV2_page d p2 _ eq_refl Hafter2) as (res2 & Hr2 & Hk2 & Ht2 & _).
  cbv zeta in Hk2, Ht2.
  change (props.max_keys p2) with (props.max_keys p) in Hk2, Ht2. fold m in Hk2, Ht2.
  change (db.ListV2Params.BucketID p2) with (db.ListV2Params.BucketID p) in Hk2, Ht2.
  change (db.ListV2Params.Prefix p2) with (db.ListV2Params.Prefix p) in Hk2, Ht2.
  set (all2 := db.list_rows d (db.ListV2Params.BucketID p) (db.ListV2Params.Prefix p) lastKey)
    in *.
  exists res2. split; [exact Hr2|]. cbv zeta. rewrite Hk1, Hk2.
  pose proof (list_rows_keys_ascending d (db.ListV2Params.BucketID p)
                (db.ListV2Params.Prefix p) (db.ListV2Params.StartAfter p)) as Hasc1.
  pose proof (list_rows_keys_ascending d (db.ListV2Params.BucketID p)
                (db.ListV2Params.Prefix p) lastKey) as Hasc2.
  fold all1 in Hasc1. fold all2 in Hasc2.
  assert (Hlast_in : In lastKey (firstn m (map db.row_Key all1)))
    by (rewrite Hsplit; apply in_or_app; right; now left).
  assert (Hle1 : forall k1, In k1 (firstn m (map db.row_Key all1)) ->
                            String.leb k1 lastKey = true).
  { intros k1 Hin. rewrite Hsplit in Hin. apply in_app_or in Hin.
    destruct Hin as [Hin|[<-|[]]]; [|apply leb_refl].
    apply (ascending_app keys [lastKey]); [|exact Hin|now left].
    rewrite <- Hsplit. now apply ascending_firstn. }
  assert (Hgt2 : forall k2, In k2 (map db.row_Key all2) -> String.ltb lastKey k2 = true).
  { intros k2 Hin. apply in_map_iff in Hin. destruct Hin as (r & <- & Hr).
    apply list_rows_In in Hr. destruct Hr as (ov & _ & [_ [Ha|Ha]] & _);
      [contradiction|exact Ha]. }
  assert (Hsub : forall (l : list string) k, In k (firstn m l) -> In k l).
  { intros l k Hin. rewrite <- (firstn_skipn m l). apply in_or_app. now left. }
  split.
  - intros k1 k2 H1 H2. apply (leb_ltb_trans k1 lastKey k2); [now apply Hle1|].
    apply Hgt2, (Hsub _ _ H2).
  - intros key ov Hlive [Hpre Haft].
    destruct (String.leb key lastKey) eqn:Ecmp.
    + left.
      assert (Hin : In key (map db.row_Key all1)).
      { apply in_map_iff.
        exists (db.mkRow key (db.ObjectVersion.ETag ov) (db.ObjectVersion.Size ov)
                         (db.ObjectVersion.CreatedAt ov)).
        split; [reflexivity|]. apply list_rows_In. exists ov. cbn [db.row_Key].
        split; [exact Hlive|]. split; [split; assumption|reflexivity]. }
      rewrite <- (firstn_skipn m (map db.row_Key all1)) in Hin, Hasc1.
      apply in_app_or in Hin. destruct Hin as [Hin|Hin]; [exact Hin|].
      pose proof (ascending_app _ _ _ _ Hasc1 Hlast_in Hin) as Hge.
      rewrite (String.leb_antisym _ _ Ecmp Hge). exact Hlast_in.
    + right.
      assert (Hlt : String.ltb lastKey key = true) by (rewrite ltb_leb, Ecmp; reflexivity).
      assert (Hin : In key (map db.row_Key all2)).
      { apply in_map_iff.
        exists (db.mkRow key (db.ObjectVersion.ETag ov) (db.ObjectVersion.Size ov)
                         (db.ObjectVersion.CreatedAt ov)).
        split; [reflexivity|]. apply list_rows_In. exists ov. cbn [db.row_Key].
        split; [exact Hlive|]. split; [split; [exact Hpre|now right]|reflexivity]. }
      destruct (in_dec string_dec key (firstn m (map db.row_Key all2))) as [Hon|Hoff];
        [now left|right].
      rewrite <- (firstn_skipn m (map db.row_Key all2)) in Hin, Hasc2.
      apply in_app_or in Hin. destruct Hin as [Hin|Hin]; [contradiction|].
      split.
      * rewrite Ht2. apply Nat.ltb_lt.
        destruct (Nat.le_gt_cases (List.length all2) m) as [Hle|Hgt]; [|exact Hgt].
        rewrite skipn_all2 in Hin by (rewrite length_map; exact Hle). destruct Hin.
      * intros k2 Hk2in.
        pose proof (ascending_app _ _ _ _ Hasc2 Hk2in Hin) as Hle.
        rewrite ltb_leb. apply negb_true_iff, not_true_is_false. intros Hge.
        apply Hoff. rewrite (String.leb_antisym _ _ Hge Hle). exact Hk2in.
Qed.

Lemma list_objects_next_page_continues_witness :
  let d := db_ (props.after_puts scenario.fresh
                  [(scenario.put "/b/k1" "A" [], 1000); (scenario.put "/b/k2" "B" [], 2000);
                   (scenario.put "/b/k3" "C" [], 3000)]) in
  let p := db.ListV2Params.mk 1 "" "" 1 "" "" false "" in
  exists res1,
    db.ListObjectsV2 d p = inl res1 /\
    let p2 := db.ListV2Params.mk 1 "" "" 1 "" (db.ListV2Result.NextToken res1) false "" in
    let keys1 := map db.ListV2Item.Key (db.ListV2Result.Objects res1) in
    exists res2,
      db.ListObjectsV2 d p2 = inl res2 /\
      let keys2 := map db.ListV2Item.Key (db.ListV2Result.Objects res2) in
      (forall k1 k2, In k1 keys1 -> In k2 keys2 -> String.ltb k1 k2 = true) /\
      (forall key ov,
         props.live d 1 key ov -> props.within "" "" key ->
         In key keys1 \/ In key keys2 \/
         (db.ListV2Result.IsTruncated res2 = true /\
          forall k2, In k2 keys2 -> String.ltb k2 key = true)).
Proof.
  cbv zeta. eexists. split; [vm_compute; reflexivity|].
  apply (list_objects_next_page_continues
           (db_ (props.after_puts scenario.fresh
                   [(scenario.put "/b/k1" "A" [], 1000); (scenario.put "/b/k2" "B" [], 2000);
                    (scenario.put "/b/k3" "C" [], 3000)]))
           (db.ListV2Params.mk 1 "" "" 1 "" "" false "")).
  - reflexivity.
  - reflexivity.
  - vm_compute. reflexivity.
  - discriminate.
Defined.
Lemma In_firstn {A : Type} (n : nat) (l : list A) (x : A) : In x (firstn n l) -> In x l.
Proof.
  intros H. rewrite <- (firstn_skipn n l). apply in_or_app. now left.
Qed.

(** Whatever the parameters, the objects of a listing are rows of the
    query. *)
Lemma ListObjectsV2_objects (d : db.DB) (p : db.ListV2Params.t) (res : db.ListV2Result.t) :
  db.ListObjectsV2 d p = inl res ->
  exists afterKey,
    forall it, In it (db.ListV2Result.Objects res) ->
      exists r, In r (db.list_rows d (db.ListV2Params.BucketID p)
                                   (db.ListV2Params.Prefix p) afterKey) /\
                it = db.item_of r.
Proof.
  unfold db.ListObjectsV2.
  destruct (if String.eqb (db.ListV2Params.ContTokenRaw p) ""
            then Some (db.ListV2Params.StartAfter p)
            else base64.DecodeString (db.ListV2Params.ContTokenRaw p)) as [afterKey|];
    [|discriminate].
  cbv zeta. intros Hres. exists afterKey.
  set (rows := db.Limit _ _) in Hres.
  set (objects := if negb (String.eqb (db.ListV2Params.Delimiter p) "")
                  then map db.item_of (filter _ rows) else map db.item_of rows) in Hres.
  assert (Hobj : forall it, In it objects ->
            exists r, In r (db.list_rows d (db.ListV2Params.BucketID p)
                                         (db.ListV2Params.Prefix p) afterKey) /\
                      it = db.item_of r).
  { intros it Hit. unfold objects in Hit.
    destruct (negb (String.eqb (db.ListV2Params.Delimiter p) ""));
      apply in_map_iff in Hit; destruct Hit as (r & <- & Hr);
      [apply filter_In in Hr; destruct Hr as [Hr _]|];
      exists r; (split; [exact (In_Limit _ _ _ Hr)|reflexivity]). }
  clearbody objects rows.
  match type of Hres with (if ?c then _ else _) = _ => destruct c end;
    inversion Hres; subst res; cbn [db.ListV2Result.Objects]; [|exact Hobj].
  match goal with |- context [if ?c then _ else _] => destruct c end; [|exact Hobj].
  intros it Hit. apply Hobj. exact (In_firstn _ _ _ Hit).
Qed.

(** A deleted key is not listed.  After a DELETE without versionId (on a
    bucket of the caller, with a fresh id drawn) the key has its Object row
    still, but no listing of the bucket, whatever its parameters, has the
    key among its objects. *)
Theorem deleted_key_is_not_listed :
  forall (s : Server) (r : Request) (now : Z) (bucket key : string) (bucketID : Z)
         (p : db.ListV2Params.t) (res : db.ListV2Result.t),
    parseBucketKey (Path r) = Some (bucket, key) ->
    db.BucketIDByName (db_ s) bucket (UserID r) = inl bucketID ->
    lookup (Query r) "versionId" = "" ->
    (forall v, In v (db.object_versions (db_ s)) ->
               db.ObjectVersion.VersionID v <> entropy s (drawn s)) ->
    db.ListV2Params.BucketID p = bucketID ->
    db.ListObjectsV2 (db_ (fst (handleDelete s r now))) p = inl res ->
    existsb (db.obj_is bucketID key) (db.objects (db_ (fst (handleDelete s r now)))) = true /\
    ~ In key (map db.ListV2Item.Key (db.ListV2Result.Objects res)).
Proof.
  intros s r now bucket key bucketID p res Hp Hb Hvid Hfresh Hpb.
  unfold handleDelete. rewrite Hp, Hb, Hvid. unfold deleteTx_body.
  destruct (Lock_total (db_ s) bucketID key now) as [d1 Hd1]. rewrite Hd1.
  destruct (Lock_versions _ _ _ _ _ Hd1) as (Hve1 & _).
  pose proof (Lock_exists _ _ _ _ _ Hd1) as Hex1.
  cbn [String.eqb]. unfold GenVersionID, genHex. cbv beta iota zeta.
  cbn [db_ storage_ entropy drawn set_db].
  set (dm := db.ObjectVersion.mk (entropy s (drawn s)) bucketID key None None None None
                                 true now).
  unfold db.CreateDeleteMarkerTx, db.create_version. fold dm.
  assert (Hnew : existsb (db.ver_is (db.ObjectVersion.VersionID dm)) (db.object_versions d1)
                 = false).
  { rewrite Hve1. apply not_true_is_false. intros E.
    apply existsb_exists in E. destruct E as (x & Hx & Hxv).
    unfold db.ver_is in Hxv. apply String.eqb_eq in Hxv. now apply Hfresh in Hx. }
  rewrite Hnew. unfold db.SetHeadVersionTx.
  cbn [del_status]. change (204 =? 404) with false. cbv iota.
  cbn [fst db_ set_db]. intros Hres.
  split.
  { cbn [db.objects db.with_objects db.with_versions].
    destruct (existsb_find _ _ Hex1) as (o & Ho & Hois).
    apply existsb_exists. eexists. split.
    - apply in_map_iff. exists o. split; [reflexivity|]. apply find_some in Ho. tauto.
    - rewrite Hois. unfold db.obj_is in *. cbn. exact Hois. }
  destruct (ListObjectsV2_objects _ _ _ Hres) as (afterKey & Hobj).
  intros Hin. apply in_map_iff in Hin. destruct Hin as (it & Hkey & Hit).
  destruct (Hobj it Hit) as (row & Hrow & ->). cbn [db.item_of db.ListV2Item.Key] in Hkey.
  apply list_rows_In in Hrow. destruct Hrow as (ov & Hlive & _).
  rewrite Hkey, Hpb in Hlive.
  destruct Hlive as (o & Ho & Hob & Hok & Hov & Hid & Hdel).
  cbn [db.objects db.object_versions db.with_objects db.with_versions] in Ho, Hov.
  apply in_map_iff in Ho. destruct Ho as (o0 & Ho0 & _).
  assert (Hois : db.obj_is bucketID key o0 = true).
  { destruct (db.obj_is bucketID key o0) eqn:E; [reflexivity|]. subst o.
    unfold db.obj_is in E. rewrite Hob, Hok, Z.eqb_refl, String.eqb_refl in E.
    discriminate E. }
  rewrite Hois in Ho0. subst o. cbn [db.Object.HeadVersionID] in Hid.
  apply in_app_or in Hov. destruct Hov as [Hov|[<-|[]]].
  - rewrite Hve1 in Hov. exact (Hfresh ov Hov Hid).
  - discriminate Hdel.
Qed.

Lemma deleted_key_is_not_listed_witness :
  let s := fst (handlePut scenario.fresh (scenario.put "/b/k" "hello" []) 1000) in
  let r := scenario.delete "/b/k" [] in
  let p := db.ListV2Params.mk 1 "" "" 1000 "" "" false "" in
  exists res,
    db.ListObjectsV2 (db_ (fst (handleDelete s r 2000))) p = inl res /\
    existsb (db.obj_is 1 "k") (db.objects (db_ (fst (handleDelete s r 2000)))) = true /\
    ~ In "k" (map db.ListV2Item.Key (db.ListV2Result.Objects res)).
Proof.
  cbv zeta. eexists. split; [vm_compute; reflexivity|].
  apply (deleted_key_is_not_listed
           (fst (handlePut scenario.fresh (scenario.put "/b/k" "hello" []) 1000))
           (scenario.delete "/b/k" []) 2000 "b" "k" 1
           (db.ListV2Params.mk 1 "" "" 1000 "" "" false "")).
  - reflexivity.
  - vm_compute. reflexivity.
  - reflexivity.
  - intros v Hv. vm_compute in Hv. destruct Hv as [<-|[]]. vm_compute. discriminate.
  - reflexivity.
  - vm_compute. reflexivity.
Defined.



